(** * SentryOS demo: streaming relay endpoints and instrumentation facade

    A shallow embedding of the server side of the repository:

    - [Facade]        the instrumentation helpers (sentry-utils): every
                      helper is one call into the observability SDK;
    - [ChatRoute]     POST /api/chat, the streaming relay (route.ts);
    - [EmailChat]     POST /api/email-agent/chat, the non-streaming chat;
    - [EmailAnalyze]  POST /api/email-agent/analyze, the analysis endpoint;
    - [GongChat]      POST /api/gong-agent/chat, the simulated Gong relay.

    and, on the browser side ([Browser]), of the page that calls the two
    email endpoints ([EmailAgentPage]).

    Asynchronous functions are written in direct style: [await] is
    sequencing in the monad [M] below.  Everything the handlers obtain from
    the platform (clock, random identifiers, the agent SDK's answer to a
    query, the client going away) is read from the [World]; everything they
    do to it (frames written, agent queries opened) is recorded there, and
    the calls into the observability SDK are collected as write-only output.

    What is outside the repository is taken as follows.
    - The agent SDK is a stub: [agent] maps the arguments of a query to the
      run it answers with, a list of messages that ends by completing or by
      raising.
    - The observability SDK is its recording stub: a call is appended to
      the output and returns.
    - The response stream follows the Streams standard: [enqueue] and
      [close] raise a [TypeError] once the stream is closed or cancelled.
    - A frame is kept as the event it carries, not as its encoded text.
    - Strings are sequences of code units below 256, one [ascii] each.  A
      JSON number keeps its source text and stands for the double that text
      denotes: it prints, and is zero or not, as that double ([Number]).
      Clock readings are integers (milliseconds), and the Gong API's answer
      is taken at its declared type. *)

From Stdlib Require Import String Ascii List ZArith Lia Bool Arith DecimalString.
Import ListNotations.
Open Scope string_scope.
Set Warnings "-register-all".

(* ================================================================== *)
(** * JavaScript values                                                 *)
(* ================================================================== *)

Module JS.

(** A parsed JSON document.  A number keeps its source text; an object
    keeps its members in insertion order, with distinct keys. *)
Inductive json : Type :=
| JNull
| JBool (b : bool)
| JNum (lexeme : string)
| JStr (s : string)
| JArr (items : list json)
| JObj (members : list (string * json)).

(** A JavaScript value as the handlers meet it: [None] is [undefined]. *)
Definition jsval := option json.

Definition dict := list (string * json).

Inductive Exn : Type :=
| TypeError (msg : string)
| SyntaxError (msg : string)
| Error (msg : string).

Inductive Outcome (A : Type) : Type :=
| Returned (a : A)
| Threw (e : Exn).
Arguments Returned {A} a.
Arguments Threw {A} e.

Definition newline : string := String (ascii_of_nat 10) "".

Definition num (z : Z) : json := JNum (NilZero.string_of_int (Z.to_int z)).
Definition num_nat (n : nat) : json := num (Z.of_nat n).
Definition decimal (n : nat) : string := NilZero.string_of_uint (Nat.to_uint n).

Fixpoint lookup (k : string) (members : dict) : jsval :=
  match members with
  | [] => None
  | (k', v) :: rest => if String.eqb k k' then Some v else lookup k rest
  end.

(** [o.k] for a key that no built-in prototype defines ([messages], [role],
    [content], [todos], ...): reading it off [null] or [undefined] raises,
    off an object it is the member, off anything else it is [undefined]. *)
Definition get (o : jsval) (k : string) : Outcome jsval :=
  match o with
  | None =>
      Threw (TypeError ("Cannot read properties of undefined (reading '" ++ k ++ "')"))
  | Some JNull =>
      Threw (TypeError ("Cannot read properties of null (reading '" ++ k ++ "')"))
  | Some (JObj members) => Returned (lookup k members)
  | Some _ => Returned None
  end.

(** [o.length]. *)
Definition get_length (o : jsval) : Outcome jsval :=
  match o with
  | Some (JStr s) => Returned (Some (num_nat (String.length s)))
  | Some (JArr items) => Returned (Some (num_nat (List.length items)))
  | _ => get o "length"
  end.

(** [o?.k].  *)
Definition get_opt (o : jsval) (k : string) : jsval :=
  match o with
  | Some (JObj members) => lookup k members
  | _ => None
  end.

(** ** Numbers

    [Number.toString lexeme] is what [String(x)] gives for the number [x]
    that [JSON.parse] makes of the literal: the literal is rounded to the
    nearest double (ties to even), and the double is printed with the
    fewest digits that read back as the same double. *)
Module Number.

Definition digit_value (c : ascii) : option Z :=
  let n := nat_of_ascii c in
  if ((48 <=? n)%nat && (n <=? 57)%nat)%bool then Some (Z.of_nat (n - 48)) else None.

(** The digits at the head of [s]: their value after [acc], how many they
    are, and what follows them. *)
Fixpoint read_digits (s : string) (acc count : Z) : Z * Z * string :=
  match s with
  | EmptyString => (acc, count, s)
  | String c rest =>
      match digit_value c with
      | Some d => read_digits rest (10 * acc + d) (count + 1)
      | None => (acc, count, s)
      end
  end.

(** A literal [-? int frac? exp?] denotes [mantissa * 10 ^ exponent],
    negated when [negative]. *)
Record Literal : Type := mkLiteral { negative : bool; mantissa : Z; exponent : Z }.

Definition read_literal (lexeme : string) : Literal :=
  let '(negative, s1) :=
    match lexeme with
    | String "-" rest => (true, rest)
    | _ => (false, lexeme)
    end in
  let '(int_part, _, s2) := read_digits s1 0 0 in
  let '(mantissa, fraction_digits, s3) :=
    match s2 with
    | String "." rest => read_digits rest int_part 0
    | _ => (int_part, 0%Z, s2)
    end in
  let exponent :=
    match s3 with
    | String c rest =>
        if (Ascii.eqb c "e" || Ascii.eqb c "E")%bool then
          match rest with
          | String "-" digits => (- fst (fst (read_digits digits 0 0)))%Z
          | String "+" digits => fst (fst (read_digits digits 0 0))
          | digits => fst (fst (read_digits digits 0 0))
          end
        else 0%Z
    | EmptyString => 0%Z
    end in
  mkLiteral negative mantissa (exponent - fraction_digits).

(** A double-precision magnitude: zero, infinity, or
    [significand * 2 ^ exponent2] with a significand below [2 ^ 53] (at
    least [2 ^ 52] unless [exponent2] is the least one, [-1074]). *)
Inductive Double : Type :=
| Zero
| Infinite
| Finite (significand exponent2 : Z).

(** The double nearest to [p / q] for positive [p] and [q], ties to the
    even significand. *)
Definition nearest (p q : Z) : Double :=
  let t := (Z.log2 p - Z.log2 q)%Z in
  let reaches := if (0 <=? t)%Z then (q * 2 ^ t <=? p)%Z else (q <=? p * 2 ^ (- t))%Z in
  let floor_log2 := if reaches then t else (t - 1)%Z in
  let e2 := Z.max (floor_log2 - 52) (-1074) in
  let numerator := if (e2 <? 0)%Z then (p * 2 ^ (- e2))%Z else p in
  let denominator := if (e2 <? 0)%Z then q else (q * 2 ^ e2)%Z in
  let quotient := (numerator / denominator)%Z in
  let remainder := (numerator mod denominator)%Z in
  let rounded :=
    if (denominator <? 2 * remainder)%Z then (quotient + 1)%Z
    else if (2 * remainder =? denominator)%Z
         then (if Z.odd quotient then quotient + 1 else quotient)%Z
         else quotient in
  if (rounded =? 0)%Z then Zero
  else
    let '(significand, e2) :=
      if (rounded =? 2 ^ 53)%Z then ((2 ^ 52)%Z, (e2 + 1)%Z) else (rounded, e2) in
    if (971 <? e2)%Z then Infinite else Finite significand e2.

Definition same (a b : Double) : bool :=
  match a, b with
  | Zero, Zero | Infinite, Infinite => true
  | Finite s e, Finite s' e' => ((s =? s') && (e =? e'))%Z%bool
  | _, _ => false
  end.

Definition digits_of (z : Z) : string := NilZero.string_of_uint (N.to_uint (Z.to_N z)).

Definition digits10 (z : Z) : Z := Z.of_nat (String.length (digits_of z)).

(** The double a literal denotes (its magnitude). *)
Definition to_double (l : Literal) : Double :=
  let m := mantissa l in
  let e := exponent l in
  if (m =? 0)%Z then Zero
  else if (400 <? digits10 m + e)%Z then Infinite
  else if (digits10 m + e <? -400)%Z then Zero
  else if (e <? 0)%Z then nearest m (10 ^ (- e)) else nearest (m * 10 ^ e) 1.

(** The least [t >= from] with [b <= a * 10 ^ t]. *)
Fixpoint leading (fuel : nat) (a b from : Z) : Z :=
  match fuel with
  | O => from
  | S fuel' => if (b <=? a * 10 ^ from)%Z then from else leading fuel' a b (from + 1)
  end.

(** [n] with [10 ^ (n - 1) <= a / b < 10 ^ n]. *)
Definition position (a b : Z) : Z :=
  if (b <=? a)%Z then digits10 (a / b) else (1 - leading 400 a b 1)%Z.

Fixpoint strip_zeros (fuel : nat) (s : Z) : Z :=
  match fuel with
  | O => s
  | S fuel' => if (s mod 10 =? 0)%Z then strip_zeros fuel' (s / 10) else s
  end.

(** The decimal with [k] digits nearest to [a / b] that reads back as the
    same double, if one of the two neighbours does: its digits, and the
    position [n] of its decimal point ([0.d1d2... * 10 ^ n]). *)
Definition with_digits (d : Double) (a b n k : Z) : option (Z * Z) :=
  let x := (n - k)%Z in
  let p := if (x <? 0)%Z then (a * 10 ^ (- x))%Z else a in
  let q := if (x <? 0)%Z then b else (b * 10 ^ x)%Z in
  let lo := (p / q)%Z in
  let hi := (lo + 1)%Z in
  let r := (p mod q)%Z in
  let back (s : Z) := if (x <? 0)%Z then nearest s (10 ^ (- x)) else nearest (s * 10 ^ x) 1 in
  let finish (s : Z) :=
    if (s =? 10 ^ k)%Z then Some (1%Z, (n + 1)%Z) else Some (strip_zeros 20 s, n) in
  let lo_ok := same (back lo) d in
  let hi_ok := same (back hi) d in
  let lo_nearer := ((2 * r <? q) || ((2 * r =? q) && Z.even lo))%Z%bool in
  match lo_ok, hi_ok with
  | true, true => if lo_nearer then finish lo else finish hi
  | true, false => finish lo
  | false, true => finish hi
  | false, false => None
  end.

Fixpoint shortest (fuel : nat) (d : Double) (a b n k : Z) : Z * Z :=
  match fuel with
  | O => (0%Z, 0%Z)
  | S fuel' =>
      match with_digits d a b n k with
      | Some found => found
      | None => shortest fuel' d a b n (k + 1)
      end
  end.

Fixpoint zeros (n : nat) : string :=
  match n with O => "" | S n' => String "0" (zeros n') end.

(** Number::toString for a positive finite number with digits [ds] and
    decimal point at [n]. *)
Definition format (ds : string) (n : Z) : string :=
  let k := Z.of_nat (String.length ds) in
  if ((k <=? n) && (n <=? 21))%Z%bool then ds ++ zeros (Z.to_nat (n - k))
  else if ((0 <? n) && (n <=? 21))%Z%bool then
    substring 0 (Z.to_nat n) ds ++ "." ++ substring (Z.to_nat n) (Z.to_nat (k - n)) ds
  else if ((-6 <? n) && (n <=? 0))%Z%bool then "0." ++ zeros (Z.to_nat (- n)) ++ ds
  else
    let e := (n - 1)%Z in
    let shown := (if (e <? 0)%Z then "-" else "+") ++ digits_of (Z.abs e) in
    if (k =? 1)%Z then ds ++ "e" ++ shown
    else substring 0 1 ds ++ "." ++ substring 1 (Z.to_nat (k - 1)) ds ++ "e" ++ shown.

(** [String(x)] for the number [x] a JSON literal denotes. *)
Definition toString (lexeme : string) : string :=
  let l := read_literal lexeme in
  match to_double l with
  | Zero => "0"
  | Infinite => (if negative l then "-" else "") ++ "Infinity"
  | Finite significand e2 =>
      let a := if (e2 <? 0)%Z then significand else (significand * 2 ^ e2)%Z in
      let b := if (e2 <? 0)%Z then (2 ^ (- e2))%Z else 1%Z in
      let '(s, n) := shortest 17 (Finite significand e2) a b (position a b) 1 in
      (if negative l then "-" else "") ++ format (digits_of s) n
  end.

(** ToBoolean of that number. *)
Definition nonzero (lexeme : string) : bool :=
  match to_double (read_literal lexeme) with Zero => false | _ => true end.

End Number.

(** ToBoolean. *)
Definition truthy (v : jsval) : bool :=
  match v with
  | None | Some JNull => false
  | Some (JBool b) => b
  | Some (JNum lexeme) => Number.nonzero lexeme
  | Some (JStr s) => negb (String.eqb s "")
  | Some (JArr _) | Some (JObj _) => true
  end.

(** [Array.isArray]. *)
Definition isArray (v : jsval) : bool :=
  match v with Some (JArr _) => true | _ => false end.

(** [v === 'text']. *)
Definition is_string (v : jsval) (text : string) : bool :=
  match v with Some (JStr s) => String.eqb s text | _ => false end.

Definition join (sep : string) (parts : list string) : string :=
  String.concat sep parts.

(** [xs.map(f)] for an [f] that may raise: the results, or the first
    exception. *)
Definition all_of {A B} (f : A -> Outcome B) : list A -> Outcome (list B) :=
  fix go (xs : list A) : Outcome (list B) :=
    match xs with
    | [] => Returned []
    | x :: rest =>
        match f x with
        | Threw e => Threw e
        | Returned y =>
            match go rest with
            | Threw e => Threw e
            | Returned ys => Returned (y :: ys)
            end
        end
    end.

Definition not_primitive : Exn := TypeError "Cannot convert object to primitive value".

(** ToString, as a template literal applies it.  A number prints as
    [Number.prototype.toString] prints the double it denotes.  An array
    prints its elements joined by commas, a [null] element as the empty
    text.  An object prints through [Object.prototype.toString], unless it
    has a member [toString] of its own: a parsed value is not callable, the
    inherited [valueOf] gives back the object, and the conversion raises. *)
Fixpoint ToString_json (j : json) : Outcome string :=
  match j with
  | JNull => Returned "null"
  | JBool true => Returned "true"
  | JBool false => Returned "false"
  | JNum lexeme => Returned (Number.toString lexeme)
  | JStr s => Returned s
  | JArr items =>
      match all_of (fun x => match x with JNull => Returned "" | _ => ToString_json x end)
              items with
      | Threw e => Threw e
      | Returned parts => Returned (join "," parts)
      end
  | JObj members =>
      match lookup "toString" members with
      | Some _ => Threw not_primitive
      | None => Returned "[object Object]"
      end
  end.

Definition ToString (v : jsval) : Outcome string :=
  match v with None => Returned "undefined" | Some j => ToString_json j end.

(** The lower case of a code unit below 256: of the letters A to Z, and
    of the capital letters from 192 to 222 (215, the multiplication sign,
    is none). *)
Definition lower_ascii (c : ascii) : ascii :=
  let n := nat_of_ascii c in
  if (((65 <=? n)%nat && (n <=? 90)%nat)
      || ((192 <=? n)%nat && (n <=? 222)%nat && negb (n =? 215)%nat))%bool
  then ascii_of_nat (n + 32) else c.

Fixpoint lower (s : string) : string :=
  match s with
  | EmptyString => EmptyString
  | String c rest => String (lower_ascii c) (lower rest)
  end.

(** [s.includes(needle)]. *)
Definition includes (needle s : string) : bool :=
  match index 0 needle s with Some _ => true | None => false end.

(** [v.toLowerCase()]: only strings have the method. *)
Definition toLowerCase (v : jsval) : Outcome string :=
  match v with
  | Some (JStr s) => Returned (lower s)
  | None => Threw (TypeError "Cannot read properties of undefined (reading 'toLowerCase')")
  | Some JNull => Threw (TypeError "Cannot read properties of null (reading 'toLowerCase')")
  | Some _ => Threw (TypeError "toLowerCase is not a function")
  end.

End JS.
Import JS.

(* ================================================================== *)
(** * Server-sent event frames and the response stream                  *)
(* ================================================================== *)

Module Sse.

(** The tagged union the relay writes. *)
Inductive StreamEvent : Type :=
| text_delta (text : string)
| tool_start (tool : string)
| tool_progress (tool : string) (elapsed : Z)
| done
| error (message : string).

(** One chunk handed to [controller.enqueue]: either
    [data: <JSON.stringify(event)>\n\n] or the literal [data: [DONE]\n\n]. *)
Inductive Frame : Type :=
| Data (e : StreamEvent)
| Sentinel.

Inductive StreamState : Type :=
| Readable
| Closed        (* the handler called close() *)
| Cancelled.    (* the client went away *)

(** The default controller of a ReadableStream, as far as the handlers use
    it: the chunks accepted so far and the state of the stream. *)
Record Controller : Type := mkController {
  written : list Frame;
  state : StreamState
}.

Definition fresh : Controller := mkController [] Readable.

Definition can_close_or_enqueue (c : Controller) : bool :=
  match state c with Readable => true | _ => false end.

Definition is_terminal (f : Frame) : bool :=
  match f with Data done | Data (error _) => true | _ => false end.

Definition is_sentinel (f : Frame) : bool :=
  match f with Sentinel => true | _ => false end.

Definition is_error (f : Frame) : bool :=
  match f with Data (error _) => true | _ => false end.

(** The frames that report upstream progress. *)
Definition is_progress (f : Frame) : bool :=
  match f with
  | Data (text_delta _) | Data (tool_start _) | Data (tool_progress _ _) => true
  | _ => false
  end.

End Sse.
Import Sse.

(* ================================================================== *)
(** * The agent SDK: queries and the messages they yield                *)
(* ================================================================== *)

Module Agent.

Record QueryOptions : Type := mkOptions {
  maxTurns : nat;
  tools_preset : string;
  permissionMode : string;
  allowDangerouslySkipPermissions : bool;
  includePartialMessages : bool;
  cwd : string
}.

Record QueryArgs : Type := mkQuery {
  prompt : string;
  options : QueryOptions
}.

Inductive ContentBlock : Type :=
| tool_use (name : string)
| other_block (type : string).

Inductive Delta : Type :=
| delta_text (text : string)
| delta_other (type : string).

Inductive RawEvent : Type :=
| content_block_delta (delta : option Delta)
| other_event (type : string).

(** The messages of the SDK the handlers look at.  The optional parts are
    the ones the handlers test for ([('event' in message)],
    [message.message?.content], [Array.isArray(content)], [event.delta?]). *)
Inductive SDKMessage : Type :=
| stream_event (event : option RawEvent)
| assistant (content : option (list ContentBlock))
| tool_progress_msg (tool_name : string) (elapsed_time_seconds : Z)
| result (subtype : string)
| other_message (type : string).

(** What a handler observes while it iterates a query: the next message,
    time passing, or the client closing the connection in the meantime. *)
Inductive Event : Type :=
| Yield (m : SDKMessage)
| Elapse (ms : Z)
| ClientDisconnects.

Inductive Ending : Type :=
| Completes
| Raises (e : Exn).

Record Upstream : Type := mkUpstream {
  events : list Event;
  ending : Ending
}.

Fixpoint yielded (evs : list Event) : list SDKMessage :=
  match evs with
  | [] => []
  | Yield m :: rest => m :: yielded rest
  | _ :: rest => yielded rest
  end.

Definition connected (evs : list Event) : Prop := ~ In ClientDisconnects evs.

End Agent.
Import Agent.

(* ================================================================== *)
(** * The observability SDK, as its recording stub                      *)
(* ================================================================== *)

Module Sdk.

Inductive Level : Type := debug | info | warning | error.

Record SpanContext : Type := mkSpan {
  span_name : string;
  span_op : string;
  span_attributes : dict
}.

(** One call into the SDK (or onto the console), with the values passed. *)
Inductive Call : Type :=
| metrics_increment (name : string) (value : json) (tags : dict)
| metrics_distribution (name : string) (value : json) (unit_ : string) (tags : dict)
| metrics_gauge (name : string) (value : json) (tags : dict)
| metrics_set (name : string) (value : json) (tags : dict)
| add_breadcrumb (message : string) (level : Level) (data : dict) (timestamp : Z)
| capture_message (message : string) (level : Level) (extra : dict)
| capture_exception (error : Exn) (context : dict)
| set_user (user : jsval)
| set_tags (tags : dict)
| set_context (name : string) (context : dict)
| span_started (span : SpanContext)
| span_set_attributes (name : string) (attributes : dict)
| span_ended (name : string)
| console (method : string) (message : string).

End Sdk.

(* ================================================================== *)
(** * Effects                                                           *)
(* ================================================================== *)

Module Effects.

(** The platform around one request. *)
Record World : Type := mkWorld {
  now : Z;                          (* Date.now() / performance.now()   *)
  uuid : string;                    (* crypto.randomUUID()              *)
  toISOString : Z -> string;        (* new Date(ms).toISOString()       *)
  process_cwd : string;             (* process.cwd()                    *)
  agent : QueryArgs -> Upstream;    (* what the agent SDK answers       *)
  queries : list QueryArgs;         (* the queries opened, oldest first *)
  controller : Controller           (* the response stream              *)
}.

(** The result of running a computation: how it ended, the world it left
    and the SDK calls it made, oldest first. *)
Record Run (A : Type) : Type := mkRun {
  outcome : Outcome A;
  world : World;
  emitted : list Sdk.Call
}.
Arguments mkRun {A} _ _ _.
Arguments outcome {A} _.
Arguments world {A} _.
Arguments emitted {A} _.

Definition M (A : Type) : Type := World -> Run A.

Definition ret {A} (a : A) : M A := fun w => mkRun (Returned a) w [].

Definition throw {A} (e : Exn) : M A := fun w => mkRun (Threw e) w [].

Definition bind {A B} (c : M A) (k : A -> M B) : M B :=
  fun w =>
    let r := c w in
    match outcome r with
    | Returned a =>
        let r' := k a (world r) in
        mkRun (outcome r') (world r') (emitted r ++ emitted r')
    | Threw e => mkRun (Threw e) (world r) (emitted r)
    end.

(** [try { c } catch (e) { handler e }]. *)
Definition try_catch {A} (c : M A) (handler : Exn -> M A) : M A :=
  fun w =>
    let r := c w in
    match outcome r with
    | Returned a => r
    | Threw e =>
        let r' := handler e (world r) in
        mkRun (outcome r') (world r') (emitted r ++ emitted r')
    end.

(** A pure step that may raise. *)
Definition lift {A} (o : Outcome A) : M A :=
  match o with Returned a => ret a | Threw e => throw e end.

Definition when (b : bool) (c : M unit) : M unit := if b then c else ret tt.

Definition sdk (c : Sdk.Call) : M unit := fun w => mkRun (Returned tt) w [c].

Definition read {A} (f : World -> A) : M A := fun w => mkRun (Returned (f w)) w [].

Definition update (f : World -> World) : M unit := fun w => mkRun (Returned tt) (f w) [].

Definition set_now (t : Z) (w : World) : World :=
  mkWorld t (uuid w) (toISOString w) (process_cwd w) (agent w) (queries w) (controller w).

Definition set_queries (q : list QueryArgs) (w : World) : World :=
  mkWorld (now w) (uuid w) (toISOString w) (process_cwd w) (agent w) q (controller w).

Definition set_controller (c : Controller) (w : World) : World :=
  mkWorld (now w) (uuid w) (toISOString w) (process_cwd w) (agent w) (queries w) c.

Definition Date_now : M Z := read now.
Definition performance_now : M Z := read now.
Definition crypto_randomUUID : M string := read uuid.
Definition new_Date_toISOString : M string := read (fun w => toISOString w (now w)).

(** [query(args)]: the call is recorded and the SDK's answer handed back. *)
Definition query (args : QueryArgs) : M Upstream :=
  fun w => mkRun (Returned (agent w args)) (set_queries (queries w ++ [args]) w) [].

(** [new ReadableStream(...)]. *)
Definition new_ReadableStream : M unit := update (set_controller fresh).

Definition invalid_state : Exn := TypeError "Invalid state: Controller is already closed".

(** [controller.enqueue(chunk)] raises once the stream is no longer
    readable, whether the handler closed it or the client cancelled it. *)
Definition controller_enqueue (f : Frame) : M unit :=
  fun w =>
    let c := controller w in
    if can_close_or_enqueue c
    then mkRun (Returned tt) (set_controller (mkController (written c ++ [f]) (state c)) w) []
    else mkRun (Threw invalid_state) w [].

(** [controller.close()] raises on the same condition. *)
Definition controller_close : M unit :=
  fun w =>
    let c := controller w in
    if can_close_or_enqueue c
    then mkRun (Returned tt) (set_controller (mkController (written c) Closed) w) []
    else mkRun (Threw invalid_state) w [].

(** The platform cancels the stream when the client goes away; a stream
    the handler has closed stays closed. *)
Definition client_disconnects : M unit :=
  update (fun w =>
    let c := controller w in
    match state c with
    | Readable => set_controller (mkController (written c) Cancelled) w
    | _ => w
    end).

Definition elapse (ms : Z) : M unit := update (fun w => set_now (now w + ms)%Z w).

Declare Scope js_scope.
Delimit Scope js_scope with js.
Notation "x <- c ;; k" := (bind c (fun x => k))
  (at level 61, c at next level, right associativity) : js_scope.
Notation "c ;; k" := (bind c (fun _ => k))
  (at level 61, right associativity) : js_scope.
Open Scope js_scope.

(** [for await (const message of upstream) body], with the loop's mutable
    locals threaded as [acc]. *)
Fixpoint for_await {A} (evs : list Event) (ending : Ending)
    (body : A -> SDKMessage -> M A) (acc : A) : M A :=
  match evs with
  | [] => match ending with Completes => ret acc | Raises e => throw e end
  | Yield m :: rest => acc' <- body acc m ;; for_await rest ending body acc'
  | Elapse ms :: rest => elapse ms ;; for_await rest ending body acc
  | ClientDisconnects :: rest => client_disconnects ;; for_await rest ending body acc
  end.

(** [for (const x of xs) body]. *)
Fixpoint for_of {A X} (xs : list X) (body : A -> X -> M A) (acc : A) : M A :=
  match xs with
  | [] => ret acc
  | x :: rest => acc' <- body acc x ;; for_of rest body acc'
  end.

End Effects.
Import Effects.
Open Scope js_scope.

(* ================================================================== *)
(** * The instrumentation facade (sentry-utils)                         *)
(* ================================================================== *)

Module Facade.

Definition trackMetric (name : string) (value : json) (tags : dict) : M unit :=
  sdk (Sdk.metrics_increment name value tags).

Definition trackTiming (name : string) (value : json) (unit_ : string) (tags : dict) : M unit :=
  sdk (Sdk.metrics_distribution name value unit_ tags).

Definition trackGauge (name : string) (value : json) (tags : dict) : M unit :=
  sdk (Sdk.metrics_gauge name value tags).

Definition trackSet (name : string) (value : json) (tags : dict) : M unit :=
  sdk (Sdk.metrics_set name value tags).

(** The breadcrumb's timestamp is [Date.now() / 1000]. *)
Definition addBreadcrumb (message : string) (data : dict) (level : Sdk.Level) : M unit :=
  t <- Date_now ;;
  sdk (Sdk.add_breadcrumb message level data (t / 1000)).

Definition trackNavigation (from to : string) : M unit :=
  addBreadcrumb "Navigation"
    [("from", JStr from); ("to", JStr to); ("type", JStr "navigation")] Sdk.info.

Definition trackApiCall (method url : string) (status duration : option Z) : M unit :=
  let opt (k : string) (v : option Z) : dict :=
    match v with Some z => [(k, num z)] | None => [] end in
  addBreadcrumb ("API " ++ method ++ " " ++ url)
    ([("method", JStr method); ("url", JStr url)]
       ++ opt "status" status ++ opt "duration" duration ++ [("type", JStr "http")])%list
    Sdk.info.

Definition logger_debug (message : string) (extra : dict) : M unit :=
  sdk (Sdk.console "debug" message) ;;
  sdk (Sdk.capture_message message Sdk.debug extra).

Definition logger_info (message : string) (extra : dict) : M unit :=
  sdk (Sdk.console "info" message) ;;
  sdk (Sdk.capture_message message Sdk.info extra).

Definition logger_warning (message : string) (extra : dict) : M unit :=
  sdk (Sdk.console "warn" message) ;;
  sdk (Sdk.capture_message message Sdk.warning extra).

Definition logger_error (message : string) (error : option Exn) (extra : dict) : M unit :=
  sdk (Sdk.console "error" message) ;;
  match error with
  | Some e => sdk (Sdk.capture_exception e [("extra", JObj (("message", JStr message) :: extra))])
  | None => sdk (Sdk.capture_message message Sdk.error extra)
  end.

Definition captureError (error : Exn) (context : dict) : M unit :=
  sdk (Sdk.capture_exception error context).

Definition setUser (user : dict) : M unit := sdk (Sdk.set_user (Some (JObj user))).

Definition clearUser : M unit := sdk (Sdk.set_user (Some JNull)).

Definition setTags (tags : dict) : M unit := sdk (Sdk.set_tags tags).

Definition setContext (name : string) (context : dict) : M unit :=
  sdk (Sdk.set_context name context).

(** [Sentry.startSpan(context, callback)]: the SDK opens a span, runs the
    callback inside it and hands back whatever the callback produced,
    closing the span either way.  The span handed to the callback is known
    by its name. *)
Definition Sentry_startSpan {T} (context : Sdk.SpanContext) (callback : string -> M T) : M T :=
  sdk (Sdk.span_started context) ;;
  try_catch
    (r <- callback (Sdk.span_name context) ;;
     sdk (Sdk.span_ended (Sdk.span_name context)) ;;
     ret r)
    (fun e => sdk (Sdk.span_ended (Sdk.span_name context)) ;; throw e).

(** [span?.setAttributes(attributes)]. *)
Definition setAttributes (span : string) (attributes : dict) : M unit :=
  sdk (Sdk.span_set_attributes span attributes).

Definition startSpan {T} (name : string) (operation : M T) (op : string) : M T :=
  Sentry_startSpan (Sdk.mkSpan name op []) (fun _ => operation).

Definition measureTime {T} (name : string) (fn : M T) : M T :=
  startTime <- performance_now ;;
  try_catch
    (result <- fn ;;
     t <- performance_now ;;
     let duration := (t - startTime)%Z in
     trackTiming ("function." ++ name) (num duration) "millisecond" [] ;;
     ret result)
    (fun error =>
     t <- performance_now ;;
     let duration := (t - startTime)%Z in
     trackTiming ("function." ++ name ++ ".error") (num duration) "millisecond" [] ;;
     throw error).

End Facade.

(* ================================================================== *)
(** * Requests and responses                                            *)
(* ================================================================== *)

Module Http.

(** A request is known by what [await request.json()] gives: the parsed
    body, or the exception raised on a body that is not JSON. *)
Record Request : Type := mkRequest { json_body : Outcome json }.

Definition request_json (request : Request) : M json := lift (json_body request).

(** A response body is a JSON document or the event stream; for a stream,
    [started] is how the stream's [start] handler ended (the frames are in
    the world's controller). *)
Inductive Body : Type :=
| json_doc (j : json)
| event_stream (started : Outcome unit).

Record Response : Type := mkResponse {
  status : nat;
  headers : list (string * string);
  body : Body
}.

Definition json_headers : list (string * string) := [("Content-Type", "application/json")].

Definition sse_headers : list (string * string) :=
  [("Content-Type", "text/event-stream"); ("Cache-Control", "no-cache");
   ("Connection", "keep-alive")].

(** [NextResponse.json(doc, { status })]. *)
Definition NextResponse_json (doc : json) (status : nat) : Response :=
  mkResponse status json_headers (json_doc doc).

Definition error_doc (message : string) : json := JObj [("error", JStr message)].

(** The platform runs the asynchronous [start] handler of a new stream; an
    exception that leaves the handler rejects its promise and is not
    raised into the code that built the stream. *)
Definition run_start (start : M unit) : M (Outcome unit) :=
  fun w => let r := start w in mkRun (Returned (outcome r)) (world r) (emitted r).

(** [xs.filter(p)] and [xs.map(f)] with callbacks that may raise. *)
Fixpoint Array_filter (p : json -> M bool) (xs : list json) : M (list json) :=
  match xs with
  | [] => ret []
  | x :: rest =>
      keep <- p x ;;
      kept <- Array_filter p rest ;;
      ret (if keep then x :: kept else kept)
  end.

Fixpoint Array_map {B} (f : json -> M B) (xs : list json) : M (list B) :=
  match xs with
  | [] => ret []
  | x :: rest => y <- f x ;; ys <- Array_map f rest ;; ret (y :: ys)
  end.

(** [xs.pop()] and [xs[xs.length - 1]]: the last element or [undefined]. *)
Definition last_of (xs : list json) : jsval := List.last (map Some xs) None.

(** The elements of [messages] once [Array.isArray(messages)] holds. *)
Definition elements (messages : jsval) : list json :=
  match messages with Some (JArr items) => items | _ => [] end.

(** [m => m.role === 'user']. *)
Definition role_is_user (m : json) : M bool :=
  role <- lift (get (Some m) "role") ;;
  ret (is_string role "user").

(** [m => `${m.role === 'user' ? 'User' : 'Assistant'}: ${m.content}`]. *)
Definition transcript_line (m : json) : M string :=
  role <- lift (get (Some m) "role") ;;
  content <- lift (get (Some m) "content") ;;
  text <- lift (ToString content) ;;
  ret ((if is_string role "user" then "User" else "Assistant") ++ ": " ++ text).

(** The prompt both chat endpoints build from the conversation. *)
Definition build_prompt (SYSTEM_PROMPT : string) (messages : list json)
    (lastUserMessage : jsval) : M string :=
  lines <- Array_map transcript_line (removelast messages) ;;
  let conversationContext := join (newline ++ newline) lines in
  content <- lift (get lastUserMessage "content") ;;
  text <- lift (ToString content) ;;
  ret (if truthy (Some (JStr conversationContext))
       then SYSTEM_PROMPT ++ newline ++ newline ++ "Previous conversation:" ++ newline
            ++ conversationContext ++ newline ++ newline ++ "User: " ++ text
       else SYSTEM_PROMPT ++ newline ++ newline ++ "User: " ++ text).

End Http.
Import Http.

(* ================================================================== *)
(** * POST /api/chat: the streaming relay                               *)
(* ================================================================== *)

Module ChatRoute.

Definition SYSTEM_PROMPT : string :=
"You are a helpful personal assistant designed to help with general research, questions, and tasks.

Your role is to:
- Answer questions on any topic accurately and thoroughly
- Help with research by searching the web for current information
- Assist with writing, editing, and brainstorming
- Provide explanations and summaries of complex topics
- Help solve problems and think through decisions

Guidelines:
- Be friendly, clear, and conversational
- Use web search when you need current information, facts you're unsure about, or real-time data
- Keep responses concise but complete - expand when the topic warrants depth
- Use markdown formatting when it helps readability (bullet points, code blocks, etc.)
- Be honest when you don't know something and offer to search for answers".

(** The loop's mutable locals. *)
Record Counters : Type := mkCounters { tokensGenerated : nat; toolsUsed : nat }.

(** The body of [for (const block of content)]. *)
Definition announce (requestId : string) (toolsUsed : nat) (block : ContentBlock) : M nat :=
  match block with
  | tool_use name =>
      let toolsUsed := S toolsUsed in
      Facade.logger_info "Tool invoked" [("requestId", JStr requestId); ("tool", JStr name)] ;;
      Facade.addBreadcrumb "Tool used"
        [("requestId", JStr requestId); ("tool", JStr name)] Sdk.info ;;
      Facade.trackMetric "api.chat.tool.used" (num 1) [("tool", JStr name)] ;;
      controller_enqueue (Data (tool_start name)) ;;
      ret toolsUsed
  | other_block _ => ret toolsUsed
  end.

(** The body of the [for await] loop, one upstream message at a time. *)
Definition relay (requestId : string) (requestStartTime : Z)
    (acc : Counters) (message : SDKMessage) : M Counters :=
  (* Handle streaming text deltas (partial messages) *)
  tokensGenerated <-
    match message with
    | stream_event (Some (content_block_delta (Some (delta_text text)))) =>
        let tokensGenerated := S (tokensGenerated acc) in
        controller_enqueue (Data (text_delta text)) ;;
        ret tokensGenerated
    | _ => ret (tokensGenerated acc)
    end ;;
  (* Send tool start events from assistant messages *)
  toolsUsed <-
    match message with
    | assistant (Some content) =>
        for_of content (announce requestId) (toolsUsed acc)
    | _ => ret (toolsUsed acc)
    end ;;
  (* Send tool progress updates *)
  match message with
  | tool_progress_msg tool_name elapsed_time_seconds =>
      controller_enqueue (Data (tool_progress tool_name elapsed_time_seconds))
  | _ => ret tt
  end ;;
  (* Signal completion *)
  match message with
  | result subtype =>
      when (String.eqb subtype "success")
        (t <- Date_now ;;
         let duration := (t - requestStartTime)%Z in
         Facade.logger_info "Chat API request completed"
           [("requestId", JStr requestId); ("duration", num duration);
            ("tokensGenerated", num_nat tokensGenerated); ("toolsUsed", num_nat toolsUsed)] ;;
         Facade.trackTiming "api.chat.duration" (num duration) "millisecond" [] ;;
         Facade.trackMetric "api.chat.success" (num 1) [] ;;
         Facade.trackMetric "api.chat.tokens" (num_nat tokensGenerated) [] ;;
         Facade.trackMetric "api.chat.tools" (num_nat toolsUsed) [] ;;
         controller_enqueue (Data done))
  | _ => ret tt
  end ;;
  (* Handle errors *)
  match message with
  | result subtype =>
      when (negb (String.eqb subtype "success"))
        (Facade.logger_error "Query did not complete successfully" None
           [("requestId", JStr requestId); ("subtype", JStr subtype)] ;;
         Facade.trackMetric "api.chat.error.query_failed" (num 1) [] ;;
         controller_enqueue (Data (error "Query did not complete successfully")))
  | _ => ret tt
  end ;;
  ret (mkCounters tokensGenerated toolsUsed).

Definition query_options (cwd : string) : QueryOptions :=
  mkOptions 10 "claude_code" "bypassPermissions" true true cwd.

(** The [start] handler of the response stream. *)
Definition start (requestId : string) (requestStartTime : Z) (fullPrompt : string) : M unit :=
  try_catch
    (Facade.logger_info "Starting Claude Agent SDK query" [("requestId", JStr requestId)] ;;
     Facade.addBreadcrumb "Agent query started" [("requestId", JStr requestId)] Sdk.info ;;
     cwd <- read process_cwd ;;
     upstream <- query (mkQuery fullPrompt (query_options cwd)) ;;
     for_await (events upstream) (ending upstream)
       (relay requestId requestStartTime) (mkCounters 0 0) ;;
     controller_enqueue Sentinel ;;
     controller_close)
    (fun err =>
     Facade.logger_error "Stream error in chat API" (Some err) [("requestId", JStr requestId)] ;;
     Facade.trackMetric "api.chat.error.stream" (num 1) [] ;;
     sdk (Sdk.capture_exception err
            [("tags", JObj [("component", JStr "chat_api"); ("requestId", JStr requestId)])]) ;;
     controller_enqueue (Data (error "Stream error occurred")) ;;
     controller_close).

Definition POST (request : Request) : M Response :=
  requestStartTime <- Date_now ;;
  requestId <- crypto_randomUUID ;;
  Facade.logger_info "Chat API request started" [("requestId", JStr requestId)] ;;
  Facade.trackMetric "api.chat.request" (num 1) [] ;;
  Facade.addBreadcrumb "Chat API request received" [("requestId", JStr requestId)] Sdk.info ;;
  try_catch
    (parsed <- request_json request ;;
     messages <- lift (get (Some parsed) "messages") ;;
     if negb (truthy messages) || negb (isArray messages) then
       Facade.logger_warning "Invalid request: Messages array missing"
         [("requestId", JStr requestId)] ;;
       Facade.trackMetric "api.chat.error.validation" (num 1) [("error", JStr "missing_messages")] ;;
       ret (mkResponse 400 json_headers (json_doc (error_doc "Messages array is required")))
     else
       (* Get the last user message *)
       users <- Array_filter role_is_user (elements messages) ;;
       let lastUserMessage := last_of users in
       if negb (truthy lastUserMessage) then
         Facade.logger_warning "Invalid request: No user message found"
           [("requestId", JStr requestId)] ;;
         Facade.trackMetric "api.chat.error.validation" (num 1) [("error", JStr "no_user_message")] ;;
         ret (mkResponse 400 json_headers (json_doc (error_doc "No user message found")))
       else
         (* Log request details *)
         let messageCount := List.length (elements messages) in
         content <- lift (get lastUserMessage "content") ;;
         userMessageLength <- lift (get_length content) ;;
         Facade.logger_info "Processing chat request"
           ([("requestId", JStr requestId); ("messageCount", num_nat messageCount)]
              ++ match userMessageLength with
                 | Some n => [("userMessageLength", n)]
                 | None => []
                 end)%list ;;
         Facade.trackMetric "api.chat.messages" (num_nat messageCount) [] ;;
         Facade.addBreadcrumb "User message received"
           ([("requestId", JStr requestId)]
              ++ match userMessageLength with
                 | Some n => [("messageLength", n)]
                 | None => []
                 end)%list Sdk.info ;;
         (* Build conversation context *)
         fullPrompt <- build_prompt SYSTEM_PROMPT (elements messages) lastUserMessage ;;
         (* Create a streaming response *)
         new_ReadableStream ;;
         started <- run_start (start requestId requestStartTime fullPrompt) ;;
         ret (mkResponse 200 sse_headers (event_stream started)))
    (fun err =>
     t <- Date_now ;;
     let duration := (t - requestStartTime)%Z in
     Facade.logger_error "Chat API error" (Some err)
       [("requestId", JStr requestId); ("duration", num duration)] ;;
     Facade.trackMetric "api.chat.error.general" (num 1) [] ;;
     Facade.trackTiming "api.chat.error.duration" (num duration) "millisecond" [] ;;
     sdk (Sdk.capture_exception err
            [("tags", JObj [("component", JStr "chat_api"); ("requestId", JStr requestId)]);
             ("extra", JObj [("duration", num duration)])]) ;;
     ret (mkResponse 500 json_headers
            (json_doc (error_doc "Failed to process chat request. Check server logs for details.")))).

End ChatRoute.

(* ================================================================== *)
(** * POST /api/email-agent/chat: the non-streaming chat                *)
(* ================================================================== *)

Module EmailChat.

Definition SYSTEM_PROMPT : string :=
"You are an intelligent email assistant with access to Gmail through the Gmail MCP server.

You can help users:
- Answer questions about their emails
- Find specific emails or information
- Extract to-dos and action items
- Provide insights about inbox patterns
- Manage email tasks (mark as read, archive, etc.)

Be conversational, helpful, and proactive. Use the Gmail tools to access real email data.
When you extract to-dos or insights, return them in the response.".

(** The loop's mutable locals. *)
Record Collected : Type := mkCollected { fullResponse : string; toolsUsed : nat }.

(** The body of [for (const block of content)]. *)
Definition track (requestId : string) (toolsUsed : nat) (block : ContentBlock) : M nat :=
  match block with
  | tool_use name =>
      let toolsUsed := S toolsUsed in
      Facade.Sentry_startSpan
        (Sdk.mkSpan ("tool." ++ name) "ai.tool" [("ai.tool.name", JStr name)])
        (fun _ =>
           Facade.logger_info "Email agent used tool"
             [("requestId", JStr requestId); ("tool", JStr name)] ;;
           Facade.trackMetric "email_agent.chat.tool.used" (num 1) [("tool", JStr name)]) ;;
      ret toolsUsed
  | other_block _ => ret toolsUsed
  end.

(** The body of the [for await] loop. *)
Definition collect (requestId : string) (acc : Collected) (message : SDKMessage) : M Collected :=
  (* Collect streaming text *)
  let fullResponse :=
    match message with
    | stream_event (Some (content_block_delta (Some (delta_text text)))) =>
        fullResponse acc ++ text
    | _ => fullResponse acc
    end in
  (* Track tool usage *)
  toolsUsed <-
    match message with
    | assistant (Some content) =>
        for_of content (track requestId) (toolsUsed acc)
    | _ => ret (toolsUsed acc)
    end ;;
  ret (mkCollected fullResponse toolsUsed).

Definition query_options (cwd : string) : QueryOptions :=
  mkOptions 10 "claude_code" "bypassPermissions" true true cwd.

Definition POST (request : Request) : M Response :=
  requestStartTime <- Date_now ;;
  requestId <- crypto_randomUUID ;;
  Facade.Sentry_startSpan
    (Sdk.mkSpan "email_agent.chat.request" "ai.chat"
       [("ai.model_id", JStr "claude-sonnet-4.5"); ("request_id", JStr requestId)])
    (fun parentSpan =>
     Facade.logger_info "Email agent chat request started" [("requestId", JStr requestId)] ;;
     Facade.trackMetric "email_agent.chat.api.request" (num 1) [] ;;
     Facade.addBreadcrumb "Email agent chat API called" [("requestId", JStr requestId)] Sdk.info ;;
     try_catch
       (parsed <- request_json request ;;
        messages <- lift (get (Some parsed) "messages") ;;
        if negb (truthy messages) || negb (isArray messages) then
          Facade.trackMetric "email_agent.chat.api.error.validation" (num 1) [] ;;
          ret (NextResponse_json (error_doc "Messages array is required") 400)
        else
          users <- Array_filter role_is_user (elements messages) ;;
          let lastUserMessage := last_of users in
          if negb (truthy lastUserMessage) then
            Facade.trackMetric "email_agent.chat.api.error.validation" (num 1) [] ;;
            ret (NextResponse_json (error_doc "No user message found") 400)
          else
            let messageCount := List.length (elements messages) in
            content <- lift (get lastUserMessage "content") ;;
            userMessageLength <- lift (get_length content) ;;
            Facade.logger_info "Processing chat message"
              ([("requestId", JStr requestId); ("messageCount", num_nat messageCount)]
                 ++ match userMessageLength with
                    | Some n => [("userMessageLength", n)]
                    | None => []
                    end)%list ;;
            (* Build conversation context *)
            fullPrompt <- build_prompt SYSTEM_PROMPT (elements messages) lastUserMessage ;;
            collected <-
              Facade.Sentry_startSpan
                (Sdk.mkSpan "claude.query" "ai.chat.completions"
                   [("ai.input_messages", num_nat messageCount);
                    ("ai.model_id", JStr "claude-sonnet-4.5")])
                (fun querySpan =>
                 Facade.logger_info "Starting Claude Agent SDK query"
                   [("requestId", JStr requestId)] ;;
                 cwd <- read process_cwd ;;
                 upstream <- query (mkQuery fullPrompt (query_options cwd)) ;;
                 collected <- for_await (events upstream) (ending upstream)
                                (collect requestId) (mkCollected "" 0) ;;
                 (* Set span attributes after completion *)
                 Facade.setAttributes querySpan
                   [("ai.output_messages", num 1);
                    ("ai.response_tokens", num_nat (String.length (fullResponse collected)));
                    ("ai.tools_called", num_nat (toolsUsed collected))] ;;
                 ret collected) ;;
            t <- Date_now ;;
            let duration := (t - requestStartTime)%Z in
            Facade.setAttributes parentSpan
              [("ai.total_tokens", num_nat (String.length (fullResponse collected)));
               ("ai.completion_tokens", num_nat (String.length (fullResponse collected)));
               ("ai.tools_called", num_nat (toolsUsed collected));
               ("duration_ms", num duration)] ;;
            Facade.logger_info "Email agent chat completed"
              [("requestId", JStr requestId); ("duration", num duration);
               ("responseLength", num_nat (String.length (fullResponse collected)));
               ("toolsUsed", num_nat (toolsUsed collected))] ;;
            Facade.trackMetric "email_agent.chat.api.success" (num 1) [] ;;
            Facade.trackMetric "email_agent.chat.api.duration" (num duration) [] ;;
            Facade.trackMetric "email_agent.chat.tools.total" (num_nat (toolsUsed collected)) [] ;;
            timestamp <- new_Date_toISOString ;;
            ret (NextResponse_json
                   (JObj [("message", JStr (fullResponse collected));
                          ("toolsUsed", num_nat (toolsUsed collected));
                          ("timestamp", JStr timestamp)])
                   200))
       (fun err =>
        t <- Date_now ;;
        let duration := (t - requestStartTime)%Z in
        Facade.logger_error "Email agent chat failed" (Some err)
          [("requestId", JStr requestId); ("duration", num duration)] ;;
        Facade.trackMetric "email_agent.chat.api.error" (num 1) [] ;;
        sdk (Sdk.capture_exception err
               [("tags", JObj [("component", JStr "email_agent_chat");
                               ("requestId", JStr requestId)]);
                ("extra", JObj [("duration", num duration)]);
                ("contexts", JObj [("ai", JObj [("model_id", JStr "claude-sonnet-4.5");
                                                ("operation", JStr "chat")])])]) ;;
        ret (NextResponse_json
               (JObj [("error", JStr "Failed to process chat message");
                      ("message", JStr "Sorry, I encountered an error. Please try again.")])
               500))).

End EmailChat.

(* ================================================================== *)
(** * POST /api/email-agent/analyze: the analysis endpoint              *)
(* ================================================================== *)

Module EmailAnalyze.

Definition fence : string := "```".

(** [text.match(/<opening>([\s\S]*?)\n```/)], its first group: the text
    between the leftmost [opening] and the first line-break-and-fence that
    starts after it.  (The lazy group makes the match end at the first such
    closing; and when the leftmost opening has no closing after it, no later
    opening has one.) *)
Definition match_fenced (opening text : string) : option string :=
  match index 0 opening text with
  | None => None
  | Some i =>
      let from := i + String.length opening in
      match index from (newline ++ fence) text with
      | None => None
      | Some j => Some (substring from (j - from) text)
      end
  end.

(** The text handed to [JSON.parse]. *)
Definition extract_json_string (fullResponse : string) : string :=
  let jsonMatch :=
    match match_fenced (fence ++ "json" ++ newline) fullResponse with
    | Some group => Some group
    | None => match_fenced (fence ++ newline) fullResponse
    end in
  match jsonMatch with
  | Some group => group
  | None => fullResponse
  end.

Definition fallback (fullResponse : string) : json :=
  JObj [("summary", JStr (substring 0 500 fullResponse));
        ("todos", JArr [JObj [("id", JStr "1");
                              ("text", JStr "Review email analysis results");
                              ("source", JStr "Email Agent");
                              ("priority", JStr "medium")]]);
        ("insights", JArr [JObj [("type", JStr "info");
                                 ("title", JStr "Analysis Complete");
                                 ("description", JStr "Check the summary above for details")]])].

Definition failure_doc : json :=
  JObj [("error", JStr "Failed to analyze inbox");
        ("summary", JStr "An error occurred while analyzing your inbox. Please make sure the Gmail MCP server is configured and you have granted permissions.");
        ("todos", JArr []);
        ("insights", JArr [])].

(** [analysisResult.<field>?.length || 0]. *)
Definition length_or_zero (analysisResult : json) (field : string) : M json :=
  items <- lift (get (Some analysisResult) field) ;;
  let len :=
    match items with
    | None | Some JNull => None
    | Some _ => match get_length items with Returned v => v | Threw _ => None end
    end in
  ret (if truthy len then match len with Some v => v | None => num 0 end else num 0).

Section Variants.

(** The two variants of the endpoint in the repository differ in the prompt
    text and in the tool preset only.  [JSON_parse] is the platform's
    [JSON.parse]. *)
Variables (SYSTEM_PROMPT userPrompt preset : string).
Variable JSON_parse : string -> Outcome json.

Definition query_options (cwd : string) : QueryOptions :=
  mkOptions 15 preset "bypassPermissions" true true cwd.

(** The body of [for (const block of content)]. *)
Definition log_tool (requestId : string) (_ : unit) (block : ContentBlock) : M unit :=
  match block with
  | tool_use name =>
      Facade.logger_info "Email agent used tool"
        [("requestId", JStr requestId); ("tool", JStr name)] ;;
      Facade.trackMetric "email_agent.tool.used" (num 1) [("tool", JStr name)]
  | other_block _ => ret tt
  end.

(** The body of the [for await] loop; the local is [fullResponse]. *)
Definition collect (requestId : string) (fullResponse : string) (message : SDKMessage)
  : M string :=
  let fullResponse :=
    match message with
    | stream_event (Some (content_block_delta (Some (delta_text text)))) =>
        fullResponse ++ text
    | _ => fullResponse
    end in
  match message with
  | assistant (Some content) =>
      for_of content (log_tool requestId) tt
  | _ => ret tt
  end ;;
  ret fullResponse.

Definition POST (request : Request) : M Response :=
  requestStartTime <- Date_now ;;
  requestId <- crypto_randomUUID ;;
  Facade.logger_info "Email agent analysis started" [("requestId", JStr requestId)] ;;
  Facade.trackMetric "email_agent.api.request" (num 1) [] ;;
  Facade.addBreadcrumb "Email agent API called" [("requestId", JStr requestId)] Sdk.info ;;
  try_catch
    (Facade.logger_info "Querying Claude with email analysis prompt"
       [("requestId", JStr requestId)] ;;
     cwd <- read process_cwd ;;
     upstream <- query (mkQuery (SYSTEM_PROMPT ++ newline ++ newline ++ userPrompt)
                          (query_options cwd)) ;;
     fullResponse <- for_await (events upstream) (ending upstream) (collect requestId) "" ;;
     Facade.logger_info "Claude query completed"
       [("requestId", JStr requestId);
        ("responseLength", num_nat (String.length fullResponse))] ;;
     (* Try to parse JSON response *)
     analysisResult <-
       try_catch
         (lift (JSON_parse (extract_json_string fullResponse)))
         (fun parseError =>
          Facade.logger_warning "Failed to parse JSON response, using fallback"
            [("requestId", JStr requestId)] ;;
          ret (fallback fullResponse)) ;;
     t <- Date_now ;;
     let duration := (t - requestStartTime)%Z in
     todosFound <- length_or_zero analysisResult "todos" ;;
     insightsGenerated <- length_or_zero analysisResult "insights" ;;
     Facade.logger_info "Email agent analysis completed"
       [("requestId", JStr requestId); ("duration", num duration);
        ("todosFound", todosFound); ("insightsGenerated", insightsGenerated)] ;;
     Facade.trackMetric "email_agent.api.success" (num 1) [] ;;
     Facade.trackMetric "email_agent.api.duration" (num duration) [] ;;
     todosExtracted <- length_or_zero analysisResult "todos" ;;
     Facade.trackMetric "email_agent.todos.extracted" todosExtracted [] ;;
     ret (NextResponse_json analysisResult 200))
    (fun err =>
     t <- Date_now ;;
     let duration := (t - requestStartTime)%Z in
     Facade.logger_error "Email agent analysis failed" (Some err)
       [("requestId", JStr requestId); ("duration", num duration)] ;;
     Facade.trackMetric "email_agent.api.error" (num 1) [] ;;
     sdk (Sdk.capture_exception err
            [("tags", JObj [("component", JStr "email_agent"); ("requestId", JStr requestId)]);
             ("extra", JObj [("duration", num duration)])]) ;;
     ret (NextResponse_json failure_doc 500)).

End Variants.

End EmailAnalyze.

(* ================================================================== *)
(** * POST /api/gong-agent/chat: the simulated Gong relay               *)
(* ================================================================== *)

Module GongChat.

Record Participant : Type := mkParticipant {
  participant_name : option string;
  participant_email : option string;
  participant_role : option string
}.

Record GongCall : Type := mkCall {
  id : string;
  title : option string;
  url : option string;
  started : option string;
  duration : option Z;
  direction : option string;
  participants : option (list Participant)
}.

Record GongCallsResponse : Type := mkCalls {
  calls : option (list GongCall);
  totalRecords : option Z
}.

(** How the request to the Gong API goes. *)
Inductive Fetch : Type :=
| fetch_rejects (e : Exn)               (* no response at all            *)
| fetch_not_ok (status : nat)           (* a response with [ok] false    *)
| fetch_unparsable (e : Exn)            (* [ok], but [json()] rejects    *)
| fetch_ok (data : GongCallsResponse).  (* [ok] with a parsed body       *)

(** What the handler meets while it waits: the Gong API's answer, the
    simulated processing delay, and whether the client is still there when
    the wait is over. *)
Record Env : Type := mkEnv {
  gong : Fetch;
  processingDelay : Z;
  client_left : bool
}.

Definition no_data_text : string :=
  "I'm ready to help you with Gong call analysis. However, I couldn't fetch your recent call data at the moment. You can ask me about call summaries, participant insights, or any other questions about your sales calls.".

(** [call.title || 'Untitled Call'] and [call.duration || 'Unknown']. *)
Definition title_or_default (call : GongCall) : string :=
  match title call with
  | Some t => if String.eqb t "" then "Untitled Call" else t
  | None => "Untitled Call"
  end.

Definition duration_or_default (call : GongCall) : string :=
  match duration call with
  | Some d => if Z.eqb d 0 then "Unknown" else NilZero.string_of_int (Z.to_int d)
  | None => "Unknown"
  end.

(** [calls.slice(0, 3).forEach((call, index) => responseContent += ...)]. *)
Fixpoint summary_lines (index : nat) (listed : list GongCall) (responseContent : string)
  : string :=
  match listed with
  | [] => responseContent
  | call :: rest =>
      summary_lines (S index) rest
        (responseContent ++ decimal (index + 1) ++ ". " ++ title_or_default call
           ++ " - Duration: " ++ duration_or_default call ++ " minutes" ++ newline)
  end.

(** Generate response based on user message and Gong data: the text, or
    the exception raised on the way. *)
Definition generate (hasGongData : bool) (gongData : GongCallsResponse)
    (latestUserMessage : jsval) : Outcome string :=
  match (if hasGongData then calls gongData else None) with
  | Some (first :: more) =>
      let found := first :: more in
      let responseContent :=
        "Based on your recent Gong calls, I found " ++ decimal (List.length found)
          ++ " calls from the past week. " in
      match get latestUserMessage "content" with
      | Threw e => Threw e
      | Returned content =>
          match toLowerCase content with
          | Threw e => Threw e
          | Returned lowered =>
              if includes "summary" lowered then
                Returned (summary_lines 0 (firstn 3 found)
                            (responseContent ++ "Here's a summary of your recent activity:"
                               ++ newline ++ newline))
              else
                Returned (responseContent ++ "How can I help you analyze this data?")
          end
      end
  | _ => Returned no_data_text
  end.

(** The [start] handler of the response stream. *)
Definition start (env : Env) (requestId : string) (startTime : Z)
    (latestUserMessage : jsval) : M unit :=
  try_catch
    ((* Fetch Gong calls data *)
     t <- Date_now ;;
     Facade.addBreadcrumb "Fetching Gong calls"
       [("fromDateTime", num (t - 7 * 24 * 60 * 60 * 1000)); ("toDateTime", num t)] Sdk.info ;;
     (* (the two dates are kept as epoch milliseconds) *)
     fetched <-
       try_catch
         (match gong env with
          | fetch_rejects e => throw e
          | fetch_not_ok _ => ret (mkCalls None None, false)
          | fetch_unparsable e => throw e
          | fetch_ok data => ret (data, true)
          end)
         (fun err =>
          sdk (Sdk.console "error" "Failed to fetch Gong data:") ;;
          (* Continue without Gong data *)
          ret (mkCalls None None, false)) ;;
     let '(gongData, hasGongData) := fetched in
     Facade.addBreadcrumb "Starting Claude Agent SDK query with Gong data"
       [("hasGongData", JBool hasGongData); ("requestId", JStr requestId)] Sdk.info ;;
     Facade.addBreadcrumb "Gong agent query started" [("requestId", JStr requestId)] Sdk.info ;;
     (* Simulate agent processing *)
     elapse (processingDelay env) ;;
     when (client_left env) client_disconnects ;;
     responseContent <- lift (generate hasGongData gongData latestUserMessage) ;;
     (* Stream the response content *)
     controller_enqueue (Data (text_delta responseContent)) ;;
     (* Signal completion *)
     controller_enqueue (Data done) ;;
     t' <- performance_now ;;
     let duration := (t' - startTime)%Z in
     Facade.addBreadcrumb "Gong agent request completed"
       [("duration", num duration); ("requestId", JStr requestId);
        ("tokensGenerated", JNull); ("toolsUsed", num 0)] Sdk.info ;;
     Facade.trackMetric "gong_agent.chat.api.success" (num 1) [] ;;
     Facade.trackTiming "gong_agent.chat.api.duration" (num duration) "millisecond" [] ;;
     controller_enqueue Sentinel ;;
     controller_close)
    (fun err =>
     sdk (Sdk.console "error" "Stream error in Gong agent") ;;
     t' <- performance_now ;;
     let duration := (t' - startTime)%Z in
     Facade.trackMetric "gong_agent.chat.api.error.stream" (num 1) [] ;;
     Facade.trackTiming "gong_agent.chat.api.duration" (num duration) "millisecond"
       [("status", JStr "error")] ;;
     try_catch
       (controller_enqueue (Data (error "Stream error occurred")))
       (fun _ => (* Controller might already be closed, ignore *) ret tt) ;;
     controller_close).

Definition POST (env : Env) (request : Request) : M Response :=
  startTime <- performance_now ;;
  requestId <- crypto_randomUUID ;;
  try_catch
    (Facade.addBreadcrumb "Gong agent chat API called" [("requestId", JStr requestId)] Sdk.info ;;
     Facade.trackMetric "gong_agent.chat.api.request" (num 1) [] ;;
     parsed <- request_json request ;;
     messages <- lift (get (Some parsed) "messages") ;;
     if negb (truthy messages) || negb (isArray messages) then
       ret (NextResponse_json (error_doc "Messages array is required") 400)
     else
       (* Get the latest user message *)
       userMessages <- Array_filter role_is_user (elements messages) ;;
       let latestUserMessage := last_of userMessages in
       if negb (truthy latestUserMessage) then
         ret (NextResponse_json (error_doc "No user message found") 400)
       else
         let messageCount := List.length (elements messages) in
         content <- lift (get latestUserMessage "content") ;;
         userMessageLength <- lift (get_length content) ;;
         Facade.addBreadcrumb "Processing Gong chat message"
           ([("messageCount", num_nat messageCount); ("requestId", JStr requestId)]
              ++ match userMessageLength with
                 | Some n => [("userMessageLength", n)]
                 | None => []
                 end)%list Sdk.info ;;
         Facade.trackMetric "gong_agent.chat.messages" (num_nat messageCount) [] ;;
         (* Create a streaming response *)
         new_ReadableStream ;;
         started <- run_start (start env requestId startTime latestUserMessage) ;;
         ret (mkResponse 200 sse_headers (event_stream started)))
    (fun err =>
     t <- performance_now ;;
     let duration := (t - startTime)%Z in
     sdk (Sdk.console "error" "Gong agent chat error:") ;;
     Facade.trackMetric "gong_agent.chat.api.error.init" (num 1) [] ;;
     Facade.trackTiming "gong_agent.chat.api.duration" (num duration) "millisecond"
       [("status", JStr "error")] ;;
     ret (NextResponse_json (error_doc "Failed to process Gong agent request") 500)).

End GongChat.

(* ================================================================== *)
(** * JSON.parse                                                        *)
(* ================================================================== *)

(** The platform's [JSON.parse], written out for the JSON grammar so that
    the analysis endpoint can be run on concrete agent answers.  Strings
    are sequences of 8-bit units here, so a [\u] escape above 00ff is
    outside this model and is refused. *)
Module JsonText.

Definition is_ws (c : ascii) : bool :=
  let n := nat_of_ascii c in
  (Nat.eqb n 32 || Nat.eqb n 9 || Nat.eqb n 10 || Nat.eqb n 13)%bool.

Definition is_digit (c : ascii) : bool :=
  let n := nat_of_ascii c in ((48 <=? n)%nat && (n <=? 57)%nat)%bool.

Definition quote : ascii := ascii_of_nat 34.
Definition backslash : ascii := ascii_of_nat 92.

Fixpoint skip_ws (s : string) : string :=
  match s with
  | String c rest => if is_ws c then skip_ws rest else s
  | EmptyString => s
  end.

Definition hex_value (c : ascii) : option nat :=
  let n := nat_of_ascii c in
  if ((48 <=? n)%nat && (n <=? 57)%nat)%bool then Some (n - 48)
  else if ((97 <=? n)%nat && (n <=? 102)%nat)%bool then Some (n - 87)
  else if ((65 <=? n)%nat && (n <=? 70)%nat)%bool then Some (n - 55)
  else None.

Definition unescape (c : ascii) : option ascii :=
  if Ascii.eqb c quote then Some quote
  else if Ascii.eqb c backslash then Some backslash
  else if Ascii.eqb c "/" then Some "/"%char
  else if Ascii.eqb c "b" then Some (ascii_of_nat 8)
  else if Ascii.eqb c "f" then Some (ascii_of_nat 12)
  else if Ascii.eqb c "n" then Some (ascii_of_nat 10)
  else if Ascii.eqb c "r" then Some (ascii_of_nat 13)
  else if Ascii.eqb c "t" then Some (ascii_of_nat 9)
  else None.

(** The characters of a string literal after its opening quote: the text
    it denotes and what follows the closing quote. *)
Fixpoint string_chars (s : string) : option (string * string) :=
  match s with
  | EmptyString => None
  | String c rest =>
      if Ascii.eqb c quote then Some (EmptyString, rest)
      else if Ascii.eqb c backslash then
        match rest with
        | String "u" (String h1 (String h2 (String h3 (String h4 rest')))) =>
            match hex_value h1, hex_value h2, hex_value h3, hex_value h4 with
            | Some 0, Some 0, Some d3, Some d4 =>
                match string_chars rest' with
                | Some (text, after) => Some (String (ascii_of_nat (16 * d3 + d4)) text, after)
                | None => None
                end
            | _, _, _, _ => None
            end
        | String e rest' =>
            match unescape e, string_chars rest' with
            | Some c', Some (text, after) => Some (String c' text, after)
            | _, _ => None
            end
        | EmptyString => None
        end
      else if (nat_of_ascii c <? 32)%nat then None
      else
        match string_chars rest with
        | Some (text, after) => Some (String c text, after)
        | None => None
        end
  end.

(** The longest run of digits at the front. *)
Fixpoint digits (s : string) : string * string :=
  match s with
  | String c rest =>
      if is_digit c then let '(ds, after) := digits rest in (String c ds, after)
      else (EmptyString, s)
  | EmptyString => (EmptyString, s)
  end.

(** A number literal: an optional minus sign, an integer part without a
    leading zero, an optional fraction and an optional exponent. *)
Definition number (s : string) : option (string * string) :=
  let '(sign, s1) :=
    match s with
    | String "-" rest => ("-", rest)
    | _ => ("", s)
    end in
  let '(int, s2) := digits s1 in
  let int_ok :=
    match int with
    | EmptyString => false
    | String "0" (String _ _) => false
    | _ => true
    end in
  if negb int_ok then None
  else
    let after_frac :=
      match s2 with
      | String "." rest =>
          let '(frac, s3) := digits rest in
          match frac with
          | EmptyString => None
          | _ => Some ("." ++ frac, s3)
          end
      | _ => Some ("", s2)
      end in
    match after_frac with
    | None => None
    | Some (frac, s3) =>
        let exponent (e : string) (rest : string) :=
          let '(esign, s4) :=
            match rest with
            | String "+" r => ("+", r)
            | String "-" r => ("-", r)
            | _ => ("", rest)
            end in
          let '(ds, s5) := digits s4 in
          match ds with
          | EmptyString => None
          | _ => Some (sign ++ int ++ frac ++ e ++ esign ++ ds, s5)
          end in
        match s3 with
        | String "e" rest => exponent "e" rest
        | String "E" rest => exponent "E" rest
        | _ => Some (sign ++ int ++ frac, s3)
        end
    end.

(** [members[k] = v]: a repeated key keeps its place and takes the later
    value. *)
Fixpoint obj_set (k : string) (v : json) (members : dict) : dict :=
  match members with
  | [] => [(k, v)]
  | (k', v') :: rest =>
      if String.eqb k k' then (k, v) :: rest else (k', v') :: obj_set k v rest
  end.

Definition starts_with (word s : string) : option string :=
  if prefix word s then Some (substring (String.length word) (String.length s) s) else None.

Fixpoint value (fuel : nat) (s : string) : option (json * string) :=
  match fuel with
  | 0 => None
  | S fuel =>
      match skip_ws s with
      | EmptyString => None
      | String c rest =>
          if Ascii.eqb c quote then
            match string_chars rest with
            | Some (text, after) => Some (JStr text, after)
            | None => None
            end
          else if Ascii.eqb c "[" then
            match skip_ws rest with
            | String "]" after => Some (JArr [], after)
            | _ => match items fuel rest with
                   | Some (xs, after) => Some (JArr xs, after)
                   | None => None
                   end
            end
          else if Ascii.eqb c "{" then
            match skip_ws rest with
            | String "}" after => Some (JObj [], after)
            | _ => match members fuel rest [] with
                   | Some (kvs, after) => Some (JObj kvs, after)
                   | None => None
                   end
            end
          else if Ascii.eqb c "-" || is_digit c then
            match number (String c rest) with
            | Some (lexeme, after) => Some (JNum lexeme, after)
            | None => None
            end
          else
            match starts_with "null" (String c rest),
                  starts_with "true" (String c rest),
                  starts_with "false" (String c rest) with
            | Some after, _, _ => Some (JNull, after)
            | _, Some after, _ => Some (JBool true, after)
            | _, _, Some after => Some (JBool false, after)
            | _, _, _ => None
            end
      end
  end
with items (fuel : nat) (s : string) : option (list json * string) :=
  match fuel with
  | 0 => None
  | S fuel =>
      match value fuel s with
      | None => None
      | Some (x, after) =>
          match skip_ws after with
          | String "," rest =>
              match items fuel rest with
              | Some (xs, after') => Some (x :: xs, after')
              | None => None
              end
          | String "]" rest => Some ([x], rest)
          | _ => None
          end
      end
  end
with members (fuel : nat) (s : string) (acc : dict) : option (dict * string) :=
  match fuel with
  | 0 => None
  | S fuel =>
      match skip_ws s with
      | String c rest =>
          if Ascii.eqb c quote then
            match string_chars rest with
            | None => None
            | Some (key, after) =>
                match skip_ws after with
                | String ":" rest' =>
                    match value fuel rest' with
                    | None => None
                    | Some (v, after') =>
                        let acc := obj_set key v acc in
                        match skip_ws after' with
                        | String "," rest'' => members fuel rest'' acc
                        | String "}" rest'' => Some (acc, rest'')
                        | _ => None
                        end
                    end
                | _ => None
                end
            end
          else None
      | EmptyString => None
      end
  end.

(** The recursion is bounded by the length of the text: a nested value
    takes two calls and at least one character, a further item or member one
    call and at least two. *)
Definition JSON_parse (text : string) : Outcome json :=
  match value (2 * String.length text + 2) text with
  | Some (v, after) =>
      match skip_ws after with
      | EmptyString => Returned v
      | _ => Threw (SyntaxError "Unexpected non-whitespace character after JSON")
      end
  | None => Threw (SyntaxError "Unexpected token in JSON")
  end.

End JsonText.

(* ================================================================== *)
(** * Fenced blocks                                                     *)
(* ================================================================== *)

Module Fences.

(** The closing of a fenced block: a line break and a fence. *)
Definition closing : string := newline ++ EmailAnalyze.fence.

(** The two openings the endpoint looks for, in this order. *)
Definition json_opening : string := EmailAnalyze.fence ++ "json" ++ newline.
Definition plain_opening : string := EmailAnalyze.fence ++ newline.

(** No backtick occurs in the text. *)
Fixpoint no_backtick (s : string) : bool :=
  match s with
  | EmptyString => true
  | String c rest => negb (Ascii.eqb c "`") && no_backtick rest
  end.

End Fences.

(* ================================================================== *)
(** * The vocabulary of the specification                               *)
(* ================================================================== *)

Module Spec.

(** The events an upstream message reports, in the order it reports them:
    a text fragment, one tool start per tool invocation, a progress note. *)
Definition reports (m : SDKMessage) : list StreamEvent :=
  match m with
  | stream_event (Some (content_block_delta (Some (delta_text text)))) => [text_delta text]
  | assistant (Some content) =>
      flat_map (fun block =>
                  match block with
                  | tool_use name => [tool_start name]
                  | other_block _ => []
                  end) content
  | tool_progress_msg tool elapsed => [tool_progress tool elapsed]
  | _ => []
  end.

(** The frame that answers the upstream's [result] message. *)
Definition result_events (m : SDKMessage) : list StreamEvent :=
  match m with
  | result subtype =>
      if String.eqb subtype "success" then [done]
      else [error "Query did not complete successfully"]
  | _ => []
  end.

(** All the frames one upstream message accounts for. *)
Definition frames_for (m : SDKMessage) : list Frame :=
  map Data (reports m ++ result_events m).

(** The events a handler sees before the client goes away. *)
Fixpoint before_disconnect (evs : list Event) : list Event :=
  match evs with
  | [] => []
  | ClientDisconnects :: _ => []
  | e :: rest => e :: before_disconnect rest
  end.

Definition disconnects (evs : list Event) : bool :=
  existsb (fun e => match e with ClientDisconnects => true | _ => false end) evs.

(** The frame written when the iteration is over. *)
Definition closing_frame (e : Ending) : Frame :=
  match e with
  | Completes => Sentinel
  | Raises _ => Data (error "Stream error occurred")
  end.

(** "Exactly one terminal frame, followed by the sentinel, which is the
    last frame written." *)
Definition one_terminal_then_sentinel (frames : list Frame) : bool :=
  match rev frames with
  | Sentinel :: terminal :: earlier =>
      is_terminal terminal
      && forallb (fun f => negb (is_terminal f) && negb (is_sentinel f)) earlier
  | _ => false
  end.

(** The text fragments of a run of messages, concatenated in order. *)
Fixpoint text_of (ms : list SDKMessage) : string :=
  match ms with
  | [] => ""
  | stream_event (Some (content_block_delta (Some (delta_text text)))) :: rest =>
      text ++ text_of rest
  | _ :: rest => text_of rest
  end.

Definition is_tool_use (block : ContentBlock) : bool :=
  match block with tool_use _ => true | other_block _ => false end.

(** The number of tool-use blocks across the assistant messages. *)
Fixpoint tool_uses (ms : list SDKMessage) : nat :=
  match ms with
  | [] => 0
  | assistant (Some content) :: rest =>
      List.length (filter is_tool_use content) + tool_uses rest
  | _ :: rest => tool_uses rest
  end.

(** A turn authored by the user, and a conversation without one. *)
Definition user_turn (m : json) : bool :=
  match m with
  | JObj members => is_string (lookup "role" members) "user"
  | _ => false
  end.

Definition is_null (m : json) : bool :=
  match m with JNull => true | _ => false end.

(** The body has no usable [messages]: the field is missing or is not an
    array. *)
Definition messages_missing (parsed : json) : bool :=
  negb (isArray (get_opt (Some parsed) "messages")).

(** The body's [messages], when it is an array. *)
Definition messages_of (parsed : json) : list json :=
  elements (get_opt (Some parsed) "messages").

(** The response, when there is one, has this status. *)
Definition status_is (code : nat) (o : Outcome Response) : bool :=
  match o with Returned resp => Nat.eqb (status resp) code | Threw _ => false end.

(** The analysis result has the documented shape: a summary and two
    arrays. *)
Definition analysis_shape (doc : json) : bool :=
  match doc with
  | JObj members =>
      match lookup "summary" members, lookup "todos" members, lookup "insights" members with
      | Some (JStr _), Some (JArr _), Some (JArr _) => true
      | _, _, _ => false
      end
  | _ => false
  end.

(** A fenced code block, by the rules of pattern matching.  The group
    [([\s\S]*?)] followed by a line break and a fence, at the head of
    [text]: being lazy, it is the shortest text that the closing follows. *)
Fixpoint lazy_group (text : string) : option string :=
  if prefix Fences.closing text then Some ""
  else
    match text with
    | EmptyString => None
    | String c rest => option_map (String c) (lazy_group rest)
    end.

(** [text] without its first [n] characters. *)
Fixpoint skip (n : nat) (text : string) : string :=
  match n, text with
  | O, _ => text
  | S _, EmptyString => EmptyString
  | S n', String _ rest => skip n' rest
  end.

(** The first match of [opening], the group, the closing: the starts are
    tried from the left, and a start matches when the opening stands there
    and a closing follows it somewhere. *)
Fixpoint first_match (opening text : string) : option string :=
  match (if prefix opening text
         then lazy_group (skip (String.length opening) text)
         else None) with
  | Some group => Some group
  | None =>
      match text with
      | EmptyString => None
      | String _ rest => first_match opening rest
      end
  end.

(** The candidates for the JSON text, in the order they are tried: the
    block of the first json fence, the block of the first plain fence, the
    whole text. *)
Definition candidates (fullResponse : string) : list string :=
  (match first_match Fences.json_opening fullResponse with
   | Some group => [group]
   | None => []
   end
   ++ match first_match Fences.plain_opening fullResponse with
      | Some group => [group]
      | None => []
      end
   ++ [fullResponse])%list.

Definition placeholder_todo : json :=
  JObj [("id", JStr "1"); ("text", JStr "Review email analysis results");
        ("source", JStr "Email Agent"); ("priority", JStr "medium")].

Definition placeholder_insight : json :=
  JObj [("type", JStr "info"); ("title", JStr "Analysis Complete");
        ("description", JStr "Check the summary above for details")].

Definition parses (JSON_parse : string -> Outcome json) (text : string) : bool :=
  match JSON_parse text with Returned _ => true | Threw _ => false end.

End Spec.
Import Spec.

(* ================================================================== *)
(** * The prompt, in closed form                                        *)
(* ================================================================== *)

Module Prompt.

(** One line of the conversation context, or the exception of printing
    the content. *)
Definition transcript (m : json) : Outcome string :=
  match ToString (get_opt (Some m) "content") with
  | Threw e => Threw e
  | Returned text =>
      Returned ((if user_turn m then "User" else "Assistant") ++ ": " ++ text)
  end.

(** The prompt for a conversation: the system prompt, the lines of all the
    messages but the last one, if there are any, and the content of the
    last user message; or the first exception met on the way. *)
Definition full_prompt (SYSTEM_PROMPT : string) (messages : list json) (content : jsval)
  : Outcome string :=
  match all_of transcript (removelast messages) with
  | Threw e => Threw e
  | Returned lines =>
      match ToString content with
      | Threw e => Threw e
      | Returned text =>
          Returned
            match lines with
            | [] => SYSTEM_PROMPT ++ newline ++ newline ++ "User: " ++ text
            | _ =>
                SYSTEM_PROMPT ++ newline ++ newline ++ "Previous conversation:" ++ newline
                  ++ join (newline ++ newline) lines
                  ++ newline ++ newline ++ "User: " ++ text
            end
      end
  end.

(** The conversation of a request. *)
Definition conversation_of (request : Request) : list json :=
  match json_body request with
  | Returned parsed => messages_of parsed
  | Threw _ => []
  end.

End Prompt.
Import Prompt.

(* ================================================================== *)
(** * The handlers in closed form                                       *)
(* ================================================================== *)

(** Pure descriptions of what each handler answers and leaves behind, as
    functions of the request and of the upstream run.  The lemmas further
    down prove that the handlers, run step by step, agree with them. *)
Module ClosedForm.

(** What a run amounts to once the SDK calls are set aside: how it ended
    and the world it left. *)
Definition exec {A} (c : M A) (w : World) : Outcome A * World :=
  (outcome (c w), world (c w)).

(** Sequencing and handling, on such results. *)
Definition and_then {A B} (p : Outcome A * World) (k : A -> M B) : Outcome B * World :=
  match p with
  | (Returned a, w) => exec (k a) w
  | (Threw e, w) => (Threw e, w)
  end.

Definition or_else {A} (p : Outcome A * World) (handler : Exn -> M A) : Outcome A * World :=
  match p with
  | (Returned a, w) => (Returned a, w)
  | (Threw e, w) => exec (handler e) w
  end.

(** [w'] is [w] but for the clock and the response stream. *)
Definition evolves (w w' : World) : Prop :=
  exists t c, w' = set_controller c (set_now t w).

Definition readable (w : World) : bool := can_close_or_enqueue (controller w).

(** Appending frames to the stream. *)
Definition push (frames : list Frame) (w : World) : World :=
  set_controller (mkController (written (controller w) ++ frames) (state (controller w))) w.

(** The stream once the client has gone away. *)
Definition cancelled (w : World) : World :=
  set_controller (mkController (written (controller w)) Cancelled) w.

(** The stream once the handler has closed it. *)
Definition closed (w : World) : World :=
  set_controller (mkController (written (controller w)) Closed) w.

Definition loop_end {A} (ending : Ending) (acc : A) : Outcome A :=
  match ending with Completes => Returned acc | Raises e => Threw e end.

(** What the chat relay leaves on the stream for an upstream run: while the
    client stays, the frames of every message and then the closing frame;
    when the client goes away, the frames of the messages before that. *)
Definition stream_frames (up : Upstream) : list Frame :=
  if disconnects (events up)
  then flat_map frames_for (yielded (before_disconnect (events up)))
  else flat_map frames_for (yielded (events up)) ++ [closing_frame (ending up)].

Definition stream_state (up : Upstream) : StreamState :=
  if disconnects (events up) then Cancelled else Closed.

Definition start_result (up : Upstream) : Outcome unit :=
  if disconnects (events up) then Threw invalid_state else Returned tt.

Definition streamed (up : Upstream) : Controller :=
  mkController (stream_frames up) (stream_state up).

Definition chat_query (prompt : string) (w : World) : QueryArgs :=
  mkQuery prompt (ChatRoute.query_options (process_cwd w)).

(** The three ways the chat endpoints answer a request body. *)
Inductive Verdict : Type :=
| Rejected (message : string)
| Failed
| Accepted (lastUserMessage : json).

Definition validate (parsed_body : Outcome json) : Verdict :=
  match parsed_body with
  | Threw _ => Failed
  | Returned parsed =>
      if is_null parsed then Failed
      else if messages_missing parsed then Rejected "Messages array is required"
      else if existsb is_null (messages_of parsed) then Failed
      else
        match last_of (filter user_turn (messages_of parsed)) with
        | None => Rejected "No user message found"
        | Some lastUserMessage =>
            match get_opt (Some lastUserMessage) "content" with
            | None | Some JNull => Failed
            | Some _ => Accepted lastUserMessage
            end
        end
  end.

Definition null_role : Exn := TypeError "Cannot read properties of null (reading 'role')".

Definition chat_failure : Response :=
  mkResponse 500 json_headers
    (json_doc (error_doc "Failed to process chat request. Check server logs for details.")).

Definition rejection (message : string) : Response :=
  mkResponse 400 json_headers (json_doc (error_doc message)).

Definition stream_response (up : Upstream) : Response :=
  mkResponse 200 sse_headers (event_stream (start_result up)).

(** What a handler answers, by the verdict on the request. *)
Definition answers (failure : Response)
    (accepted : json -> Outcome Response * World -> Prop)
    (w : World) (v : Verdict) (r : Outcome Response * World) : Prop :=
  match v with
  | Rejected message => r = (Returned (rejection message), w)
  | Failed => r = (Returned failure, w)
  | Accepted lastUserMessage => accepted lastUserMessage r
  end.

(** The chat relay streams the run of the query with this prompt. *)
Definition chat_streams_with (prompt : string) (w : World) (r : Outcome Response * World)
  : Prop :=
  exists t,
    let q := chat_query prompt w in
    r = (Returned (stream_response (agent w q)),
         set_now t (set_controller (streamed (agent w q)) (set_queries (queries w ++ [q]) w))).

Definition chat_streams (w : World) (r : Outcome Response * World) : Prop :=
  exists prompt, chat_streams_with prompt w r.

(** An accepted request is answered from its prompt, or with the failure
    when the prompt cannot be built. *)
Definition prompted (failure : Response) (prompt : Outcome string)
    (goes_on : string -> World -> Outcome Response * World -> Prop)
    (w : World) (r : Outcome Response * World) : Prop :=
  match prompt with
  | Threw _ => r = (Returned failure, w)
  | Returned text => goes_on text w r
  end.

Definition chat_accepts (request : Request) (w : World) (lastUserMessage : json)
    (r : Outcome Response * World) : Prop :=
  prompted chat_failure
    (full_prompt ChatRoute.SYSTEM_PROMPT (conversation_of request)
       (get_opt (Some lastUserMessage) "content"))
    chat_streams_with w r.

Definition email_failure : Response :=
  NextResponse_json
    (JObj [("error", JStr "Failed to process chat message");
           ("message", JStr "Sorry, I encountered an error. Please try again.")])
    500.

Definition email_query (prompt : string) (w : World) : QueryArgs :=
  mkQuery prompt (EmailChat.query_options (process_cwd w)).

(** The reply of the non-streaming chat to an upstream run. *)
Definition email_reply (up : Upstream) (timestamp : string) : Response :=
  match ending up with
  | Completes =>
      NextResponse_json
        (JObj [("message", JStr (text_of (yielded (events up))));
               ("toolsUsed", num_nat (tool_uses (yielded (events up))));
               ("timestamp", JStr timestamp)])
        200
  | Raises _ => email_failure
  end.

Definition email_replies_with (prompt : string) (w : World) (r : Outcome Response * World)
  : Prop :=
  exists w',
    let q := email_query prompt w in
    evolves (set_queries (queries w ++ [q]) w) w'
    /\ r = (Returned (email_reply (agent w q) (toISOString w (now w'))), w').

Definition email_replies (w : World) (r : Outcome Response * World) : Prop :=
  exists prompt, email_replies_with prompt w r.

Definition email_accepts (request : Request) (w : World) (lastUserMessage : json)
    (r : Outcome Response * World) : Prop :=
  prompted email_failure
    (full_prompt EmailChat.SYSTEM_PROMPT (conversation_of request)
       (get_opt (Some lastUserMessage) "content"))
    email_replies_with w r.

Definition gong_failure : Response :=
  NextResponse_json (error_doc "Failed to process Gong agent request") 500.

(** The data the Gong handler goes on with after the fetch. *)
Definition gong_data (env : GongChat.Env) : GongChat.GongCallsResponse * bool :=
  match GongChat.gong env with
  | GongChat.fetch_ok data => (data, true)
  | _ => (GongChat.mkCalls None None, false)
  end.

Definition gong_content (env : GongChat.Env) (latestUserMessage : json) : Outcome string :=
  GongChat.generate (snd (gong_data env)) (fst (gong_data env)) (Some latestUserMessage).

(** What the Gong relay leaves on the stream. *)
Definition gong_streamed (env : GongChat.Env) (latestUserMessage : json) : Controller :=
  if GongChat.client_left env then mkController [] Cancelled
  else
    match gong_content env latestUserMessage with
    | Returned text => mkController [Data (text_delta text); Data done; Sentinel] Closed
    | Threw _ => mkController [Data (error "Stream error occurred")] Closed
    end.

Definition gong_start_result (env : GongChat.Env) : Outcome unit :=
  if GongChat.client_left env then Threw invalid_state else Returned tt.

Definition gong_streams (env : GongChat.Env) (w : World) (latestUserMessage : json)
    (r : Outcome Response * World) : Prop :=
  exists t,
    r = (Returned (mkResponse 200 sse_headers (event_stream (gong_start_result env))),
         set_now t (set_controller (gong_streamed env latestUserMessage) w)).

(** The fetch failed: no response, or a response that is not OK. *)
Definition fetch_failed (env : GongChat.Env) : bool :=
  match GongChat.gong env with
  | GongChat.fetch_rejects _ | GongChat.fetch_not_ok _ => true
  | _ => false
  end.

(** The answer of the analysis endpoint to an upstream run. *)
Definition analysis_reply (JSON_parse : string -> Outcome json) (up : Upstream) : Response :=
  match ending up with
  | Raises _ => NextResponse_json EmailAnalyze.failure_doc 500
  | Completes =>
      let fullResponse := text_of (yielded (events up)) in
      match JSON_parse (EmailAnalyze.extract_json_string fullResponse) with
      | Threw _ => NextResponse_json (EmailAnalyze.fallback fullResponse) 200
      | Returned analysisResult =>
          if is_null analysisResult then NextResponse_json EmailAnalyze.failure_doc 500
          else NextResponse_json analysisResult 200
      end
  end.

Definition analysis_query (SYSTEM_PROMPT userPrompt preset : string) (w : World) : QueryArgs :=
  mkQuery (SYSTEM_PROMPT ++ newline ++ newline ++ userPrompt)
    (EmailAnalyze.query_options preset (process_cwd w)).

End ClosedForm.
Import ClosedForm.

(* ================================================================== *)
(** * Concrete requests, upstream runs and worlds                       *)
(* ================================================================== *)

Module Examples.

Definition user (text : string) : json :=
  JObj [("role", JStr "user"); ("content", JStr text)].

Definition assistant_turn (text : string) : json :=
  JObj [("role", JStr "assistant"); ("content", JStr text)].

Definition conversation (turns : list json) : Request :=
  mkRequest (Returned (JObj [("messages", JArr turns)])).

Definition hello : Request := conversation [user "hello"].

(** The last turn is the assistant's. *)
Definition answered : Request := conversation [user "hello"; assistant_turn "hi there"].

Definition no_user : Request := conversation [assistant_turn "hi there"].

Definition null_body : Request := mkRequest (Returned JNull).

Definition null_turn : Request := conversation [JNull].

Definition text (s : string) : Event :=
  Yield (stream_event (Some (content_block_delta (Some (delta_text s))))).

Definition tool (name : string) : Event := Yield (assistant (Some [tool_use name])).

(** A single text delta, then success. *)
Definition hi_then_success : Upstream := mkUpstream [text "hi"; Yield (result "success")] Completes.

(** The upstream raises in the middle of the iteration. *)
Definition hi_then_raises : Upstream := mkUpstream [text "hi"] (Raises (Error "upstream failed")).

(** Tool starts and text deltas, interleaved. *)
Definition interleaved : Upstream :=
  mkUpstream [tool "a"; text "x"; tool "b"; text "y"] Completes.

(** The client goes away before the first delta arrives. *)
Definition client_gone : Upstream := mkUpstream [ClientDisconnects; text "hi"] Completes.

Definition says (s : string) : Upstream := mkUpstream [text s] Completes.

(** Text around an assistant message with two tool uses. *)
Definition tools_and_text : Upstream :=
  mkUpstream
    [text "Found";
     Yield (assistant (Some [tool_use "gmail_search"; other_block "text"; tool_use "Read"]));
     text " it."; Yield (result "success")]
    Completes.

Definition world_of (up : Upstream) : World :=
  mkWorld 0 "request-1" (fun _ => "2025-01-01T00:00:00.000Z") "/app" (fun _ => up) [] fresh.

Definition gong_down : GongChat.Env := GongChat.mkEnv (GongChat.fetch_not_ok 401) 2500 false.

Definition gong_down_client_gone : GongChat.Env :=
  GongChat.mkEnv (GongChat.fetch_not_ok 401) 2500 true.

End Examples.

(* ================================================================== *)
(** * The browser side                                                  *)
(* ================================================================== *)

(** The page that calls the two email endpoints.  A handler of the page is
    followed from its start to its end, on the state of the render it was
    created in; the state updates it asks for take effect in the order of
    the calls, and no other handler runs in between.  What the page does to
    the document (scrolling, [preventDefault]) is left out. *)

Module Browser.

(** The white space and line terminators among the 8-bit units: tab to
    carriage return, the space and the no-break space. *)
Definition is_space (c : ascii) : bool :=
  let n := nat_of_ascii c in
  (((9 <=? n)%nat && (n <=? 13)%nat) || (n =? 32)%nat || (n =? 160)%nat)%bool.

Fixpoint trimStart (s : string) : string :=
  match s with
  | EmptyString => EmptyString
  | String c rest => if is_space c then trimStart rest else s
  end.

Fixpoint trimEnd (s : string) : string :=
  match s with
  | EmptyString => EmptyString
  | String c rest =>
      match trimEnd rest with
      | EmptyString => if is_space c then EmptyString else String c EmptyString
      | kept => String c kept
      end
  end.

(** [s.trim()]. *)
Definition trim (s : string) : string := trimEnd (trimStart s).

(** [response.ok]. *)
Definition ok (response : Response) : bool :=
  ((200 <=? status response)%nat && (status response <=? 299)%nat)%bool.

(** [await response.json()]: the document of a JSON body; an event stream
    is not JSON text. *)
Definition response_json (response : Response) : M json :=
  match body response with
  | json_doc doc => ret doc
  | event_stream _ => throw (SyntaxError "Unexpected token d in JSON at position 0")
  end.

(** What a handler of a component works on: the component's state and the
    identifiers [crypto.randomUUID()] hands out, one after the other. *)
Record Tab (S : Type) : Type := mkTab {
  component : S;
  uuids : nat -> string;
  drawn : nat
}.
Arguments mkTab {S} component uuids drawn.
Arguments component {S} t.
Arguments uuids {S} t.
Arguments drawn {S} t.

(** A handler runs over the tab and ends normally or with an exception;
    the state it has set by then stays set either way. *)
Definition Handler (S A : Type) : Type := Tab S -> M (Outcome A * Tab S).

Definition done {S A} (a : A) : Handler S A := fun tab => ret (Returned a, tab).

Definition raise {S A} (e : Exn) : Handler S A := fun tab => ret (Threw e, tab).

Definition then_ {S A B} (c : Handler S A) (k : A -> Handler S B) : Handler S B :=
  fun tab =>
    r <- c tab ;;
    match r with
    | (Returned a, tab') => k a tab'
    | (Threw e, tab') => ret (Threw e, tab')
    end.

(** A step of the effects below; its exception becomes the handler's. *)
Definition await {S A} (c : M A) : Handler S A :=
  fun tab => try_catch (a <- c ;; ret (Returned a, tab)) (fun e => ret (Threw e, tab)).

(** [try { c } catch (error) { handler error } finally { finalizer }]. *)
Definition try_catch_finally {S A} (c : Handler S A) (handler : Exn -> Handler S A)
    (finalizer : Handler S unit) : Handler S A :=
  fun tab =>
    r <- c tab ;;
    r' <- match r with
          | (Returned a, tab') => ret (Returned a, tab')
          | (Threw e, tab') => handler e tab'
          end ;;
    f <- finalizer (snd r') ;;
    match f with
    | (Returned _, tab'') => ret (fst r', tab'')
    | (Threw e, tab'') => ret (Threw e, tab'')
    end.

(** The state as the handler's closure holds it. *)
Definition state {S A} (f : S -> A) : Handler S A :=
  fun tab => ret (Returned (f (component tab)), tab).

(** A state setter, [setX(prev => f prev)]. *)
Definition set {S} (f : S -> S) : Handler S unit :=
  fun tab => ret (Returned tt, mkTab (f (component tab)) (uuids tab) (drawn tab)).

(** [crypto.randomUUID()]. *)
Definition randomUUID {S} : Handler S string :=
  fun tab => ret (Returned (uuids tab (drawn tab)),
                  mkTab (component tab) (uuids tab) (Datatypes.S (drawn tab))).

(** [Sentry.startSpan(context, async span => ...)] around a handler. *)
Definition startSpan {S A} (context : Sdk.SpanContext) (callback : string -> Handler S A)
  : Handler S A :=
  fun tab => Facade.Sentry_startSpan context (fun span => callback span tab).

(** A property of an object literal; an [undefined] value leaves none. *)
Definition property (k : string) (v : jsval) : dict :=
  match v with Some j => [(k, j)] | None => [] end.

(** [v || fallback]. *)
Definition or_else_value (v : jsval) (fallback : json) : json :=
  match v with
  | Some j => if truthy v then j else fallback
  | None => fallback
  end.

End Browser.

Declare Scope page_scope.
Delimit Scope page_scope with page.
Notation "x <~ c ;; k" := (Browser.then_ c (fun x => k))
  (at level 61, c at next level, right associativity) : page_scope.
Notation "c ;;; k" := (Browser.then_ c (fun _ => k))
  (at level 61, right associativity) : page_scope.

Module EmailAgentPage.
Import Browser.

Record ChatMessage : Type := mkMessage {
  id : string;
  role : string;
  content : jsval;
  timestamp : Z
}.

Record State : Type := mkState {
  loading : bool;
  todos : json;
  insights : json;
  analysis : json;
  messages : list ChatMessage;
  input : string;
  chatLoading : bool
}.

Definition greeting : string :=
  "Hi! I'm your Email Agent. I can help you analyze your inbox, extract to-dos, and answer questions about your emails. What would you like to know?".

(** The state at the first render, at time [t]. *)
Definition initial (t : Z) : State :=
  mkState false (JArr []) (JArr []) (JStr "")
    [mkMessage "1" "assistant" (Some (JStr greeting)) t] "" false.

Definition setLoading (v : bool) (s : State) : State :=
  mkState v (todos s) (insights s) (analysis s) (messages s) (input s) (chatLoading s).
Definition setTodos (v : json) (s : State) : State :=
  mkState (loading s) v (insights s) (analysis s) (messages s) (input s) (chatLoading s).
Definition setInsights (v : json) (s : State) : State :=
  mkState (loading s) (todos s) v (analysis s) (messages s) (input s) (chatLoading s).
Definition setAnalysis (v : json) (s : State) : State :=
  mkState (loading s) (todos s) (insights s) v (messages s) (input s) (chatLoading s).
Definition setMessages (f : list ChatMessage -> list ChatMessage) (s : State) : State :=
  mkState (loading s) (todos s) (insights s) (analysis s) (f (messages s)) (input s)
    (chatLoading s).
Definition setInput (v : string) (s : State) : State :=
  mkState (loading s) (todos s) (insights s) (analysis s) (messages s) v (chatLoading s).
Definition setChatLoading (v : bool) (s : State) : State :=
  mkState (loading s) (todos s) (insights s) (analysis s) (messages s) (input s) v.

(** [m => ({ role: m.role, content: m.content })], as the server reads it
    back from the request body. *)
Definition wire (m : ChatMessage) : json :=
  JObj (("role", JStr (role m)) :: property "content" (content m)).

(** The request [fetch] sends for [JSON.stringify({ messages })]. *)
Definition chat_request (ms : list ChatMessage) : Request :=
  mkRequest (Returned (JObj [("messages", JArr (map wire ms))])).

(** A [POST] without a body. *)
Definition empty_request : Request :=
  mkRequest (Threw (SyntaxError "Unexpected end of JSON input")).

Definition apology : string :=
  "Sorry, I encountered an error. Please make sure the Gmail MCP server is configured.".

Definition analysis_failed : string :=
  "Failed to analyze inbox. Make sure Gmail MCP server is configured.".

(** [v?.length || 0]. *)
Definition length_or_zero (v : jsval) : json :=
  match v with
  | None | Some JNull => num 0
  | Some _ =>
      match get_length v with
      | Returned len => or_else_value len (num 0)
      | Threw _ => num 0
      end
  end.

Section Served.

(** [fetch(url, { method: 'POST', ... })], by what serves the URL. *)
Variable fetch : string -> Request -> M Response.

Open Scope page_scope.

(** The [try] block of [handleChatSubmit]. *)
Definition exchange (span : string) (sent : list ChatMessage) : Handler State unit :=
  response <~ await (fetch "/api/email-agent/chat" (chat_request sent)) ;;
  (if negb (ok response) then raise (Error "Failed to get response") else done tt) ;;;
  data <~ await (response_json response) ;;
  replyId <~ randomUUID ;;
  message <~ await (lift (get (Some data) "message")) ;;
  t <~ await Date_now ;;
  let assistantMessage := mkMessage replyId "assistant" message t in
  set (setMessages (fun prev => prev ++ [assistantMessage])%list) ;;;
  (* Update todos and insights if provided *)
  newTodos <~ await (lift (get (Some data) "todos")) ;;
  (match newTodos with
   | Some v => if truthy newTodos then set (setTodos v) else done tt
   | None => done tt
   end) ;;;
  newInsights <~ await (lift (get (Some data) "insights")) ;;
  (match newInsights with
   | Some v => if truthy newInsights then set (setInsights v) else done tt
   | None => done tt
   end) ;;;
  responseLength <~ await (lift (get_length message)) ;;
  toolsUsed <~ await (lift (get (Some data) "toolsUsed")) ;;
  await (Facade.setAttributes span
           ([("ai.output_messages", num 1)] ++ property "ai.response_length" responseLength
              ++ [("ai.tools_used", or_else_value toolsUsed (num 0))])%list) ;;;
  await (Facade.logger_info "Email agent chat: Response received"
           (property "responseLength" responseLength
              ++ [("toolsUsed", or_else_value toolsUsed (num 0)); ("spanId", JStr span)])%list) ;;;
  await (Facade.trackMetric "email_agent.chat.response" (num 1) []).

(** The [catch] block of [handleChatSubmit]. *)
Definition apologise (error : Exn) : Handler State unit :=
  await (sdk (Sdk.console "error" "Chat error:")) ;;;
  await (Facade.logger_error "Email agent chat failed" (Some error) []) ;;;
  await (Facade.trackMetric "email_agent.chat.error" (num 1) []) ;;;
  await (sdk (Sdk.capture_exception error
                [("tags", JObj [("component", JStr "email_agent_chat")])])) ;;;
  apologyId <~ randomUUID ;;
  t <~ await Date_now ;;
  set (setMessages (fun prev => prev ++ [mkMessage apologyId "assistant" (Some (JStr apology)) t])%list).

Definition handleChatSubmit : Handler State unit :=
  input <~ state input ;;
  chatLoading <~ state chatLoading ;;
  messages <~ state messages ;;
  if (negb (truthy (Some (JStr (trim input)))) || chatLoading)%bool then done tt
  else
    userId <~ randomUUID ;;
    t <~ await Date_now ;;
    let userMessage := mkMessage userId "user" (Some (JStr (trim input))) t in
    set (setMessages (fun prev => prev ++ [userMessage])%list) ;;;
    set (setInput "") ;;;
    set (setChatLoading true) ;;;
    (* Sentry AI Monitoring - Track user message *)
    startSpan
      (Sdk.mkSpan "email_agent.chat" "ai.chat.completions"
         [("ai.input_messages", num 1); ("ai.model_id", JStr "claude-sonnet-4.5")])
      (fun span =>
       await (Facade.logger_info "Email agent chat: User message"
                [("messageLength", num_nat (String.length (trim input)));
                 ("spanId", JStr span)]) ;;;
       await (Facade.trackMetric "email_agent.chat.message" (num 1) []) ;;;
       await (Facade.addBreadcrumb "User sent chat message" [] Sdk.info) ;;;
       try_catch_finally
         (exchange span (messages ++ [userMessage])%list)
         apologise
         (set (setChatLoading false))).

Definition analyzeInbox : Handler State unit :=
  set (setLoading true) ;;;
  await (Facade.logger_info "Email agent: Starting inbox analysis" []) ;;;
  await (Facade.trackMetric "email_agent.analysis.started" (num 1) []) ;;;
  await (Facade.addBreadcrumb "User requested inbox analysis" [] Sdk.info) ;;;
  try_catch_finally
    (response <~ await (fetch "/api/email-agent/analyze" empty_request) ;;
     (if negb (ok response) then raise (Error "Failed to analyze inbox") else done tt) ;;;
     data <~ await (response_json response) ;;
     newTodos <~ await (lift (get (Some data) "todos")) ;;
     set (setTodos (or_else_value newTodos (JArr []))) ;;;
     newInsights <~ await (lift (get (Some data) "insights")) ;;
     set (setInsights (or_else_value newInsights (JArr []))) ;;;
     summary <~ await (lift (get (Some data) "summary")) ;;
     set (setAnalysis (or_else_value summary (JStr ""))) ;;;
     await (Facade.logger_info "Email agent: Analysis completed"
              [("todosFound", length_or_zero newTodos);
               ("insightsGenerated", length_or_zero newInsights)]) ;;;
     await (Facade.trackMetric "email_agent.analysis.completed" (num 1) []) ;;;
     await (Facade.trackMetric "email_agent.todos.extracted" (length_or_zero newTodos) []))
    (fun error =>
     await (sdk (Sdk.console "error" "Analysis error:")) ;;;
     await (Facade.logger_error "Email agent analysis failed" (Some error) []) ;;;
     await (Facade.trackMetric "email_agent.analysis.error" (num 1) []) ;;;
     set (setAnalysis (JStr analysis_failed)))
    (set (setLoading false)).

End Served.

(** What the handlers of the chat leave alone. *)
Definition same_panel (s s' : State) : Prop :=
  loading s' = loading s /\ analysis s' = analysis s
  /\ input s' = input s /\ chatLoading s' = chatLoading s.

(** The page after its first render at time 0, with [text] typed into the
    chat box; the identifiers handed out are [id-0], [id-1], ... *)
Definition typed (text : string) : Tab State :=
  mkTab (setInput text (initial 0)) (fun n => "id-" ++ decimal n) 0.

End EmailAgentPage.

(* ================================================================== *)
(** * Runs of browser handlers                                          *)
(* ================================================================== *)

Module PageRuns.
Import Browser.

(** Sequencing, awaiting and handling, on the results of runs. *)
Definition and_next {S A B} (p : Outcome (Outcome A * Tab S) * World) (k : A -> Handler S B)
  : Outcome (Outcome B * Tab S) * World :=
  match p with
  | (Returned (Returned a, tab), w) => exec (k a tab) w
  | (Returned (Threw e, tab), w) => (Returned (Threw e, tab), w)
  | (Threw e, w) => (Threw e, w)
  end.

Definition awaited {S A} (tab : Tab S) (p : Outcome A * World)
  : Outcome (Outcome A * Tab S) * World :=
  match p with
  | (Returned a, w) => (Returned (Returned a, tab), w)
  | (Threw e, w) => (Returned (Threw e, tab), w)
  end.

Definition caught {S A} (p : Outcome (Outcome A * Tab S) * World) (handler : Exn -> Handler S A)
  : Outcome (Outcome A * Tab S) * World :=
  match p with
  | (Returned (Threw e, tab), w) => exec (handler e tab) w
  | settled => settled
  end.

Definition finished {S A} (p : Outcome (Outcome A * Tab S) * World) (finalizer : Handler S unit)
  : Outcome (Outcome A * Tab S) * World :=
  match p with
  | (Returned (o, tab), w) =>
      match exec (finalizer tab) w with
      | (Returned (Returned _, tab'), w') => (Returned (o, tab'), w')
      | (Returned (Threw e, tab'), w') => (Returned (Threw e, tab'), w')
      | (Threw e, w') => (Threw e, w')
      end
  | (Threw e, w) => (Threw e, w)
  end.

End PageRuns.


(* ================================================================== *)
(** * Worlds and runs: general facts                                    *)
(* ================================================================== *)

Lemma evolves_refl w : evolves w w.
Proof. exists (now w), (controller w). destruct w; reflexivity. Qed.

Lemma evolves_trans w1 w2 w3 : evolves w1 w2 -> evolves w2 w3 -> evolves w1 w3.
Proof.
  intros (t & c & ->) (t' & c' & ->). exists t', c'. reflexivity.
Qed.

Lemma evolves_queries w w' : evolves w w' -> queries w' = queries w.
Proof. intros (t & c & ->). reflexivity. Qed.

Lemma evolves_agent w w' : evolves w w' -> agent w' = agent w.
Proof. intros (t & c & ->). reflexivity. Qed.

Lemma set_controller_same w : set_controller (controller w) w = w.
Proof. destruct w; reflexivity. Qed.

Lemma push_nil w : push [] w = w.
Proof. destruct w as [? ? ? ? ? ? [? ?]]. unfold push; simpl. rewrite app_nil_r. reflexivity. Qed.

Lemma push_push fs gs w : push gs (push fs w) = push (fs ++ gs) w.
Proof. unfold push; simpl. rewrite app_assoc. reflexivity. Qed.

Lemma readable_push fs w : readable (push fs w) = readable w.
Proof. reflexivity. Qed.

Lemma push_evolves fs w : evolves w (push fs w).
Proof. eexists (now w), _. unfold push. destruct w; reflexivity. Qed.

(** ** Running the primitives *)

Lemma exec_ret {A} (a : A) w : exec (ret a) w = (Returned a, w).
Proof. reflexivity. Qed.

Lemma exec_throw {A} e w : exec (@throw A e) w = (Threw e, w).
Proof. reflexivity. Qed.

Lemma exec_bind {A B} (c : M A) (k : A -> M B) w :
  exec (bind c k) w = and_then (exec c w) k.
Proof. unfold and_then, exec, bind; simpl. destruct (outcome (c w)); reflexivity. Qed.

Lemma exec_try_catch {A} (c : M A) (h : Exn -> M A) w :
  exec (try_catch c h) w = or_else (exec c w) h.
Proof.
  unfold or_else, exec, try_catch; simpl.
  destruct (outcome (c w)) eqn:E; simpl; rewrite ?E; reflexivity.
Qed.

Lemma exec_lift {A} (o : Outcome A) w : exec (lift o) w = (o, w).
Proof. destruct o; reflexivity. Qed.

Lemma exec_when b c w : exec (when b c) w = if b then exec c w else (Returned tt, w).
Proof. destruct b; reflexivity. Qed.

Lemma exec_sdk c w : exec (sdk c) w = (Returned tt, w).
Proof. reflexivity. Qed.

Lemma exec_read {A} (f : World -> A) w : exec (read f) w = (Returned (f w), w).
Proof. reflexivity. Qed.

Lemma exec_Date_now w : exec Date_now w = (Returned (now w), w).
Proof. reflexivity. Qed.

Lemma exec_performance_now w : exec performance_now w = (Returned (now w), w).
Proof. reflexivity. Qed.

Lemma exec_randomUUID w : exec crypto_randomUUID w = (Returned (uuid w), w).
Proof. reflexivity. Qed.

Lemma exec_toISOString w :
  exec new_Date_toISOString w = (Returned (toISOString w (now w)), w).
Proof. reflexivity. Qed.

Lemma exec_query args w :
  exec (query args) w = (Returned (agent w args), set_queries (queries w ++ [args]) w).
Proof. reflexivity. Qed.

Lemma exec_new_stream w : exec new_ReadableStream w = (Returned tt, set_controller fresh w).
Proof. reflexivity. Qed.

Lemma exec_enqueue f w :
  exec (controller_enqueue f) w =
  if readable w then (Returned tt, push [f] w) else (Threw invalid_state, w).
Proof. unfold exec, controller_enqueue, readable. destruct (can_close_or_enqueue _); reflexivity. Qed.

Lemma exec_close w :
  exec controller_close w =
  if readable w then (Returned tt, closed w) else (Threw invalid_state, w).
Proof. unfold exec, controller_close, readable. destruct (can_close_or_enqueue _); reflexivity. Qed.

Lemma exec_disconnect w :
  exec client_disconnects w = (Returned tt, if readable w then cancelled w else w).
Proof.
  unfold exec, client_disconnects, readable, can_close_or_enqueue, cancelled; simpl.
  destruct (state (controller w)); reflexivity.
Qed.

Lemma exec_elapse ms w : exec (elapse ms) w = (Returned tt, set_now (now w + ms)%Z w).
Proof. reflexivity. Qed.

Lemma exec_run_start c w : exec (run_start c) w = (Returned (fst (exec c w)), snd (exec c w)).
Proof. reflexivity. Qed.


(** ** The facade returns and leaves the world alone *)

Lemma exec_trackMetric name value tags w :
  exec (Facade.trackMetric name value tags) w = (Returned tt, w).
Proof. reflexivity. Qed.

Lemma exec_trackTiming name value unit_ tags w :
  exec (Facade.trackTiming name value unit_ tags) w = (Returned tt, w).
Proof. reflexivity. Qed.

Lemma exec_addBreadcrumb message data level w :
  exec (Facade.addBreadcrumb message data level) w = (Returned tt, w).
Proof. reflexivity. Qed.

Lemma exec_logger_info message extra w :
  exec (Facade.logger_info message extra) w = (Returned tt, w).
Proof. reflexivity. Qed.

Lemma exec_logger_warning message extra w :
  exec (Facade.logger_warning message extra) w = (Returned tt, w).
Proof. reflexivity. Qed.

Lemma exec_logger_error message err extra w :
  exec (Facade.logger_error message err extra) w = (Returned tt, w).
Proof. destruct err; reflexivity. Qed.

Lemma exec_setAttributes span attributes w :
  exec (Facade.setAttributes span attributes) w = (Returned tt, w).
Proof. reflexivity. Qed.

Lemma exec_Sentry_startSpan {T} context (callback : string -> M T) w :
  exec (Facade.Sentry_startSpan context callback) w
  = exec (callback (Sdk.span_name context)) w.
Proof.
  unfold Facade.Sentry_startSpan.
  rewrite exec_bind, exec_sdk; cbn [and_then].
  rewrite exec_try_catch, exec_bind.
  destruct (exec (callback (Sdk.span_name context)) w) as [[r|e] w'] eqn:E;
    cbn [and_then or_else]; rewrite exec_bind, exec_sdk; reflexivity.
Qed.

Create Rewrite HintDb exec.
#[global] Hint Rewrite @exec_ret @exec_throw @exec_bind @exec_try_catch @exec_lift exec_when
  exec_sdk @exec_read exec_Date_now exec_performance_now exec_randomUUID exec_toISOString
  exec_query exec_new_stream exec_enqueue exec_close exec_disconnect exec_elapse
  exec_run_start exec_trackMetric exec_trackTiming exec_addBreadcrumb exec_logger_info
  exec_logger_warning exec_logger_error exec_setAttributes @exec_Sentry_startSpan : exec.

Lemma exec_request_json request w : exec (request_json request) w = (json_body request, w).
Proof. apply exec_lift. Qed.
#[global] Hint Rewrite exec_request_json : exec.

(** One pass of rewriting with the facts above, then the sequencing. *)
Ltac run :=
  repeat (progress (try (rewrite_strat topdown (hints exec)); cbn [and_then or_else fst snd])).

(* ================================================================== *)
(** * The chat relay                                                    *)
(* ================================================================== *)

Lemma exec_announce rid n block w :
  exec (ChatRoute.announce rid n block) w =
  match block with
  | tool_use name =>
      if readable w then (Returned (S n), push [Data (tool_start name)] w)
      else (Threw invalid_state, w)
  | other_block _ => (Returned n, w)
  end.
Proof.
  destruct block; unfold ChatRoute.announce; run; [|reflexivity].
  destruct (readable w); run; reflexivity.
Qed.

(** The tool loop of the relay. *)
Lemma announce_readable rid content : forall n w,
  readable w = true ->
  exists n',
  exec (for_of content (ChatRoute.announce rid) n) w
  = (Returned n', push (map Data (reports (assistant (Some content)))) w).
Proof.
  induction content as [|[name|ty] rest IH]; intros n w Hr; cbn [for_of];
    rewrite ?exec_bind, ?exec_announce; cbn [fst snd].
  - run. cbn. rewrite push_nil. eauto.
  - run. rewrite Hr. cbn [fst snd]. run.
    destruct (IH (S n) (push [Data (tool_start name)] w) Hr) as [n' ->].
    rewrite push_push. eauto.
  - run. apply IH, Hr.
Qed.

Lemma announce_unreadable rid content : forall n w,
  readable w = false ->
  snd (exec (for_of content (ChatRoute.announce rid) n) w) = w.
Proof.
  induction content as [|[name|ty] rest IH]; intros n w Hr; cbn [for_of];
    rewrite ?exec_bind, ?exec_announce; cbn [fst snd].
  - run. reflexivity.
  - run. rewrite Hr. reflexivity.
  - run. apply IH, Hr.
Qed.

Lemma relay_readable rid t0 acc m w :
  readable w = true ->
  exists acc', exec (ChatRoute.relay rid t0 acc m) w = (Returned acc', push (frames_for m) w).
Proof.
  intros Hr. unfold ChatRoute.relay, frames_for.
  destruct m as [[[[[text|ty]|]|ty]|]|[content|]|tool el|subtype|ty]; cbn [reports result_events app];
    run; rewrite ?Hr; run; rewrite ?push_nil; eauto.
  - destruct (announce_readable rid content (ChatRoute.toolsUsed acc) w Hr) as [n' ->].
    run. rewrite app_nil_r. eauto.
  - destruct (String.eqb subtype "success"); cbn [negb map]; run; rewrite ?Hr; run;
      rewrite ?push_nil; eauto.
Qed.

Lemma relay_unreadable rid t0 acc m w :
  readable w = false ->
  snd (exec (ChatRoute.relay rid t0 acc m) w) = w.
Proof.
  intros Hr. unfold ChatRoute.relay.
  destruct m as [[[[[text|ty]|]|ty]|]|[content|]|tool el|subtype|ty];
    run; rewrite ?Hr; run; try reflexivity.
  - pose proof (announce_unreadable rid content (ChatRoute.toolsUsed acc) w Hr) as H.
    destruct (exec _ w) as [[n'|e] w'] eqn:E in H |- *; cbn [fst snd] in *; subst; run; reflexivity.
  - destruct (String.eqb subtype "success"); cbn [negb]; run; rewrite ?Hr; run; reflexivity.
Qed.

(** The loop on a stream that is no longer readable: nothing is written. *)
Lemma relay_loop_unreadable rid t0 ending evs : forall acc w,
  readable w = false ->
  exists t, snd (exec (for_await evs ending (ChatRoute.relay rid t0) acc) w) = set_now t w.
Proof.
  induction evs as [|[m|ms|] rest IH]; intros acc w Hr; cbn [for_await].
  - exists (now w). destruct ending; run; destruct w; reflexivity.
  - run. pose proof (relay_unreadable rid t0 acc m w Hr) as H.
    destruct (exec (ChatRoute.relay rid t0 acc m) w) as [[acc'|e] w'];
      cbn [fst snd and_then] in *; subst w'.
    + apply IH, Hr.
    + exists (now w). destruct w; reflexivity.
  - run. destruct (IH acc (set_now (now w + ms)%Z w) Hr) as [t ->].
    exists t. reflexivity.
  - run. rewrite Hr. apply IH, Hr.
Qed.

(** The loop while the client stays: every message's frames are written,
    in order, and the loop ends as the upstream does. *)
Lemma relay_loop_connected rid t0 ending evs : forall acc w,
  readable w = true ->
  disconnects evs = false ->
  exists acc' t,
    exec (for_await evs ending (ChatRoute.relay rid t0) acc) w
    = (loop_end ending acc', set_now t (push (flat_map frames_for (yielded evs)) w)).
Proof.
  induction evs as [|[m|ms|] rest IH]; intros acc w Hr Hc; cbn [for_await yielded flat_map].
  - exists acc, (now w). rewrite push_nil. destruct ending; run; destruct w; reflexivity.
  - run. destruct (relay_readable rid t0 acc m w Hr) as [acc1 ->]. cbn [and_then].
    destruct (IH acc1 (push (frames_for m) w)) as (acc' & t & ->); auto.
    rewrite push_push. eauto.
  - run. destruct (IH acc (set_now (now w + ms)%Z w)) as (acc' & t & ->); auto.
    exists acc', t. reflexivity.
  - discriminate.
Qed.

(** The loop when the client goes away on the way: the frames of the
    messages before that are written, and nothing after. *)
Lemma relay_loop_disconnected rid t0 ending evs : forall acc w,
  readable w = true ->
  disconnects evs = true ->
  exists t,
    snd (exec (for_await evs ending (ChatRoute.relay rid t0) acc) w)
    = set_now t (cancelled (push (flat_map frames_for (yielded (before_disconnect evs))) w)).
Proof.
  induction evs as [|[m|ms|] rest IH]; intros acc w Hr Hc;
    cbn [for_await yielded flat_map before_disconnect]; [discriminate| | |].
  - run. destruct (relay_readable rid t0 acc m w Hr) as [acc1 ->]. cbn [and_then].
    destruct (IH acc1 (push (frames_for m) w)) as (t & ->); auto.
    rewrite push_push. eauto.
  - run. destruct (IH acc (set_now (now w + ms)%Z w)) as (t & ->); auto.
    exists t. reflexivity.
  - run. rewrite Hr, push_nil.
    destruct (relay_loop_unreadable rid t0 ending rest acc (cancelled w)) as [t ->]; eauto.
Qed.

Lemma start_spec rid t0 prompt w :
  controller w = fresh ->
  let q := chat_query prompt w in
  exists t,
    exec (ChatRoute.start rid t0 prompt) w
    = (start_result (agent w q),
       set_now t (set_controller (streamed (agent w q)) (set_queries (queries w ++ [q]) w))).
Proof.
  intros Hf q. subst q. unfold chat_query, ChatRoute.start.
  destruct w as [n u iso cwd ag qs c]; simpl in Hf; subst c. run.
  cbn [process_cwd agent queries].
  set (q := mkQuery prompt _).
  set (w1 := set_queries _ _).
  assert (Hr : readable w1 = true) by reflexivity.
  unfold start_result, streamed, stream_frames, stream_state.
  destruct (disconnects (events (ag q))) eqn:Hd.
  - destruct (relay_loop_disconnected rid t0 (ending (ag q)) (events (ag q))
                (ChatRoute.mkCounters 0 0) w1 Hr Hd) as [t Ht].
    destruct (exec (for_await _ _ _ _) w1) as [[acc|e] w2]; cbn [snd] in Ht; subst w2;
      cbn [and_then or_else]; run; exists t; reflexivity.
  - destruct (relay_loop_connected rid t0 (ending (ag q)) (events (ag q))
                (ChatRoute.mkCounters 0 0) w1 Hr Hd) as (acc & t & ->).
    destruct (ending (ag q)); cbn [loop_end and_then or_else closing_frame]; run;
      exists t; reflexivity.
Qed.

Lemma exec_role_is_user m w :
  exec (role_is_user m) w
  = (if is_null m then Threw null_role else Returned (user_turn m), w).
Proof. unfold role_is_user. destruct m; cbn [get]; run; reflexivity. Qed.

Lemma exec_filter_users xs : forall w,
  exec (Array_filter role_is_user xs) w
  = (if existsb is_null xs then Threw null_role else Returned (filter user_turn xs), w).
Proof.
  induction xs as [|x rest IH]; intros w; cbn [Array_filter existsb filter].
  - run. reflexivity.
  - rewrite exec_bind, exec_role_is_user. destruct (is_null x); cbn [and_then orb]; [reflexivity|].
    rewrite exec_bind, IH. destruct (existsb is_null rest); cbn [and_then]; [reflexivity|].
    run. destruct (user_turn x); reflexivity.
Qed.

Lemma all_of_cons {A B} (f : A -> Outcome B) x rest :
  all_of f (x :: rest)
  = match f x with
    | Threw e => Threw e
    | Returned y =>
        match all_of f rest with
        | Threw e => Threw e
        | Returned ys => Returned (y :: ys)
        end
    end.
Proof. reflexivity. Qed.

Lemma exec_transcript_line m w :
  is_null m = false -> exec (transcript_line m) w = (transcript m, w).
Proof.
  intros H. unfold transcript_line, transcript.
  destruct m; try discriminate; cbn [get get_opt user_turn]; run;
    match goal with |- context [ToString ?v] => destruct (ToString v) end; reflexivity.
Qed.

Lemma exec_transcript_lines xs : forall w,
  existsb is_null xs = false ->
  exec (Array_map transcript_line xs) w = (all_of transcript xs, w).
Proof.
  induction xs as [|x rest IH]; intros w H; cbn [Array_map].
  - reflexivity.
  - cbn [existsb] in H. apply orb_false_iff in H as [Hx Hrest].
    rewrite all_of_cons, exec_bind, (exec_transcript_line x w Hx).
    destruct (transcript x) as [line|e]; cbn [and_then]; [|reflexivity].
    rewrite exec_bind, (IH w Hrest).
    destruct (all_of transcript rest) as [lines|e]; reflexivity.
Qed.

Lemma transcripts_not_empty xs : forall lines,
  all_of transcript xs = Returned lines ->
  forall l, In l lines -> exists c rest, l = String c rest.
Proof.
  induction xs as [|x rest IH]; intros lines H l Hl.
  - injection H as <-. destruct Hl.
  - rewrite all_of_cons in H. unfold transcript at 1 in H.
    destruct (ToString _) as [text|e]; [|discriminate].
    destruct (all_of transcript rest) as [ls|e]; [|discriminate].
    injection H as <-. destruct Hl as [<-|Hl]; [|exact (IH ls eq_refl l Hl)].
    destruct (user_turn x); cbn; eauto.
Qed.

Lemma context_is_truthy lines :
  (forall l, In l lines -> exists c rest, l = String c rest) ->
  truthy (Some (JStr (join (newline ++ newline) lines)))
  = match lines with [] => false | _ => true end.
Proof.
  intros H. destruct lines as [|l ls]; [reflexivity|].
  destruct (H l (or_introl eq_refl)) as (c & rest & ->).
  unfold join. cbn [String.concat]. destruct ls; reflexivity.
Qed.

Lemma removelast_no_null xs :
  existsb is_null xs = false -> existsb is_null (removelast xs) = false.
Proof.
  induction xs as [|x [|y rest] IH]; intros H; try reflexivity.
  cbn [existsb] in H. apply orb_false_iff in H as [Hx Hrest].
  change (removelast (x :: y :: rest)) with (x :: removelast (y :: rest)).
  cbn [existsb]. rewrite Hx, IH; auto.
Qed.

Lemma exec_build_prompt sys items members w :
  existsb is_null items = false ->
  exec (build_prompt sys items (Some (JObj members))) w
  = (full_prompt sys items (lookup "content" members), w).
Proof.
  intros H. unfold build_prompt, full_prompt.
  rewrite exec_bind, (exec_transcript_lines _ w (removelast_no_null _ H)).
  destruct (all_of transcript (removelast items)) as [lines|e] eqn:E; cbn [and_then];
    [|reflexivity].
  cbn [get]. run. destruct (ToString _) as [text|e]; cbn [and_then]; [|reflexivity].
  run. rewrite (context_is_truthy _ (transcripts_not_empty _ _ E)).
  destruct lines; reflexivity.
Qed.

Lemma last_of_users xs :
  match last_of (filter user_turn xs) with
  | None => True
  | Some m => exists members, m = JObj members
  end.
Proof.
  unfold last_of. induction xs as [|x rest IH]; cbn [filter map last]; [exact I|].
  destruct (user_turn x) eqn:Hu; [|exact IH].
  cbn [map]. destruct (filter user_turn rest) as [|y ys] eqn:E.
  - cbn. destruct x; try discriminate. eauto.
  - cbn [map last] in *. exact IH.
Qed.

Lemma get_messages parsed :
  parsed <> JNull -> get (Some parsed) "messages" = Returned (get_opt (Some parsed) "messages").
Proof. destruct parsed; intros H; try reflexivity. contradiction. Qed.

Lemma not_array_guard v : (negb (truthy v) || negb (isArray v))%bool = negb (isArray v).
Proof. destruct v as [[]|]; cbn [isArray negb truthy]; rewrite ?orb_true_r; reflexivity. Qed.

Lemma chat_POST_spec request w :
  answers chat_failure (chat_accepts request w) w
    (validate (json_body request)) (exec (ChatRoute.POST request) w).
Proof.
  unfold validate, ChatRoute.POST, chat_accepts, conversation_of. run.
  destruct request as [[parsed|e]]; cbn [json_body and_then or_else]; [|run; reflexivity].
  destruct (is_null parsed) eqn:Hn.
  { destruct parsed; try discriminate. cbn [get]. run. reflexivity. }
  assert (Hp : parsed <> JNull) by (intros ->; discriminate).
  run. rewrite (get_messages parsed Hp). cbn [and_then].
  rewrite not_array_guard. unfold messages_missing, messages_of.
  generalize (get_opt (Some parsed) "messages"). intros messages.
  destruct (isArray messages) eqn:Ha; cbn [negb].
  2:{ run. reflexivity. }
  rewrite exec_bind, exec_filter_users.
  destruct (existsb is_null _) eqn:Hnull; cbn [and_then or_else]; [run; reflexivity|].
  pose proof (last_of_users (elements messages)) as Hlast.
  destruct (last_of _) as [lastUserMessage|]; cbn [truthy negb].
  2:{ run. reflexivity. }
  destruct Hlast as [members ->]. cbn [truthy negb get_opt].
  rewrite exec_bind. cbn [get]. run.
  destruct (lookup "content" members) as [content|] eqn:Hcontent;
    [|cbn [get_length get]; run; reflexivity].
  destruct (is_null content) eqn:Hc.
  { destruct content; try discriminate. cbn [get_length get]. run. reflexivity. }
  assert (exists len, get_length (Some content) = Returned len) as [len ->]
    by (destruct content; try discriminate; cbn; eauto).
  replace (match content with JNull => Failed | _ => Accepted (JObj members) end)
    with (Accepted (JObj members)) by (destruct content; try discriminate; reflexivity).
  run.
  rewrite (exec_build_prompt ChatRoute.SYSTEM_PROMPT (elements messages) members w Hnull).
  cbn [answers prompted get_opt]. rewrite Hcontent.
  destruct (full_prompt _ _ _) as [p|e]; cbn [and_then or_else prompted];
    [|run; reflexivity].
  run.
  destruct (start_spec (uuid w) (now w) p (set_controller fresh w) eq_refl) as [t ->].
  cbn [fst snd]. exists t. destruct w; reflexivity.
Qed.

(* ================================================================== *)
(** * The non-streaming chat                                            *)
(* ================================================================== *)

Lemma append_assoc' (a b c : string) : (a ++ b) ++ c = a ++ (b ++ c).
Proof. induction a; cbn; congruence. Qed.

Lemma append_nil_r (a : string) : a ++ "" = a.
Proof. induction a; cbn; congruence. Qed.

Lemma exec_track rid n block w :
  exec (EmailChat.track rid n block) w
  = (Returned (if is_tool_use block then S n else n), w).
Proof. destruct block; unfold EmailChat.track; run; reflexivity. Qed.

Lemma track_loop rid content : forall n w,
  exec (for_of content (EmailChat.track rid) n) w
  = (Returned (List.length (filter is_tool_use content) + n), w).
Proof.
  induction content as [|block rest IH]; intros n w; cbn [for_of filter].
  - run. reflexivity.
  - rewrite exec_bind, exec_track. cbn [and_then]. rewrite IH.
    destruct (is_tool_use block); cbn [List.length];
      apply (f_equal (fun x => (Returned x, w))); lia.
Qed.

Lemma exec_collect rid acc m w :
  exec (EmailChat.collect rid acc m) w
  = (Returned (EmailChat.mkCollected (EmailChat.fullResponse acc ++ text_of [m])
                 (tool_uses [m] + EmailChat.toolsUsed acc)), w).
Proof.
  unfold EmailChat.collect.
  destruct m as [[[[[text|ty]|]|ty]|]|[content|]|tool el|subtype|ty];
    cbn [text_of tool_uses]; run; rewrite ?track_loop; run;
    rewrite ?append_nil_r, ?Nat.add_0_r; reflexivity.
Qed.

Lemma text_of_cons m ms : text_of (m :: ms) = text_of [m] ++ text_of ms.
Proof.
  destruct m as [[[[[text|ty]|]|ty]|]|[content|]|tool el|subtype|ty]; cbn [text_of];
    rewrite ?append_nil_r; reflexivity.
Qed.

Lemma tool_uses_cons m ms : tool_uses (m :: ms) = tool_uses [m] + tool_uses ms.
Proof.
  destruct m as [[[[[text|ty]|]|ty]|]|[content|]|tool el|subtype|ty]; cbn [tool_uses]; lia.
Qed.

Lemma cancelled_evolves w : evolves w (if readable w then cancelled w else w).
Proof.
  destruct (readable w); [|apply evolves_refl].
  eexists (now w), _. unfold cancelled. destruct w; reflexivity.
Qed.

Lemma set_now_evolves t w : evolves w (set_now t w).
Proof. exists t, (controller w). destruct w; reflexivity. Qed.

Lemma collect_loop rid ending evs : forall acc w,
  exists w',
    evolves w w'
    /\ exec (for_await evs ending (EmailChat.collect rid) acc) w
       = (loop_end ending
            (EmailChat.mkCollected (EmailChat.fullResponse acc ++ text_of (yielded evs))
               (tool_uses (yielded evs) + EmailChat.toolsUsed acc)), w').
Proof.
  induction evs as [|[m|ms|] rest IH]; intros acc w; cbn [for_await yielded].
  - exists w. split; [apply evolves_refl|].
    cbn [text_of tool_uses]. rewrite append_nil_r. destruct acc, ending; run; reflexivity.
  - rewrite exec_bind, exec_collect. cbn [and_then].
    destruct (IH (EmailChat.mkCollected (EmailChat.fullResponse acc ++ text_of [m])
                    (tool_uses [m] + EmailChat.toolsUsed acc)) w) as (w' & Hev & ->).
    exists w'. split; [exact Hev|]. cbn [EmailChat.fullResponse EmailChat.toolsUsed].
    rewrite (text_of_cons m (yielded rest)), (tool_uses_cons m (yielded rest)), append_assoc'.
    replace (tool_uses (yielded rest) + (tool_uses [m] + EmailChat.toolsUsed acc))
      with (tool_uses [m] + tool_uses (yielded rest) + EmailChat.toolsUsed acc) by lia.
    reflexivity.
  - run. destruct (IH acc (set_now (now w + ms)%Z w)) as (w' & Hev & ->).
    exists w'. split; [|reflexivity].
    eapply evolves_trans; [apply set_now_evolves | exact Hev].
  - run. destruct (IH acc (if readable w then cancelled w else w)) as (w' & Hev & ->).
    exists w'. split; [|reflexivity].
    eapply evolves_trans; [apply cancelled_evolves | exact Hev].
Qed.

Lemma evolves_now_free w w' :
  evolves w w' -> toISOString w' = toISOString w /\ uuid w' = uuid w /\ process_cwd w' = process_cwd w.
Proof. intros (t & c & ->). repeat split. Qed.

Lemma email_POST_spec request w :
  answers email_failure (email_accepts request w) w
    (validate (json_body request)) (exec (EmailChat.POST request) w).
Proof.
  unfold validate, EmailChat.POST, email_accepts, conversation_of. run.
  destruct request as [[parsed|e]]; cbn [json_body and_then or_else]; [|run; reflexivity].
  destruct (is_null parsed) eqn:Hn.
  { destruct parsed; try discriminate. cbn [get]. run. reflexivity. }
  assert (Hp : parsed <> JNull) by (intros ->; discriminate).
  run. rewrite (get_messages parsed Hp). cbn [and_then].
  rewrite not_array_guard. unfold messages_missing, messages_of.
  generalize (get_opt (Some parsed) "messages"). intros messages.
  destruct (isArray messages) eqn:Ha; cbn [negb].
  2:{ run. reflexivity. }
  rewrite exec_bind, exec_filter_users.
  destruct (existsb is_null _) eqn:Hnull; cbn [and_then or_else]; [run; reflexivity|].
  pose proof (last_of_users (elements messages)) as Hlast.
  destruct (last_of _) as [lastUserMessage|]; cbn [truthy negb].
  2:{ run. reflexivity. }
  destruct Hlast as [members ->]. cbn [truthy negb get_opt].
  rewrite exec_bind. cbn [get]. run.
  destruct (lookup "content" members) as [content|] eqn:Hcontent;
    [|cbn [get_length get]; run; reflexivity].
  destruct (is_null content) eqn:Hc.
  { destruct content; try discriminate. cbn [get_length get]. run. reflexivity. }
  assert (exists len, get_length (Some content) = Returned len) as [len ->]
    by (destruct content; try discriminate; cbn; eauto).
  replace (match content with JNull => Failed | _ => Accepted (JObj members) end)
    with (Accepted (JObj members)) by (destruct content; try discriminate; reflexivity).
  run.
  rewrite (exec_build_prompt EmailChat.SYSTEM_PROMPT (elements messages) members w Hnull).
  cbn [answers prompted get_opt]. rewrite Hcontent.
  destruct (full_prompt _ _ _) as [p|e]; cbn [and_then or_else prompted];
    [|run; reflexivity].
  run.
  set (q := mkQuery p _).
  destruct (collect_loop (uuid w) (ending (agent w q)) (events (agent w q))
              (EmailChat.mkCollected "" 0) (set_queries (queries w ++ [q]) w))
    as (w' & Hev & ->).
  unfold email_replies_with. cbn zeta. unfold email_query, email_reply. fold q.
  destruct (evolves_now_free _ _ Hev) as (Hiso & _ & _). cbn [toISOString set_queries] in Hiso.
  destruct (ending (agent w q)); cbn [loop_end and_then or_else]; run.
  - exists w'. split; [exact Hev|]. rewrite Hiso, Nat.add_0_r. reflexivity.
  - exists w'. split; [exact Hev|]. reflexivity.
Qed.

(** An accepted request is answered with the failure, when its prompt
    cannot be built, or from one upstream query. *)
Lemma chat_accepted_cases request w last r :
  chat_accepts request w last r ->
  r = (Returned chat_failure, w) \/ chat_streams w r.
Proof.
  unfold chat_accepts, prompted. destruct (full_prompt _ _ _) as [p|e]; intros H.
  - right. exists p. exact H.
  - left. exact H.
Qed.

Lemma email_accepted_cases request w last r :
  email_accepts request w last r ->
  r = (Returned email_failure, w) \/ email_replies w r.
Proof.
  unfold email_accepts, prompted. destruct (full_prompt _ _ _) as [p|e]; intros H.
  - right. exists p. exact H.
  - left. exact H.
Qed.

(* ================================================================== *)
(** * The Gong relay and the analysis endpoint                          *)
(* ================================================================== *)


(** ** The Gong relay *)

Lemma gong_start_spec env rid t0 latest w :
  controller w = fresh ->
  exists t,
    exec (GongChat.start env rid t0 (Some latest)) w
    = (gong_start_result env, set_now t (set_controller (gong_streamed env latest) w)).
Proof.
  intros Hf. destruct w as [n u iso cwd ag qs c]; simpl in Hf; subst c.
  unfold GongChat.start, gong_start_result, gong_streamed, gong_content, gong_data.
  destruct env as [fetch delay left]. cbn [GongChat.gong GongChat.client_left GongChat.processingDelay].
  exists (n + delay)%Z.
  destruct fetch as [e|st|e|data]; cbn [fst snd]; run;
    destruct left; run; cbn [readable can_close_or_enqueue controller state cancelled set_now set_controller];
    destruct (GongChat.generate _ _ _); run; reflexivity.
Qed.

Lemma gong_POST_spec env request w :
  answers gong_failure (gong_streams env w) w
    (validate (json_body request)) (exec (GongChat.POST env request) w).
Proof.
  unfold validate, GongChat.POST. run.
  destruct request as [[parsed|e]]; cbn [json_body and_then or_else]; [|run; reflexivity].
  destruct (is_null parsed) eqn:Hn.
  { destruct parsed; try discriminate. cbn [get]. run. reflexivity. }
  assert (Hp : parsed <> JNull) by (intros ->; discriminate).
  run. rewrite (get_messages parsed Hp). cbn [and_then].
  rewrite not_array_guard. unfold messages_missing, messages_of.
  generalize (get_opt (Some parsed) "messages"). intros messages.
  destruct (isArray messages) eqn:Ha; cbn [negb].
  2:{ run. reflexivity. }
  rewrite exec_bind, exec_filter_users.
  destruct (existsb is_null _) eqn:Hnull; cbn [and_then or_else]; [run; reflexivity|].
  pose proof (last_of_users (elements messages)) as Hlast.
  destruct (last_of _) as [lastUserMessage|]; cbn [truthy negb].
  2:{ run. reflexivity. }
  destruct Hlast as [members ->]. cbn [truthy negb get_opt].
  rewrite exec_bind. cbn [get]. run.
  destruct (lookup "content" members) as [content|]; [|cbn [get_length get]; run; reflexivity].
  destruct (is_null content) eqn:Hc.
  { destruct content; try discriminate. cbn [get_length get]. run. reflexivity. }
  assert (exists len, get_length (Some content) = Returned len) as [len ->]
    by (destruct content; try discriminate; cbn; eauto).
  replace (match content with JNull => Failed | _ => Accepted (JObj members) end)
    with (Accepted (JObj members)) by (destruct content; try discriminate; reflexivity).
  run.
  destruct (gong_start_spec env (uuid w) (now w) (JObj members) (set_controller fresh w) eq_refl)
    as [t ->].
  cbn [fst snd answers]. exists t. destruct w; reflexivity.
Qed.

(** ** The analysis endpoint *)

Section Analysis.
Variables (SYSTEM_PROMPT userPrompt preset : string).
Variable JSON_parse : string -> Outcome json.

Lemma exec_log_tool rid u block w :
  exec (EmailAnalyze.log_tool rid u block) w = (Returned tt, w).
Proof. destruct block; unfold EmailAnalyze.log_tool; run; reflexivity. Qed.

Lemma log_tool_loop rid content : forall w,
  exec (for_of content (EmailAnalyze.log_tool rid) tt) w = (Returned tt, w).
Proof.
  induction content as [|block rest IH]; intros w; cbn [for_of].
  - reflexivity.
  - rewrite exec_bind, exec_log_tool. cbn [and_then]. apply IH.
Qed.

Lemma exec_analysis_collect rid text m w :
  exec (EmailAnalyze.collect rid text m) w = (Returned (text ++ text_of [m]), w).
Proof.
  unfold EmailAnalyze.collect.
  destruct m as [[[[[t|ty]|]|ty]|]|[content|]|tool el|subtype|ty];
    cbn [text_of]; run; rewrite ?log_tool_loop; run; rewrite ?append_nil_r; reflexivity.
Qed.

Lemma analysis_loop rid ending evs : forall text w,
  exists w',
    evolves w w'
    /\ exec (for_await evs ending (EmailAnalyze.collect rid) text) w
       = (loop_end ending (text ++ text_of (yielded evs)), w').
Proof.
  induction evs as [|[m|ms|] rest IH]; intros text w; cbn [for_await yielded].
  - exists w. split; [apply evolves_refl|].
    cbn [text_of]. rewrite append_nil_r. destruct ending; run; reflexivity.
  - rewrite exec_bind, exec_analysis_collect. cbn [and_then].
    destruct (IH (text ++ text_of [m]) w) as (w' & Hev & ->).
    exists w'. split; [exact Hev|].
    rewrite (text_of_cons m (yielded rest)), append_assoc'. reflexivity.
  - run. destruct (IH text (set_now (now w + ms)%Z w)) as (w' & Hev & ->).
    exists w'. split; [|reflexivity].
    eapply evolves_trans; [apply set_now_evolves | exact Hev].
  - run. destruct (IH text (if readable w then cancelled w else w)) as (w' & Hev & ->).
    exists w'. split; [|reflexivity].
    eapply evolves_trans; [apply cancelled_evolves | exact Hev].
Qed.

Lemma exec_length_or_zero doc field w :
  exists v,
    exec (EmailAnalyze.length_or_zero doc field) w
    = (if is_null doc then Threw (TypeError ("Cannot read properties of null (reading '" ++ field ++ "')"))
       else Returned v, w).
Proof.
  unfold EmailAnalyze.length_or_zero.
  destruct doc; cbn [is_null get]; run; [exists JNull; reflexivity | eexists; reflexivity ..].
Qed.

Lemma analysis_POST_spec request w :
  let q := analysis_query SYSTEM_PROMPT userPrompt preset w in
  exists w',
    evolves (set_queries (queries w ++ [q]) w) w'
    /\ exec (EmailAnalyze.POST SYSTEM_PROMPT userPrompt preset JSON_parse request) w
       = (Returned (analysis_reply JSON_parse (agent w q)), w').
Proof.
  intros q. subst q. unfold analysis_query, EmailAnalyze.POST, analysis_reply. run.
  set (q := mkQuery _ _).
  destruct (analysis_loop (uuid w) (ending (agent w q)) (events (agent w q)) ""
              (set_queries (queries w ++ [q]) w)) as (w' & Hev & ->).
  exists w'. split; [exact Hev|]. cbn [append].
  destruct (ending (agent w q)); cbn [loop_end and_then or_else]; run; [|reflexivity].
  destruct (JSON_parse _) as [doc|e]; cbn [or_else and_then]; run.
  - destruct (exec_length_or_zero doc "todos" w') as [v1 ->].
    destruct (is_null doc) eqn:Hn; cbn [and_then or_else]; run; [reflexivity|].
    destruct (exec_length_or_zero doc "insights" w') as [v2 ->]. rewrite Hn. run.
    destruct (exec_length_or_zero doc "todos" w') as [v3 ->]. rewrite Hn. run.
    reflexivity.
  - unfold EmailAnalyze.length_or_zero, EmailAnalyze.fallback.
    cbn [get lookup String.eqb Ascii.eqb Bool.eqb]. run. reflexivity.
Qed.

End Analysis.

(* ================================================================== *)
(** * Texts                                                             *)
(* ================================================================== *)

Lemma length_app a b : String.length (a ++ b) = String.length a + String.length b.
Proof. induction a as [|c a IH]; cbn; [reflexivity|]. rewrite IH. reflexivity. Qed.

Lemma prefix_split s : forall t, prefix s t = true -> exists b, t = s ++ b.
Proof.
  induction s as [|c s IH]; intros t H.
  - exists t. reflexivity.
  - destruct t as [|d t]; [discriminate|]. cbn in H.
    destruct (ascii_dec c d) as [->|]; [|discriminate].
    destruct (IH t H) as [b ->]. exists b. reflexivity.
Qed.

Lemma prefix_app s b : prefix s (s ++ b) = true.
Proof.
  induction s as [|c s IH]; cbn; [destruct b; reflexivity|].
  destruct (ascii_dec c c); [exact IH|congruence].
Qed.

Lemma index_shift s a : forall rest,
  index (String.length a) s (a ++ rest)
  = option_map (fun k => String.length a + k) (index 0 s rest).
Proof.
  induction a as [|c a IH]; intros rest.
  - cbn. destruct (index 0 s rest); reflexivity.
  - cbn [String.length append index]. rewrite IH. destruct (index 0 s rest); reflexivity.
Qed.

Lemma substring_shift a : forall n t,
  substring (String.length a) n (a ++ t) = substring 0 n t.
Proof. induction a as [|c a IH]; intros n t; [reflexivity|apply IH]. Qed.

Lemma skip_app a t : skip (String.length a) (a ++ t) = t.
Proof. induction a as [|c a IH]; [reflexivity|exact IH]. Qed.

(** Dropping characters loses occurrences only. *)
Lemma index_none_tail s c t : index 0 s (String c t) = None -> index 0 s t = None.
Proof.
  cbn [index]. destruct (prefix s (String c t)); [discriminate|].
  destruct (index 0 s t); [discriminate|reflexivity].
Qed.

Lemma index_none_skip s n : forall t, index 0 s t = None -> index 0 s (skip n t) = None.
Proof.
  induction n as [|n IH]; intros t H; [exact H|].
  destruct t as [|c t]; [exact H|]. cbn [skip]. apply IH. exact (index_none_tail _ _ _ H).
Qed.

Lemma skip_tail n : forall c t, skip (S n) (String c t) = skip n t.
Proof. reflexivity. Qed.

Lemma skip_skip_one n : forall t, skip (S n) t = skip 1 (skip n t).
Proof.
  induction n as [|n IH]; intros t; [reflexivity|].
  destruct t as [|c t]; [reflexivity|]. rewrite skip_tail, IH. reflexivity.
Qed.

(** ** The pattern and its embedding *)

Lemma closing_not_empty : exists c rest, Fences.closing = String c rest.
Proof. eexists _, _. reflexivity. Qed.

Lemma lazy_group_index text :
  lazy_group text = option_map (fun j => substring 0 j text) (index 0 Fences.closing text).
Proof.
  induction text as [|c rest IH].
  - reflexivity.
  - cbn [lazy_group index]. destruct (prefix Fences.closing (String c rest)); [reflexivity|].
    rewrite IH. destruct (index 0 Fences.closing rest); reflexivity.
Qed.

(** A match needs a closing after its opening. *)
Lemma first_match_needs_closing opening : forall text group,
  first_match opening text = Some group ->
  index 0 Fences.closing (skip (String.length opening) text) <> None.
Proof.
  induction text as [|c rest IH]; intros group H E; cbn [first_match] in H;
    rewrite lazy_group_index, E in H; cbn [option_map] in H.
  - destruct (prefix opening ""); discriminate.
  - assert (Hrest : first_match opening rest = Some group)
      by (destruct (prefix opening (String c rest)); exact H).
    apply (IH _ Hrest).
    destruct (String.length opening) as [|n].
    + exact (index_none_tail _ _ _ E).
    + rewrite skip_tail in E. rewrite skip_skip_one. apply (index_none_skip _ 1). exact E.
Qed.

Lemma match_fenced_tail opening c rest :
  prefix opening (String c rest) = false ->
  EmailAnalyze.match_fenced opening (String c rest) = EmailAnalyze.match_fenced opening rest.
Proof.
  intros Hp. unfold EmailAnalyze.match_fenced. cbn [index]. rewrite Hp.
  destruct (index 0 opening rest) as [i|]; [|reflexivity].
  cbn [Nat.add index].
  destruct (index (i + String.length opening) (newline ++ EmailAnalyze.fence) rest) as [j|];
    reflexivity.
Qed.

(** The embedding of the pattern finds what the pattern matches. *)
Lemma match_fenced_is_first_match opening :
  opening <> "" ->
  forall text, EmailAnalyze.match_fenced opening text = first_match opening text.
Proof.
  intros Ho. induction text as [|c rest IH].
  - destruct opening; [contradiction|]. reflexivity.
  - cbn [first_match]. destruct (prefix opening (String c rest)) eqn:Hp.
    + destruct (prefix_split _ _ Hp) as [tail Ht]. rewrite Ht, skip_app, lazy_group_index.
      unfold EmailAnalyze.match_fenced. fold Fences.closing.
      assert (Hi : index 0 opening (opening ++ tail) = Some 0).
      { rewrite <- Ht. cbn [index]. rewrite Hp. reflexivity. }
      rewrite Hi. cbn [Nat.add]. rewrite index_shift.
      destruct (index 0 Fences.closing tail) as [j|] eqn:Hj; cbn [option_map].
      * replace (String.length opening + j - String.length opening) with j by lia.
        rewrite substring_shift. reflexivity.
      * destruct (first_match opening rest) as [group|] eqn:Hm; [exfalso|].
        -- apply (first_match_needs_closing _ _ _ Hm).
           assert (Hs : skip (String.length opening) (String c rest) = tail)
             by (rewrite Ht; apply skip_app).
           destruct opening as [|o os]; [contradiction|].
           cbn [String.length] in Hs |- *. rewrite skip_tail in Hs. rewrite skip_skip_one, Hs.
           apply (index_none_skip _ 1). exact Hj.
        -- reflexivity.
    + rewrite (match_fenced_tail _ _ _ Hp). exact IH.
Qed.

(* ================================================================== *)
(** * The properties of the specification                               *)
(* ================================================================== *)

Import Examples.

Lemma before_disconnect_connected evs :
  disconnects evs = false -> before_disconnect evs = evs.
Proof.
  induction evs as [|[m|ms|] rest IH]; cbn; intros H; try discriminate; try reflexivity;
    rewrite IH; auto.
Qed.

Lemma progress_of_frames ms :
  filter is_progress (flat_map frames_for ms) = map Data (flat_map reports ms).
Proof.
  induction ms as [|m rest IH]; [reflexivity|].
  cbn [flat_map]. rewrite filter_app, map_app, IH. f_equal.
  unfold frames_for. rewrite map_app, filter_app.
  assert (Hv : filter is_progress (map Data (result_events m)) = []).
  { destruct m; try reflexivity. cbn. destruct (String.eqb subtype "success"); reflexivity. }
  rewrite Hv, app_nil_r.
  assert (Hr : forall evs, (forall e, In e evs -> is_progress (Data e) = true) ->
                           filter is_progress (map Data evs) = map Data evs).
  { induction evs as [|e es IHes]; intros H; [reflexivity|].
    cbn [map filter]. rewrite (H e (or_introl eq_refl)), IHes; auto.
    intros e' He'. apply H. right. exact He'. }
  apply Hr. intros e He.
  destruct m as [[[[[t|ty]|]|ty]|]|[content|]|tl el|subtype|ty]; cbn [reports] in He;
    try contradiction.
  - destruct He as [<-|[]]. reflexivity.
  - apply in_flat_map in He as (block & _ & Hb). destruct block; [|contradiction].
    destruct Hb as [<-|[]]. reflexivity.
  - destruct He as [<-|[]]. reflexivity.
Qed.

Lemma sentinel_of_frames ms : filter is_sentinel (flat_map frames_for ms) = [].
Proof.
  induction ms as [|m rest IH]; [reflexivity|].
  cbn [flat_map]. rewrite filter_app, IH, app_nil_r. unfold frames_for.
  induction (reports m ++ result_events m)%list as [|e es IHes]; [reflexivity|exact IHes].
Qed.

Lemma terminal_of_frames ms :
  filter is_terminal (flat_map frames_for ms) = map Data (flat_map result_events ms).
Proof.
  induction ms as [|m rest IH]; [reflexivity|].
  cbn [flat_map]. rewrite filter_app, map_app, IH. f_equal.
  unfold frames_for. rewrite map_app, filter_app.
  assert (Hr : filter is_terminal (map Data (reports m)) = []).
  { destruct m as [[[[[t|ty]|]|ty]|]|[content|]|tl el|subtype|ty]; try reflexivity.
    cbn [reports]. induction content as [|[name|ty] rest' IHc]; [reflexivity|exact IHc|exact IHc]. }
  rewrite Hr. cbn [app].
  destruct m; try reflexivity. cbn. destruct (String.eqb subtype "success"); reflexivity.
Qed.

(** A chat request that is answered by a stream was accepted. *)
Lemma chat_stream_inv request w resp started :
  fst (exec (ChatRoute.POST request) w) = Returned resp ->
  body resp = event_stream started ->
  chat_streams w (exec (ChatRoute.POST request) w).
Proof.
  intros Hresp Hbody. pose proof (chat_POST_spec request w) as H.
  destruct (validate (json_body request)); cbn [answers] in H.
  - rewrite H in Hresp. cbn in Hresp. injection Hresp as <-. discriminate.
  - rewrite H in Hresp. cbn in Hresp. injection Hresp as <-. discriminate.
  - unfold chat_accepts, prompted in H. destruct (full_prompt _ _ _) as [p|e].
    + exists p. exact H.
    + rewrite H in Hresp. cbn in Hresp. injection Hresp as <-. discriminate.
Qed.

(** C1, as the code has it.  Every stream the chat relay produces is
    described by the upstream run it relays.  While the client stays
    connected: when the upstream sequence completes, the [DONE] sentinel
    is written exactly once and is the last frame, after one [done] frame
    for each successful [result] message and one [error] frame for each
    unsuccessful one; when an exception is raised while iterating, the last
    frame written is one [error] frame ("Stream error occurred") and no
    sentinel is written at all.  When the client goes away, no sentinel is
    written either. *)
Theorem chat_stream_ending request w resp started :
  fst (exec (ChatRoute.POST request) w) = Returned resp ->
  body resp = event_stream started ->
  exists q,
    queries (snd (exec (ChatRoute.POST request) w)) = (queries w ++ [q])%list
    /\ let up := agent w q in
       let frames := written (controller (snd (exec (ChatRoute.POST request) w))) in
       if disconnects (events up) then filter is_sentinel frames = []
       else
       match ending up with
       | Completes =>
           frames = (flat_map frames_for (yielded (events up)) ++ [Sentinel])%list
           /\ filter is_sentinel frames = [Sentinel]
           /\ filter is_terminal frames = map Data (flat_map result_events (yielded (events up)))
       | Raises _ =>
           frames = (flat_map frames_for (yielded (events up))
                       ++ [Data (error "Stream error occurred")])%list
           /\ filter is_sentinel frames = []
           /\ filter is_terminal frames
              = (map Data (flat_map result_events (yielded (events up)))
                   ++ [Data (error "Stream error occurred")])%list
       end.
Proof.
  intros Hresp Hbody.
  destruct (chat_stream_inv request w resp started Hresp Hbody) as (prompt & t & E).
  cbn zeta in E. exists (chat_query prompt w). rewrite E. cbn [snd]. split; [reflexivity|].
  cbn zeta. cbn [controller set_now set_controller streamed written].
  unfold stream_frames. destruct (disconnects _) eqn:Hd; [apply sentinel_of_frames|].
  destruct (ending (agent w (chat_query prompt w))); cbn [closing_frame].
  - split; [reflexivity|].
    rewrite !filter_app, sentinel_of_frames, terminal_of_frames. cbn. rewrite app_nil_r.
    split; reflexivity.
  - split; [reflexivity|].
    rewrite !filter_app, sentinel_of_frames, terminal_of_frames. cbn.
    split; reflexivity.
Qed.

(** C1, the theorem at the scenario of the specification: one text delta,
    then success. *)
Lemma chat_stream_ending_witness :
  exists q,
    queries (snd (exec (ChatRoute.POST hello) (world_of hi_then_success))) = ([] ++ [q])%list
    /\ let up := agent (world_of hi_then_success) q in
       let frames :=
         written (controller (snd (exec (ChatRoute.POST hello) (world_of hi_then_success)))) in
       if disconnects (events up) then filter is_sentinel frames = []
       else
       match ending up with
       | Completes =>
           frames = (flat_map frames_for (yielded (events up)) ++ [Sentinel])%list
           /\ filter is_sentinel frames = [Sentinel]
           /\ filter is_terminal frames = map Data (flat_map result_events (yielded (events up)))
       | Raises _ =>
           frames = (flat_map frames_for (yielded (events up))
                       ++ [Data (error "Stream error occurred")])%list
           /\ filter is_sentinel frames = []
           /\ filter is_terminal frames
              = (map Data (flat_map result_events (yielded (events up)))
                   ++ [Data (error "Stream error occurred")])%list
       end.
Proof.
  apply (chat_stream_ending hello (world_of hi_then_success)
           (stream_response hi_then_success) (Returned tt)); vm_compute; reflexivity.
Defined.

(** C1 as stated fails when the upstream raises in the middle of the
    iteration: the response is the stream (HTTP 200), and what is written is
    the delta and the [error] frame, with no sentinel after it. *)
Lemma chat_error_path_has_no_sentinel :
  fst (exec (ChatRoute.POST hello) (world_of hi_then_raises))
    = Returned (mkResponse 200 sse_headers (event_stream (Returned tt)))
  /\ written (controller (snd (exec (ChatRoute.POST hello) (world_of hi_then_raises))))
     = [Data (text_delta "hi"); Data (error "Stream error occurred")]
  /\ one_terminal_then_sentinel
       (written (controller (snd (exec (ChatRoute.POST hello) (world_of hi_then_raises)))))
     = false.
Proof. vm_compute. repeat split. Qed.

(** The first scenario of the specification. *)
Example chat_scenario_hi :
  written (controller (snd (exec (ChatRoute.POST hello) (world_of hi_then_success))))
  = [Data (text_delta "hi"); Data done; Sentinel].
Proof. vm_compute. reflexivity. Qed.

(** C4.  For every upstream run the chat relay is given, the progress
    frames it writes ([text_delta], [tool_start], [tool_progress]) are, one
    frame for each event and in the same order, the events the upstream
    messages report, for as long as the client is there (all of them when
    it stays). *)
Theorem relay_preserves_upstream_order request w resp started :
  fst (exec (ChatRoute.POST request) w) = Returned resp ->
  body resp = event_stream started ->
  exists q,
    queries (snd (exec (ChatRoute.POST request) w)) = (queries w ++ [q])%list
    /\ filter is_progress (written (controller (snd (exec (ChatRoute.POST request) w))))
       = map Data (flat_map reports (yielded (before_disconnect (events (agent w q))))).
Proof.
  intros Hresp Hbody.
  destruct (chat_stream_inv request w resp started Hresp Hbody) as (prompt & t & E).
  cbn zeta in E. exists (chat_query prompt w). rewrite E. cbn [snd]. split; [reflexivity|].
  cbn [controller set_now set_controller streamed written]. unfold stream_frames.
  destruct (disconnects _) eqn:Hd.
  - apply progress_of_frames.
  - rewrite (before_disconnect_connected _ Hd), filter_app, progress_of_frames.
    destruct (ending _); cbn; apply app_nil_r.
Qed.

(** C4, the theorem at the scripted sequence of the specification. *)
Lemma relay_preserves_upstream_order_witness :
  exists q,
    queries (snd (exec (ChatRoute.POST hello) (world_of interleaved))) = ([] ++ [q])%list
    /\ filter is_progress
         (written (controller (snd (exec (ChatRoute.POST hello) (world_of interleaved)))))
       = map Data
           (flat_map reports
              (yielded (before_disconnect (events (agent (world_of interleaved) q))))).
Proof.
  apply (relay_preserves_upstream_order hello (world_of interleaved)
           (stream_response interleaved) (Returned tt)); vm_compute; reflexivity.
Defined.

(** The ordering scenario of the specification, frame by frame. *)
Example relay_order_scenario :
  written (controller (snd (exec (ChatRoute.POST hello) (world_of interleaved))))
  = [Data (tool_start "a"); Data (text_delta "x"); Data (tool_start "b");
     Data (text_delta "y"); Sentinel].
Proof. vm_compute. reflexivity. Qed.

(** C7 fails on the code.  When the client has gone away, the write inside
    [try] raises, the handler's [catch] writes the [error] frame without a
    guard and raises again, and the exception leaves the [start] handler of
    the chat relay.  In the Gong relay the write in [catch] is guarded, but
    the [close()] after it is not, and raises as well. *)
Theorem closed_channel_write_escapes_start :
  fst (exec (ChatRoute.POST hello) (world_of client_gone))
    = Returned (mkResponse 200 sse_headers (event_stream (Threw invalid_state)))
  /\ fst (exec (GongChat.POST gong_down_client_gone hello) (world_of (says "")))
     = Returned (mkResponse 200 sse_headers (event_stream (Threw invalid_state))).
Proof. vm_compute. split; reflexivity. Qed.

(** The same for every run of the chat relay in which the client goes
    away. *)
Lemma chat_disconnect_rejects_start request w resp started :
  fst (exec (ChatRoute.POST request) w) = Returned resp ->
  body resp = event_stream started ->
  exists q,
    queries (snd (exec (ChatRoute.POST request) w)) = (queries w ++ [q])%list
    /\ (disconnects (events (agent w q)) = true -> started = Threw invalid_state).
Proof.
  intros Hresp Hbody.
  destruct (chat_stream_inv request w resp started Hresp Hbody) as (prompt & t & E).
  cbn zeta in E. exists (chat_query prompt w). rewrite E in *. cbn [fst snd] in *.
  split; [reflexivity|]. intros Hd. injection Hresp as <-. cbn in Hbody.
  unfold start_result in Hbody. rewrite Hd in Hbody. congruence.
Qed.


Lemma no_user_last xs :
  existsb user_turn xs = false -> last_of (filter user_turn xs) = None.
Proof.
  intros H. replace (filter user_turn xs) with (@nil json); [reflexivity|].
  induction xs as [|x rest IH]; [reflexivity|].
  cbn [existsb] in H. apply orb_false_iff in H as [Hx Hrest].
  cbn [filter]. rewrite Hx. auto.
Qed.

Lemma last_of_cons ys : forall y, exists z, last_of (y :: ys) = Some z.
Proof.
  unfold last_of. induction ys as [|y' rest IH]; intros y.
  - exists y. reflexivity.
  - destruct (IH y') as [z Hz]. exists z. exact Hz.
Qed.

Lemma some_user_last xs :
  match last_of (filter user_turn xs) with
  | None => existsb user_turn xs = false
  | Some _ => existsb user_turn xs = true
  end.
Proof.
  assert (H : existsb user_turn xs
              = match filter user_turn xs with [] => false | _ => true end).
  { induction xs as [|x rest IH]; [reflexivity|].
    cbn [filter existsb]. destruct (user_turn x); [reflexivity|exact IH]. }
  rewrite H. destruct (filter user_turn xs) as [|y ys]; [reflexivity|].
  destruct (last_of_cons ys y) as [z ->]. reflexivity.
Qed.

Lemma present_not_null parsed : messages_missing parsed = false -> is_null parsed = false.
Proof. destruct parsed; try reflexivity. discriminate. Qed.




(** C3, as the code has it.  For every request whose JSON body is not
    [null] and has no [messages] array, or whose [messages] array holds no
    [null] and no turn with role [user], each endpoint answers HTTP 400 with
    a body [{error: string}] and leaves the world as it was: no upstream
    call is made. *)
Theorem malformed_requests_are_rejected env request parsed w :
  json_body request = Returned parsed ->
  is_null parsed = false ->
  messages_missing parsed = true
  \/ (existsb is_null (messages_of parsed) = false
      /\ existsb user_turn (messages_of parsed) = false) ->
  exists message,
    exec (ChatRoute.POST request) w = (Returned (rejection message), w)
    /\ exec (GongChat.POST env request) w = (Returned (rejection message), w)
    /\ exec (EmailChat.POST request) w = (Returned (rejection message), w)
    /\ status (rejection message) = 400
    /\ body (rejection message) = json_doc (JObj [("error", JStr message)]).
Proof.
  intros Hbody Hn Hcase.
  pose proof (chat_POST_spec request w) as Hc.
  pose proof (gong_POST_spec env request w) as Hg.
  pose proof (email_POST_spec request w) as He.
  unfold validate in Hc, Hg, He. rewrite Hbody, Hn in Hc, Hg, He.
  destruct (messages_missing parsed) eqn:Hm.
  - exists "Messages array is required". repeat split; assumption.
  - destruct Hcase as [Hcase|[Hnull Hu]]; [discriminate|].
    rewrite Hnull, (no_user_last _ Hu) in Hc, Hg, He.
    exists "No user message found". repeat split; assumption.
Qed.

(** C3, the theorem at a conversation without a user turn. *)
Lemma malformed_requests_are_rejected_witness :
  exists message,
    exec (ChatRoute.POST no_user) (world_of hi_then_success)
      = (Returned (rejection message), world_of hi_then_success)
    /\ exec (GongChat.POST gong_down no_user) (world_of hi_then_success)
       = (Returned (rejection message), world_of hi_then_success)
    /\ exec (EmailChat.POST no_user) (world_of hi_then_success)
       = (Returned (rejection message), world_of hi_then_success)
    /\ status (rejection message) = 400
    /\ body (rejection message) = json_doc (JObj [("error", JStr message)]).
Proof.
  apply (malformed_requests_are_rejected gong_down no_user
           (JObj [("messages", JArr [assistant_turn "hi there"])]) (world_of hi_then_success));
    [reflexivity | reflexivity | right; split; reflexivity].
Defined.

(** C3 as stated fails at the JSON body [null]: it has no [messages] field,
    destructuring it raises, and the handlers' catch-all answers HTTP 500
    (still without an upstream call).  The same happens for a [messages]
    array that holds [null]: it has no user turn, and reading the role of
    [null] raises. *)
Lemma null_body_is_answered_with_500 :
  messages_missing JNull = true
  /\ exec (ChatRoute.POST null_body) (world_of hi_then_success)
     = (Returned chat_failure, world_of hi_then_success)
  /\ exec (GongChat.POST gong_down null_body) (world_of hi_then_success)
     = (Returned gong_failure, world_of hi_then_success)
  /\ existsb user_turn [JNull] = false
  /\ exec (ChatRoute.POST null_turn) (world_of hi_then_success)
     = (Returned chat_failure, world_of hi_then_success)
  /\ exec (GongChat.POST gong_down null_turn) (world_of hi_then_success)
     = (Returned gong_failure, world_of hi_then_success)
  /\ status chat_failure = 500 /\ status gong_failure = 500.
Proof. vm_compute. repeat split. Qed.

(** C9.  Whenever the non-streaming chat answers HTTP 200, it has opened
    one upstream query, and the body is [{message, toolsUsed, timestamp}]
    with [message] the text deltas of the upstream run concatenated in
    order and [toolsUsed] the number of tool-use blocks of its assistant
    messages. *)
Theorem email_chat_reply request w resp :
  fst (exec (EmailChat.POST request) w) = Returned resp ->
  status resp = 200 ->
  exists q timestamp,
    queries (snd (exec (EmailChat.POST request) w)) = (queries w ++ [q])%list
    /\ body resp
       = json_doc
           (JObj [("message", JStr (text_of (yielded (events (agent w q)))));
                  ("toolsUsed", num_nat (tool_uses (yielded (events (agent w q)))));
                  ("timestamp", JStr timestamp)]).
Proof.
  intros Hresp Hstatus. pose proof (email_POST_spec request w) as H.
  destruct (validate (json_body request)); cbn [answers] in H.
  - rewrite H in Hresp. injection Hresp as <-. discriminate.
  - rewrite H in Hresp. injection Hresp as <-. discriminate.
  - destruct (email_accepted_cases _ _ _ _ H) as [E|(prompt & w' & Hev & E)].
    { rewrite E in Hresp. injection Hresp as <-. discriminate. }
    cbn zeta in *. rewrite E in *. cbn [fst snd] in *.
    injection Hresp as <-. exists (email_query prompt w), (toISOString w (now w')).
    split; [apply (evolves_queries _ _ Hev)|].
    unfold email_reply in *. destruct (ending _); [reflexivity|discriminate].
Qed.

(** C9, the theorem at an upstream run with two tool uses. *)
Lemma email_chat_reply_witness :
  exists q timestamp,
    queries (snd (exec (EmailChat.POST hello) (world_of tools_and_text))) = ([] ++ [q])%list
    /\ body (NextResponse_json
               (JObj [("message", JStr "Found it."); ("toolsUsed", JNum "2");
                      ("timestamp", JStr "2025-01-01T00:00:00.000Z")]) 200)
       = json_doc
           (JObj [("message",
                   JStr (text_of (yielded (events (agent (world_of tools_and_text) q)))));
                  ("toolsUsed",
                   num_nat (tool_uses (yielded (events (agent (world_of tools_and_text) q)))));
                  ("timestamp", JStr timestamp)]).
Proof.
  apply (email_chat_reply hello (world_of tools_and_text)); vm_compute; reflexivity.
Defined.


(** A Gong request that is answered by a stream was accepted. *)
Lemma gong_stream_inv env request w resp started :
  fst (exec (GongChat.POST env request) w) = Returned resp ->
  body resp = event_stream started ->
  exists latest,
    validate (json_body request) = Accepted latest
    /\ gong_streams env w latest (exec (GongChat.POST env request) w).
Proof.
  intros Hresp Hbody. pose proof (gong_POST_spec env request w) as H.
  destruct (validate (json_body request)) as [msg| |latest]; cbn [answers] in H.
  - rewrite H in Hresp. cbn in Hresp. injection Hresp as <-. discriminate.
  - rewrite H in Hresp. cbn in Hresp. injection Hresp as <-. discriminate.
  - exists latest. split; [reflexivity|exact H].
Qed.

Lemma text_content_generates env latest s :
  get_opt (Some latest) "content" = Some (JStr s) ->
  exists text, gong_content env latest = Returned text.
Proof.
  intros Hc. unfold gong_content, GongChat.generate.
  destruct (snd (gong_data env)); [|eauto].
  destruct (GongChat.calls (fst (gong_data env))) as [[|c cs]|]; eauto.
  destruct latest; try discriminate. cbn [get_opt] in Hc. cbn [get]. rewrite Hc. cbn [toLowerCase].
  destruct (includes _ _); eauto.
Qed.

Lemma failed_fetch_content env latest :
  fetch_failed env = true -> gong_content env latest = Returned GongChat.no_data_text.
Proof.
  unfold fetch_failed, gong_content, gong_data.
  destruct (GongChat.gong env); try discriminate; reflexivity.
Qed.

(** C10, as the code has it.  For every stream the Gong relay produces (the
    Gong API's answer taken at its declared type): after a fetch that failed
    or was not OK no [error] frame is written.  While the client is there,
    the frames are one [text_delta], [done] and the sentinel whenever the
    generation code returns a text (the no-data text after a failed fetch),
    and the [error] frame stands alone and only when the generation code
    raised, which it does not when the latest user turn has a text content.
    When the client has gone by the time of the first write, nothing is
    written at all. *)
Theorem gong_stream_shape env request w resp started :
  fst (exec (GongChat.POST env request) w) = Returned resp ->
  body resp = event_stream started ->
  let frames := written (controller (snd (exec (GongChat.POST env request) w))) in
  exists latestUserMessage,
    validate (json_body request) = Accepted latestUserMessage
    /\ (if fetch_failed env
        then existsb is_error frames = false
             /\ (if GongChat.client_left env then frames = []
                 else frames = [Data (text_delta GongChat.no_data_text); Data done; Sentinel])
        else True)
    /\ match gong_content env latestUserMessage with
       | Returned text =>
           if GongChat.client_left env then frames = []
           else frames = [Data (text_delta text); Data done; Sentinel]
       | Threw _ =>
           if GongChat.client_left env then frames = []
           else frames = [Data (error "Stream error occurred")]
       end
    /\ match get_opt (Some latestUserMessage) "content" with
       | Some (JStr _) => exists text, gong_content env latestUserMessage = Returned text
       | _ => True
       end.
Proof.
  intros Hresp Hbody frames.
  destruct (gong_stream_inv env request w resp started Hresp Hbody) as (latest & Hv & t & E).
  exists latest. subst frames. rewrite E.
  cbn [snd controller set_now set_controller]. unfold gong_streamed.
  split; [exact Hv|]. split; [|split].
  - destruct (fetch_failed env) eqn:Hf; [|exact I].
    rewrite (failed_fetch_content env latest Hf).
    destruct (GongChat.client_left env); split; reflexivity.
  - destruct (GongChat.client_left env); destruct (gong_content env latest); reflexivity.
  - destruct (get_opt (Some latest) "content") as [[]|] eqn:Hc; try exact I.
    eapply text_content_generates; eassumption.
Qed.

(** C10, the theorem at a Gong API that answers 401. *)
Lemma gong_stream_shape_witness :
  let frames :=
    written (controller (snd (exec (GongChat.POST gong_down hello) (world_of (says ""))))) in
  exists latestUserMessage,
    validate (json_body hello) = Accepted latestUserMessage
    /\ (if fetch_failed gong_down
        then existsb is_error frames = false
             /\ (if GongChat.client_left gong_down then frames = []
                 else frames = [Data (text_delta GongChat.no_data_text); Data done; Sentinel])
        else True)
    /\ match gong_content gong_down latestUserMessage with
       | Returned text =>
           if GongChat.client_left gong_down then frames = []
           else frames = [Data (text_delta text); Data done; Sentinel]
       | Threw _ =>
           if GongChat.client_left gong_down then frames = []
           else frames = [Data (error "Stream error occurred")]
       end
    /\ match get_opt (Some latestUserMessage) "content" with
       | Some (JStr _) => exists text, gong_content gong_down latestUserMessage = Returned text
       | _ => True
       end.
Proof.
  apply (gong_stream_shape gong_down hello (world_of (says ""))
           (mkResponse 200 sse_headers (event_stream (Returned tt))) (Returned tt));
    vm_compute; reflexivity.
Defined.

(** C10 as stated fails: for a valid request whose client has gone by the
    time of the first write, the stream holds no frame at all, and the
    [start] handler ends with the exception of the refused [close]. *)
Lemma gong_client_gone_writes_nothing :
  validate (json_body hello) = Accepted (user "hello")
  /\ fst (exec (GongChat.POST gong_down_client_gone hello) (world_of (says "")))
     = Returned (mkResponse 200 sse_headers (event_stream (Threw invalid_state)))
  /\ written (controller (snd (exec (GongChat.POST gong_down_client_gone hello)
                                 (world_of (says "")))))
     = [].
Proof. vm_compute. repeat split. Qed.

(** With call data at hand, a content that is not a string makes the
    generation code raise: the [error] frame stands alone. *)
Example gong_generation_can_raise :
  let env := GongChat.mkEnv
               (GongChat.fetch_ok
                  (GongChat.mkCalls
                     (Some [GongChat.mkCall "1" (Some "Kickoff") None None (Some 30%Z) None None])
                     None)) 2500 false in
  written (controller (snd (exec (GongChat.POST env
                                   (conversation [JObj [("role", JStr "user"); ("content", JArr [])]]))
                                 (world_of (says "")))))
  = [Data (error "Stream error occurred")].
Proof. vm_compute. reflexivity. Qed.

Section AnalysisClaims.
Variables (SYSTEM_PROMPT userPrompt preset : string).
Variable JSON_parse : string -> Outcome json.

(** The text handed to [JSON.parse] is the first candidate. *)
Lemma extraction_order text :
  EmailAnalyze.extract_json_string text = hd text (candidates text).
Proof.
  unfold EmailAnalyze.extract_json_string, candidates.
  change (EmailAnalyze.fence ++ "json" ++ newline) with Fences.json_opening.
  change (EmailAnalyze.fence ++ newline) with Fences.plain_opening.
  rewrite !match_fenced_is_first_match by discriminate.
  destruct (first_match Fences.json_opening text); [reflexivity|].
  destruct (first_match Fences.plain_opening text); reflexivity.
Qed.

Lemma chosen_is_a_candidate text : In (EmailAnalyze.extract_json_string text) (candidates text).
Proof.
  rewrite extraction_order. unfold candidates.
  destruct (first_match Fences.json_opening text); [left; reflexivity|].
  destruct (first_match Fences.plain_opening text); left; reflexivity.
Qed.


(** C5, as the code has it.  Every invocation of the analysis endpoint
    opens one upstream query.  A failure, for the endpoint, is an exception
    raised while it iterates over the run: the answer is then HTTP 500 with
    [{error, summary, todos: [], insights: []}].  A run that is iterated to
    its end is a success whatever its messages say, an unsuccessful
    [result] message included (the handler reads the text deltas and the
    tool uses only): the answer is HTTP 200 with one JSON document, the
    fallback, which has the shape [{summary, todos, insights}], when the
    extracted text does not parse, and otherwise the parsed value as it is,
    whatever its shape; but for the parsed value [null], which is answered
    like a failure. *)
Theorem analysis_answers request w :
  let q := analysis_query SYSTEM_PROMPT userPrompt preset w in
  let fullResponse := text_of (yielded (events (agent w q))) in
  let answer := fst (exec (EmailAnalyze.POST SYSTEM_PROMPT userPrompt preset JSON_parse request) w) in
  queries (snd (exec (EmailAnalyze.POST SYSTEM_PROMPT userPrompt preset JSON_parse request) w))
    = (queries w ++ [q])%list
  /\ match ending (agent w q) with
     | Raises _ =>
         answer
         = Returned
             (NextResponse_json
                (JObj [("error", JStr "Failed to analyze inbox");
                       ("summary", JStr "An error occurred while analyzing your inbox. Please make sure the Gmail MCP server is configured and you have granted permissions.");
                       ("todos", JArr []);
                       ("insights", JArr [])])
                500)
     | Completes =>
         match JSON_parse (EmailAnalyze.extract_json_string fullResponse) with
         | Threw _ =>
             answer = Returned (NextResponse_json (EmailAnalyze.fallback fullResponse) 200)
             /\ analysis_shape (EmailAnalyze.fallback fullResponse) = true
         | Returned analysisResult =>
             if is_null analysisResult
             then answer = Returned (NextResponse_json EmailAnalyze.failure_doc 500)
             else answer = Returned (NextResponse_json analysisResult 200)
         end
     end.
Proof.
  intros q fullResponse answer. subst answer.
  destruct (analysis_POST_spec SYSTEM_PROMPT userPrompt preset JSON_parse request w)
    as (w' & Hev & ->).
  cbn [fst snd]. split; [apply (evolves_queries _ _ Hev)|].
  unfold analysis_reply. fold q. destruct (ending (agent w q)); [|reflexivity].
  cbn zeta. fold fullResponse.
  destruct (JSON_parse _) as [doc|e]; [|split; reflexivity].
  destruct (is_null doc); reflexivity.
Qed.

End AnalysisClaims.


(** The candidates of that answer: its block, and the answer itself. *)
Example candidates_of_a_fenced_answer :
  let answer := "Here it is:" ++ newline ++ Fences.json_opening ++ "not JSON"
                  ++ Fences.closing ++ newline ++ "Bye." in
  candidates answer = ["not JSON"; answer]
  /\ EmailAnalyze.extract_json_string answer = "not JSON".
Proof. vm_compute. split; reflexivity. Qed.

(** C5 as stated fails: the agent answers [{}], which parses, and the
    endpoint returns it with HTTP 200 although it has none of the three
    fields. *)
Lemma parsed_answer_is_returned_unchecked :
  fst (exec (EmailAnalyze.POST "system" "user" "full" JsonText.JSON_parse hello)
         (world_of (says "{}")))
    = Returned (NextResponse_json (JObj []) 200)
  /\ analysis_shape (JObj []) = false.
Proof. vm_compute. split; reflexivity. Qed.

(** A run that ends with an unsuccessful [result] message is no failure
    for the endpoint: it is answered HTTP 200 from the text collected. *)
Example unsuccessful_result_is_answered_with_200 :
  fst (exec (EmailAnalyze.POST "system" "user" "full" JsonText.JSON_parse hello)
         (world_of (mkUpstream [text "{}"; Yield (result "error_max_turns")] Completes)))
  = Returned (NextResponse_json (JObj []) 200).
Proof. vm_compute. reflexivity. Qed.

(** Only the chosen candidate is parsed: here the json-fenced block does
    not parse and the plain fenced block after it would. *)
Example later_candidates_are_not_tried :
  let answer := EmailAnalyze.fence ++ "json" ++ newline ++ "oops" ++ newline
                ++ EmailAnalyze.fence ++ newline ++ "[]" ++ newline ++ EmailAnalyze.fence in
  candidates answer = ["oops"; "[]"; answer]
  /\ fst (exec (EmailAnalyze.POST "system" "user" "full" JsonText.JSON_parse hello)
            (world_of (says answer)))
     = Returned (NextResponse_json (EmailAnalyze.fallback answer) 200).
Proof. vm_compute. split; reflexivity. Qed.

(* ================================================================== *)
(** * Further properties of the chat relay                              *)
(* ================================================================== *)

(** The chat relay answers every request and raises nothing: with HTTP 200
    and a stream, after opening one upstream query, or with HTTP 400 or 500
    and a body [{error}], leaving the world as it was. *)
Theorem chat_always_answers request w :
  exists resp,
    fst (exec (ChatRoute.POST request) w) = Returned resp
    /\ ((status resp = 200
         /\ exists q started,
              body resp = event_stream started
              /\ queries (snd (exec (ChatRoute.POST request) w)) = (queries w ++ [q])%list)
        \/ ((status resp = 400 \/ status resp = 500)
            /\ (exists message, body resp = json_doc (error_doc message))
            /\ snd (exec (ChatRoute.POST request) w) = w)).
Proof.
  pose proof (chat_POST_spec request w) as H.
  destruct (validate (json_body request)) as [message| |last]; cbn [answers] in H.
  - rewrite H. eexists. split; [reflexivity|]. right. cbn. eauto.
  - rewrite H. eexists. split; [reflexivity|]. right. cbn. eauto.
  - destruct (chat_accepted_cases _ _ _ _ H) as [->|(prompt & t & ->)].
    + eexists. split; [reflexivity|]. right. cbn. eauto.
    + eexists. split; [reflexivity|]. left.
      split; [reflexivity|]. eexists _, _. split; reflexivity.
Qed.

(** The stream of the chat relay is never left open: when the handler is
    done the stream is closed, or cancelled by the client; the [start]
    handler ends normally in the first case and with the exception of the
    refused write in the second. *)
Theorem chat_stream_is_terminated request w resp started :
  fst (exec (ChatRoute.POST request) w) = Returned resp ->
  body resp = event_stream started ->
  exists q,
    queries (snd (exec (ChatRoute.POST request) w)) = (queries w ++ [q])%list
    /\ state (controller (snd (exec (ChatRoute.POST request) w)))
       = (if disconnects (events (agent w q)) then Cancelled else Closed)
    /\ started = (if disconnects (events (agent w q)) then Threw invalid_state else Returned tt).
Proof.
  intros Hresp Hbody.
  destruct (chat_stream_inv request w resp started Hresp Hbody) as (prompt & t & E).
  cbn zeta in E. exists (chat_query prompt w). rewrite E in *. cbn [fst snd] in *.
  injection Hresp as <-. cbn in Hbody. injection Hbody as <-.
  repeat split.
Qed.

Lemma chat_stream_is_terminated_witness :
  exists q,
    queries (snd (exec (ChatRoute.POST hello) (world_of hi_then_raises))) = ([] ++ [q])%list
    /\ state (controller (snd (exec (ChatRoute.POST hello) (world_of hi_then_raises))))
       = (if disconnects (events (agent (world_of hi_then_raises) q)) then Cancelled else Closed)
    /\ Returned tt
       = (if disconnects (events (agent (world_of hi_then_raises) q))
          then Threw invalid_state else Returned tt).
Proof.
  apply (chat_stream_is_terminated hello (world_of hi_then_raises)
           (mkResponse 200 sse_headers (event_stream (Returned tt))) (Returned tt));
    vm_compute; reflexivity.
Defined.

Lemma before_disconnect_prefix evs :
  exists rest, yielded evs = (yielded (before_disconnect evs) ++ rest)%list.
Proof.
  induction evs as [|[m|ms|] rest IH]; cbn [yielded before_disconnect].
  - exists []. reflexivity.
  - destruct IH as [r ->]. exists r. reflexivity.
  - exact IH.
  - exists (yielded rest). reflexivity.
Qed.

(** Whatever happens, the frames the chat relay has written are the
    beginning of the frames of the whole upstream run followed by its
    closing frame: nothing is written that the upstream did not report. *)
Theorem chat_writes_a_prefix request w resp started :
  fst (exec (ChatRoute.POST request) w) = Returned resp ->
  body resp = event_stream started ->
  exists q rest,
    queries (snd (exec (ChatRoute.POST request) w)) = (queries w ++ [q])%list
    /\ (written (controller (snd (exec (ChatRoute.POST request) w))) ++ rest
        = flat_map frames_for (yielded (events (agent w q)))
            ++ [closing_frame (ending (agent w q))])%list.
Proof.
  intros Hresp Hbody.
  destruct (chat_stream_inv request w resp started Hresp Hbody) as (prompt & t & E).
  cbn zeta in E. rewrite E. cbn [snd controller set_now set_controller streamed written].
  unfold stream_frames. set (up := agent w (chat_query prompt w)).
  destruct (disconnects (events up)).
  - destruct (before_disconnect_prefix (events up)) as [r Hr].
    exists (chat_query prompt w), (flat_map frames_for r ++ [closing_frame (ending up)])%list.
    split; [reflexivity|]. fold up. rewrite Hr, flat_map_app, <- app_assoc. reflexivity.
  - exists (chat_query prompt w), []. split; [reflexivity|]. fold up. apply app_nil_r.
Qed.

Lemma chat_writes_a_prefix_witness :
  exists q rest,
    queries (snd (exec (ChatRoute.POST hello) (world_of client_gone))) = ([] ++ [q])%list
    /\ (written (controller (snd (exec (ChatRoute.POST hello) (world_of client_gone)))) ++ rest
        = flat_map frames_for (yielded (events (agent (world_of client_gone) q)))
            ++ [closing_frame (ending (agent (world_of client_gone) q))])%list.
Proof.
  apply (chat_writes_a_prefix hello (world_of client_gone)
           (mkResponse 200 sse_headers (event_stream (Threw invalid_state)))
           (Threw invalid_state)); vm_compute; reflexivity.
Defined.

(** The Gong relay answers every request, raises nothing and never opens
    an upstream agent query. *)
Theorem gong_never_queries_the_agent env request w :
  queries (snd (exec (GongChat.POST env request) w)) = queries w
  /\ exists resp, fst (exec (GongChat.POST env request) w) = Returned resp.
Proof.
  pose proof (gong_POST_spec env request w) as H.
  destruct (validate (json_body request)) as [message| |last]; cbn [answers] in H.
  - rewrite H. split; [reflexivity|eexists; reflexivity].
  - rewrite H. split; [reflexivity|eexists; reflexivity].
  - destruct H as (t & ->). split; [reflexivity|eexists; reflexivity].
Qed.

(** The stream of the Gong relay is never left open either: it ends
    closed, or cancelled when the client has gone, and [start] ends with the
    exception of the refused [close] in that case only. *)
Theorem gong_stream_is_terminated env request w resp started :
  fst (exec (GongChat.POST env request) w) = Returned resp ->
  body resp = event_stream started ->
  state (controller (snd (exec (GongChat.POST env request) w)))
    = (if GongChat.client_left env then Cancelled else Closed)
  /\ started = (if GongChat.client_left env then Threw invalid_state else Returned tt).
Proof.
  intros Hresp Hbody.
  destruct (gong_stream_inv env request w resp started Hresp Hbody) as (latest & _ & t & E).
  rewrite E in *. cbn [fst snd] in *. injection Hresp as <-. cbn in Hbody.
  injection Hbody as <-. cbn [controller set_now set_controller].
  unfold gong_streamed, gong_start_result.
  destruct (GongChat.client_left env); [split; reflexivity|].
  destruct (gong_content env latest); split; reflexivity.
Qed.

Lemma gong_stream_is_terminated_witness :
  state (controller (snd (exec (GongChat.POST gong_down hello) (world_of (says "")))))
    = (if GongChat.client_left gong_down then Cancelled else Closed)
  /\ Returned tt = (if GongChat.client_left gong_down then Threw invalid_state else Returned tt).
Proof.
  apply (gong_stream_is_terminated gong_down hello (world_of (says ""))
           (mkResponse 200 sse_headers (event_stream (Returned tt))) (Returned tt));
    vm_compute; reflexivity.
Defined.

(** The three chat endpoints validate alike: a request is rejected by one
    of them with a message exactly when each of the others rejects it with
    the same message. *)
Theorem validation_is_uniform env request w message :
  (exec (ChatRoute.POST request) w = (Returned (rejection message), w)
   <-> exec (EmailChat.POST request) w = (Returned (rejection message), w))
  /\ (exec (ChatRoute.POST request) w = (Returned (rejection message), w)
      <-> exec (GongChat.POST env request) w = (Returned (rejection message), w)).
Proof.
  pose proof (chat_POST_spec request w) as Hc.
  pose proof (email_POST_spec request w) as He.
  pose proof (gong_POST_spec env request w) as Hg.
  destruct (validate (json_body request)) as [m| |last]; cbn [answers] in Hc, He, Hg.
  - rewrite Hc, He, Hg. split; split; intros H; exact H.
  - rewrite Hc, He, Hg. split; split; intros H; discriminate H.
  - destruct Hg as (t' & ->).
    destruct (chat_accepted_cases _ _ _ _ Hc) as [->|(p & t & ->)];
      destruct (email_accepted_cases _ _ _ _ He) as [->|(p' & w' & _ & ->)];
      split; split; intros H; try discriminate H;
      exfalso; unfold email_reply in H; destruct (ending _); discriminate H.
Qed.

(** When the non-streaming chat answers HTTP 500, the body is the fixed
    [{error, message}] document, and either nothing was done (the request
    could not be read) or one upstream query was opened and its run
    raised. *)
Theorem email_chat_failure request w resp :
  fst (exec (EmailChat.POST request) w) = Returned resp ->
  status resp = 500 ->
  body resp
  = json_doc (JObj [("error", JStr "Failed to process chat message");
                    ("message", JStr "Sorry, I encountered an error. Please try again.")])
  /\ (snd (exec (EmailChat.POST request) w) = w
      \/ exists q e,
           queries (snd (exec (EmailChat.POST request) w)) = (queries w ++ [q])%list
           /\ ending (agent w q) = Raises e).
Proof.
  intros Hresp Hstatus. pose proof (email_POST_spec request w) as H.
  destruct (validate (json_body request)) as [m| |last]; cbn [answers] in H.
  - rewrite H in Hresp. injection Hresp as <-. discriminate.
  - rewrite H in *. injection Hresp as <-. split; [reflexivity|left; reflexivity].
  - destruct (email_accepted_cases _ _ _ _ H) as [E|(prompt & w' & Hev & E)].
    { rewrite E in *. injection Hresp as <-. split; [reflexivity|left; reflexivity]. }
    cbn zeta in *. rewrite E in *. cbn [fst snd] in *.
    injection Hresp as <-. unfold email_reply in *.
    destruct (ending (agent w (email_query prompt w))) as [|e] eqn:Hend; [discriminate|].
    split; [reflexivity|]. right. exists (email_query prompt w), e.
    split; [apply (evolves_queries _ _ Hev)|exact Hend].
Qed.

Lemma email_chat_failure_witness :
  body (mkResponse 500 json_headers
          (json_doc (JObj [("error", JStr "Failed to process chat message");
                           ("message", JStr "Sorry, I encountered an error. Please try again.")])))
  = json_doc (JObj [("error", JStr "Failed to process chat message");
                    ("message", JStr "Sorry, I encountered an error. Please try again.")])
  /\ (snd (exec (EmailChat.POST hello) (world_of hi_then_raises)) = world_of hi_then_raises
      \/ exists q e,
           queries (snd (exec (EmailChat.POST hello) (world_of hi_then_raises)))
             = ([] ++ [q])%list
           /\ ending (agent (world_of hi_then_raises) q) = Raises e).
Proof.
  apply (email_chat_failure hello (world_of hi_then_raises)); vm_compute; reflexivity.
Defined.


(* ================================================================== *)
(** * The prompt                                                        *)
(* ================================================================== *)

Lemma last_of_snoc xs x : last_of (xs ++ [x]) = Some x.
Proof. unfold last_of. rewrite map_app. cbn [map]. apply last_last. Qed.

Lemma last_of_filter_split f xs m :
  last_of (filter f xs) = Some m ->
  exists pre post, xs = (pre ++ m :: post)%list /\ f m = true /\ existsb f post = false.
Proof.
  induction xs as [|x rest IH] using rev_ind; intros H.
  - discriminate.
  - rewrite filter_app in H. cbn [filter] in H. destruct (f x) eqn:Hx.
    + rewrite last_of_snoc in H. injection H as <-. exists rest, []. repeat split. exact Hx.
    + rewrite app_nil_r in H. destruct (IH H) as (pre & post & -> & Hm & Hpost).
      exists pre, (post ++ [x])%list. rewrite <- app_assoc. repeat split; [exact Hm|].
      rewrite existsb_app, Hpost. cbn. rewrite Hx. reflexivity.
Qed.

Lemma accepted_is_the_latest_user_turn parsed last :
  validate (Returned parsed) = Accepted last ->
  exists pre post,
    messages_of parsed = (pre ++ last :: post)%list
    /\ user_turn last = true
    /\ existsb user_turn post = false.
Proof.
  intros Hv. unfold validate in Hv.
  destruct (is_null parsed); [discriminate|].
  destruct (messages_missing parsed); [discriminate|].
  destruct (existsb is_null (messages_of parsed)); [discriminate|].
  destruct (last_of _) as [m|] eqn:Hl; [|discriminate].
  assert (m = last) as ->.
  { destruct (get_opt (Some m) "content") as [[]|]; congruence. }
  apply (last_of_filter_split _ _ _ Hl).
Qed.

Lemma no_new_query {A} (qs : list A) q : qs <> (qs ++ [q])%list.
Proof.
  intros H. apply (f_equal (@List.length A)) in H. rewrite List.length_app in H. cbn in H. lia.
Qed.



(** A content that does not convert to text: the chat relay answers HTTP
    500 and opens no query. *)
Example unprintable_content_is_a_failure :
  exec (ChatRoute.POST
          (conversation [JObj [("role", JStr "user");
                               ("content", JObj [("toString", JNum "1")])]]))
    (world_of hi_then_success)
  = (Returned chat_failure, world_of hi_then_success).
Proof. vm_compute. reflexivity. Qed.

(** The same for the non-streaming chat and its own system prompt. *)
Theorem email_query_is_built_from_the_conversation request w q :
  queries (snd (exec (EmailChat.POST request) w)) = (queries w ++ [q])%list ->
  exists parsed pre last post prompt,
    json_body request = Returned parsed
    /\ messages_of parsed = (pre ++ last :: post)%list
    /\ user_turn last = true
    /\ existsb user_turn post = false
    /\ full_prompt EmailChat.SYSTEM_PROMPT (messages_of parsed) (get_opt (Some last) "content")
       = Returned prompt
    /\ q = mkQuery prompt (EmailChat.query_options (process_cwd w)).
Proof.
  intros H. pose proof (email_POST_spec request w) as Hspec.
  destruct (validate (json_body request)) as [message| |last] eqn:Hv; cbn [answers] in Hspec.
  - rewrite Hspec in H. cbn [snd] in H. destruct (no_new_query _ _ H).
  - rewrite Hspec in H. cbn [snd] in H. destruct (no_new_query _ _ H).
  - unfold email_accepts, prompted, conversation_of in Hspec.
    destruct (json_body request) as [parsed|e] eqn:Hb; [|discriminate].
    destruct (full_prompt _ _ _) as [prompt|e] eqn:Hprompt.
    + destruct Hspec as (w' & Hev & E). cbn zeta in Hev, E. rewrite E in H. cbn [snd] in H.
      rewrite (evolves_queries _ _ Hev) in H. cbn [set_queries queries] in H.
      apply app_inv_head in H. injection H as <-.
      destruct (accepted_is_the_latest_user_turn parsed last Hv) as (pre & post & Hs & Hu & Hp).
      exists parsed, pre, last, post, prompt. repeat split; assumption.
    + rewrite Hspec in H. cbn [snd] in H. destruct (no_new_query _ _ H).
Qed.

(** The theorem at a conversation whose question is the number 1e2: it
    reaches the agent as 100. *)
Lemma email_query_is_built_from_the_conversation_witness :
  let request := conversation [user "hello"; assistant_turn "hi there";
                               JObj [("role", JStr "user"); ("content", JNum "1e2")]] in
  let asked := EmailChat.SYSTEM_PROMPT ++ newline ++ newline
                 ++ "Previous conversation:" ++ newline
                 ++ "User: hello" ++ newline ++ newline ++ "Assistant: hi there"
                 ++ newline ++ newline ++ "User: 100" in
  exists parsed pre last post prompt,
    json_body request = Returned parsed
    /\ messages_of parsed = (pre ++ last :: post)%list
    /\ user_turn last = true
    /\ existsb user_turn post = false
    /\ full_prompt EmailChat.SYSTEM_PROMPT (messages_of parsed) (get_opt (Some last) "content")
       = Returned prompt
    /\ mkQuery asked (EmailChat.query_options "/app")
       = mkQuery prompt (EmailChat.query_options (process_cwd (world_of hi_then_success))).
Proof.
  apply (email_query_is_built_from_the_conversation
           (conversation [user "hello"; assistant_turn "hi there";
                          JObj [("role", JStr "user"); ("content", JNum "1e2")]])
           (world_of hi_then_success)).
  vm_compute. reflexivity.
Defined.

Lemma removelast_snoc {A} (xs : list A) x : removelast (xs ++ [x]) = xs.
Proof. rewrite removelast_app by discriminate. cbn. apply app_nil_r. Qed.

Lemma filter_users_snoc xs m :
  user_turn m = false -> filter user_turn (xs ++ [m]) = filter user_turn xs.
Proof. intros H. rewrite filter_app. cbn. rewrite H. apply app_nil_r. Qed.

Lemma existsb_null_snoc xs m :
  existsb is_null (xs ++ [m]) = (existsb is_null xs || is_null m)%bool.
Proof. rewrite existsb_app. cbn. rewrite orb_false_r. reflexivity. Qed.

(** A final turn that is not the user's never reaches the agent: two
    conversations that differ in such a final turn only get the same answer
    from the same query (the context is all turns but the last, and the
    question is the latest user turn). *)
Theorem final_turn_of_another_role_is_dropped earlier m1 m2 w :
  user_turn m1 = false -> is_null m1 = false ->
  user_turn m2 = false -> is_null m2 = false ->
  fst (exec (ChatRoute.POST (mkRequest (Returned (JObj [("messages", JArr (earlier ++ [m1]))])))) w)
  = fst (exec (ChatRoute.POST (mkRequest (Returned (JObj [("messages", JArr (earlier ++ [m2]))])))) w)
  /\ queries (snd (exec (ChatRoute.POST
                           (mkRequest (Returned (JObj [("messages", JArr (earlier ++ [m1]))])))) w))
     = queries (snd (exec (ChatRoute.POST
                             (mkRequest (Returned (JObj [("messages", JArr (earlier ++ [m2]))])))) w)).
Proof.
  intros Hu1 Hn1 Hu2 Hn2.
  set (r1 := mkRequest (Returned (JObj [("messages", JArr (earlier ++ [m1]))]))).
  set (r2 := mkRequest (Returned (JObj [("messages", JArr (earlier ++ [m2]))]))).
  pose proof (chat_POST_spec r1 w) as H1. pose proof (chat_POST_spec r2 w) as H2.
  assert (Hv : forall m, user_turn m = false -> is_null m = false ->
            validate (Returned (JObj [("messages", JArr (earlier ++ [m]))]))
            = validate (Returned (JObj [("messages", JArr (earlier ++ [m1]))]))).
  { intros m Hu Hn. unfold validate, messages_missing, messages_of. cbn.
    rewrite !existsb_null_snoc, Hn, Hn1, !filter_users_snoc by assumption. reflexivity. }
  pose proof (Hv m2 Hu2 Hn2) as V2.
  unfold r1, r2 in *. cbn [json_body] in H1, H2. rewrite V2 in H2.
  destruct (validate (Returned (JObj [("messages", JArr (earlier ++ [m1]))])))
    as [msg| |last] eqn:V1.
  - cbn [answers] in *. rewrite H1, H2. split; reflexivity.
  - cbn [answers] in *. rewrite H1, H2. split; reflexivity.
  - cbn [answers] in H1, H2.
    unfold chat_accepts, prompted, conversation_of in H1, H2. cbn [json_body] in H1, H2.
    change (messages_of (JObj [("messages", JArr (earlier ++ [m1]))]))
      with (earlier ++ [m1])%list in H1.
    change (messages_of (JObj [("messages", JArr (earlier ++ [m2]))]))
      with (earlier ++ [m2])%list in H2.
    unfold full_prompt in H1, H2. rewrite !removelast_snoc in H1, H2.
    destruct (all_of transcript earlier) as [lines|e].
    + destruct (ToString _) as [text|e].
      * destruct H1 as (t1 & ->). destruct H2 as (t2 & ->). split; reflexivity.
      * rewrite H1, H2. split; reflexivity.
    + rewrite H1, H2. split; reflexivity.
Qed.

Lemma final_turn_of_another_role_is_dropped_witness :
  fst (exec (ChatRoute.POST
               (mkRequest (Returned (JObj [("messages",
                  JArr ([user "hello"] ++ [assistant_turn "hi there"]))])))) (world_of hi_then_success))
  = fst (exec (ChatRoute.POST
                 (mkRequest (Returned (JObj [("messages",
                    JArr ([user "hello"] ++ [assistant_turn "something else"]))])))) (world_of hi_then_success))
  /\ queries (snd (exec (ChatRoute.POST
                           (mkRequest (Returned (JObj [("messages",
                              JArr ([user "hello"] ++ [assistant_turn "hi there"]))])))) (world_of hi_then_success)))
     = queries (snd (exec (ChatRoute.POST
                             (mkRequest (Returned (JObj [("messages",
                                JArr ([user "hello"] ++ [assistant_turn "something else"]))])))) (world_of hi_then_success))).
Proof.
  apply (final_turn_of_another_role_is_dropped [user "hello"] (assistant_turn "hi there")
           (assistant_turn "something else") (world_of hi_then_success)); reflexivity.
Defined.


(* ================================================================== *)
(** * The timing helper                                                 *)
(* ================================================================== *)

(** [measureTime] records one timing sample after running [fn], named
    [function.<name>] when [fn] returned and [function.<name>.error] when
    it raised, whose value is the clock's advance while [fn] ran; outcome
    and world are those of [fn]. *)
Theorem measureTime_records_the_elapsed_time {T} name (fn : M T) w :
  emitted (Facade.measureTime name fn w)
  = (emitted (fn w)
       ++ [Sdk.metrics_distribution
             (match outcome (fn w) with
              | Returned _ => "function." ++ name
              | Threw _ => "function." ++ name ++ ".error"
              end)
             (num (now (world (fn w)) - now w)) "millisecond" []])%list
  /\ outcome (Facade.measureTime name fn w) = outcome (fn w)
  /\ world (Facade.measureTime name fn w) = world (fn w).
Proof.
  cbv beta iota zeta delta [Facade.measureTime Facade.trackTiming performance_now bind try_catch
                            read sdk ret throw outcome world emitted].
  destruct (fn w) as [[result|error] w1 calls]; repeat split; apply app_nil_r.
Qed.


(* ================================================================== *)
(** * Further properties of the analysis endpoint                       *)
(* ================================================================== *)

Section AnalysisExtras.
Variables (SYSTEM_PROMPT userPrompt preset : string).
Variable JSON_parse : string -> Outcome json.

(** When the extracted text parses to [null], the analysis endpoint
    answers HTTP 500 with the failure document, although the upstream run
    completed. *)
Theorem null_document_is_a_failure request w :
  let q := analysis_query SYSTEM_PROMPT userPrompt preset w in
  ending (agent w q) = Completes ->
  JSON_parse (EmailAnalyze.extract_json_string (text_of (yielded (events (agent w q)))))
    = Returned JNull ->
  fst (exec (EmailAnalyze.POST SYSTEM_PROMPT userPrompt preset JSON_parse request) w)
  = Returned (NextResponse_json EmailAnalyze.failure_doc 500).
Proof.
  intros q Hend Hparse.
  destruct (analysis_POST_spec SYSTEM_PROMPT userPrompt preset JSON_parse request w)
    as (w' & _ & ->).
  fold q. unfold analysis_reply. rewrite Hend. cbn zeta. rewrite Hparse. reflexivity.
Qed.

(** The answer of the analysis endpoint depends on the concatenated text
    of the upstream run only: not on the request, not on how the text was
    split into deltas, nor on the other messages in between. *)
Theorem analysis_depends_on_the_text_only request1 request2 w1 w2 :
  let q1 := analysis_query SYSTEM_PROMPT userPrompt preset w1 in
  let q2 := analysis_query SYSTEM_PROMPT userPrompt preset w2 in
  ending (agent w1 q1) = Completes ->
  ending (agent w2 q2) = Completes ->
  text_of (yielded (events (agent w1 q1))) = text_of (yielded (events (agent w2 q2))) ->
  fst (exec (EmailAnalyze.POST SYSTEM_PROMPT userPrompt preset JSON_parse request1) w1)
  = fst (exec (EmailAnalyze.POST SYSTEM_PROMPT userPrompt preset JSON_parse request2) w2).
Proof.
  intros q1 q2 H1 H2 Htext.
  destruct (analysis_POST_spec SYSTEM_PROMPT userPrompt preset JSON_parse request1 w1)
    as (w1' & _ & ->).
  destruct (analysis_POST_spec SYSTEM_PROMPT userPrompt preset JSON_parse request2 w2)
    as (w2' & _ & ->).
  fold q1 q2. unfold analysis_reply. rewrite H1, H2. cbn zeta. rewrite Htext. reflexivity.
Qed.

End AnalysisExtras.

Lemma null_document_is_a_failure_witness :
  fst (exec (EmailAnalyze.POST "system" "user" "full" JsonText.JSON_parse hello)
         (world_of (says "null")))
  = Returned (NextResponse_json EmailAnalyze.failure_doc 500).
Proof.
  apply (null_document_is_a_failure "system" "user" "full" JsonText.JSON_parse hello
           (world_of (says "null"))); vm_compute; reflexivity.
Defined.

Lemma analysis_depends_on_the_text_only_witness :
  fst (exec (EmailAnalyze.POST "system" "user" "full" JsonText.JSON_parse hello)
         (world_of (says "[1]")))
  = fst (exec (EmailAnalyze.POST "system" "user" "full" JsonText.JSON_parse null_body)
           (world_of (mkUpstream [text "["; tool "Read"; text "1]"; Yield (result "success")]
                        Completes))).
Proof.
  apply (analysis_depends_on_the_text_only "system" "user" "full" JsonText.JSON_parse
           hello null_body (world_of (says "[1]"))
           (world_of (mkUpstream [text "["; tool "Read"; text "1]"; Yield (result "success")]
                        Completes))); vm_compute; reflexivity.
Defined.

Import Fences.

Lemma index_split s : forall t n m,
  index n s t = Some m ->
  n <= m /\ exists a b, t = a ++ s ++ b /\ String.length a = m.
Proof.
  induction t as [|c t IH]; intros n m H.
  - destruct n; cbn in H; [|discriminate]. destruct s; [|discriminate].
    injection H as <-. split; [lia|]. exists "", "". split; reflexivity.
  - destruct n; cbn [index] in H.
    + destruct (prefix s (String c t)) eqn:Hp.
      * injection H as <-. split; [lia|]. destruct (prefix_split _ _ Hp) as [b Hb].
        exists "", b. split; [exact Hb|reflexivity].
      * destruct (index 0 s t) as [k|] eqn:Hk; [|discriminate]. injection H as <-.
        destruct (IH _ _ Hk) as (_ & a & b & -> & <-). split; [lia|].
        exists (String c a), b. split; reflexivity.
    + destruct (index n s t) as [k|] eqn:Hk; [|discriminate]. injection H as <-.
      destruct (IH _ _ Hk) as (Hle & a & b & -> & <-). split; [lia|].
      exists (String c a), b. split; reflexivity.
Qed.

Lemma substring_whole g : forall b, substring 0 (String.length g) (g ++ b) = g.
Proof.
  induction g as [|c g IH]; intros b; cbn.
  - destruct b; reflexivity.
  - rewrite IH. reflexivity.
Qed.

Lemma substring_middle a g b :
  substring (String.length a) (String.length g) (a ++ g ++ b) = g.
Proof. induction a as [|c a IH]; cbn; [apply substring_whole|exact IH]. Qed.

Lemma app_split_by_length a : forall x a2 y,
  a ++ x = a2 ++ y -> String.length a <= String.length a2 ->
  exists g, a2 = a ++ g /\ x = g ++ y.
Proof.
  induction a as [|c a IH]; intros x a2 y H Hlen.
  - exists a2. split; [reflexivity|exact H].
  - destruct a2 as [|d a2]; [cbn in Hlen; lia|]. cbn in H. injection H as -> H.
    destruct (IH _ _ _ H) as (g & -> & ->); [cbn in Hlen; lia|].
    exists g. split; reflexivity.
Qed.

Lemma match_fenced_decomposes opening text group :
  EmailAnalyze.match_fenced opening text = Some group ->
  exists before after,
    text = before ++ opening ++ group ++ closing ++ after
    /\ index (String.length before + String.length opening) closing text
       = Some (String.length before + String.length opening + String.length group).
Proof.
  unfold EmailAnalyze.match_fenced. fold closing.
  destruct (index 0 opening text) as [i|] eqn:Hi; [|discriminate].
  destruct (index (i + String.length opening) closing text) as [j|] eqn:Hj; [|discriminate].
  intros H. injection H as <-.
  destruct (index_split _ _ _ _ Hi) as (_ & a & b & Ha & Hla).
  destruct (index_split _ _ _ _ Hj) as (Hle & a2 & b2 & Ha2 & Hla2).
  subst i j.
  assert (E : (a ++ opening) ++ b = a2 ++ closing ++ b2).
  { rewrite append_assoc', <- Ha. exact Ha2. }
  destruct (app_split_by_length _ _ _ _ E) as (g & -> & ->).
  { rewrite length_app. exact Hle. }
  rewrite !length_app in *.
  replace (String.length a + String.length opening + String.length g
           - (String.length a + String.length opening)) with (String.length g) by lia.
  exists a, b2. rewrite Ha.
  assert (Hg : substring (String.length a + String.length opening) (String.length g)
                 (a ++ opening ++ g ++ closing ++ b2) = g).
  { rewrite <- length_app, <- append_assoc'. apply substring_middle. }
  rewrite Hg. split; [reflexivity|]. rewrite <- Ha. exact Hj.
Qed.

(** What the fence pattern captures stands in the text between an opening
    and a closing fence, and holds no closing fence itself (the group is
    lazy). *)
Theorem fenced_block_is_in_the_text opening text group :
  EmailAnalyze.match_fenced opening text = Some group ->
  (exists before after, text = before ++ opening ++ group ++ closing ++ after)
  /\ index 0 closing group = None.
Proof.
  intros H. destruct (match_fenced_decomposes _ _ _ H) as (before & after & Ht & Hj).
  split; [eauto|].
  destruct (index 0 closing group) as [p|] eqn:Hp; [exfalso|reflexivity].
  destruct (index_split _ _ _ _ Hp) as (_ & u & v & -> & <-).
  apply (index_correct2 _ _ _ _ Hj
           (String.length before + String.length opening + String.length u)).
  - lia.
  - rewrite !length_app. cbn. lia.
  - assert (E : text = (before ++ opening ++ u) ++ closing ++ (v ++ closing ++ after))
      by (rewrite Ht, !append_assoc'; reflexivity).
    assert (L : String.length before + String.length opening + String.length u
                = String.length (before ++ opening ++ u))
      by (rewrite !length_app; lia).
    rewrite E, L. apply substring_middle.
Qed.

Lemma fenced_block_is_in_the_text_witness :
  (exists before after,
     "Here:" ++ newline ++ json_opening ++ "{}" ++ closing ++ " done"
     = before ++ json_opening ++ "{}" ++ closing ++ after)
  /\ index 0 closing "{}" = None.
Proof.
  apply (fenced_block_is_in_the_text json_opening
           ("Here:" ++ newline ++ json_opening ++ "{}" ++ closing ++ " done") "{}").
  vm_compute. reflexivity.
Defined.

Lemma index_skips c0 o before : forall rest,
  no_backtick before = true -> c0 = "`"%char ->
  index 0 (String c0 o) (before ++ String c0 o ++ rest) = Some (String.length before).
Proof.
  intros rest Hb ->.
  assert (Hp : prefix (String "`" o) (String "`" o ++ rest) = true) by apply prefix_app.
  set (tail := String "`" o ++ rest) in *.
  assert (Ht : exists t, tail = String "`" t) by (eexists; reflexivity).
  clearbody tail. destruct Ht as [t ->].
  induction before as [|c before IH].
  - cbn [append String.length index]. rewrite Hp. reflexivity.
  - cbn [no_backtick] in Hb. apply andb_true_iff in Hb as [Hc Hb].
    cbn [append String.length index]. 
    replace (prefix (String "`" o) (String c (before ++ String "`" t))) with false.
    + rewrite (IH Hb). reflexivity.
    + cbn [prefix]. destruct (ascii_dec "`" c) as [<-|_]; [discriminate|reflexivity].
Qed.

Lemma prefix_cons a s b t :
  prefix (String a s) (String b t) = if ascii_dec a b then prefix s t else false.
Proof. reflexivity. Qed.

Lemma prefix_empty t : prefix "" t = true.
Proof. destruct t; reflexivity. Qed.

Lemma prefix_of_empty a s : prefix (String a s) "" = false.
Proof. reflexivity. Qed.

Ltac compare_chars :=
  repeat match goal with
         | |- context [ascii_dec ?a ?b] =>
             destruct (ascii_dec a b); [try discriminate; subst|]
         | H : context [ascii_dec ?a ?b] |- _ =>
             destruct (ascii_dec a b); [try discriminate; subst|]
         end.

Lemma closing_does_not_overlap c g after :
  prefix closing (String c g) = false ->
  prefix closing (String c (g ++ closing ++ after)) = false.
Proof.
  unfold closing, EmailAnalyze.fence, newline. intros H.
  change (ascii_of_nat 10) with "010"%char in *.
  destruct g as [|c1 [|c2 [|c3 g]]]; cbn [append] in H |- *;
    repeat (progress (rewrite ?prefix_cons, ?prefix_empty, ?prefix_of_empty in H |- *;
                      compare_chars));
    first [congruence | reflexivity].
Qed.

Lemma first_closing g after :
  index 0 closing g = None ->
  index 0 closing (g ++ closing ++ after) = Some (String.length g).
Proof.
  induction g as [|c g IH]; intros H.
  - cbn [append String.length]. pose proof (prefix_app closing after) as Hp.
    destruct (closing ++ after) eqn:E; [vm_compute in E; discriminate|].
    cbn [index]. rewrite Hp. reflexivity.
  - cbn [index] in H. destruct (prefix closing (String c g)) eqn:Hp; [discriminate|].
    destruct (index 0 closing g) eqn:Hg; [discriminate|].
    cbn [append String.length index]. rewrite (closing_does_not_overlap _ _ _ Hp), (IH eq_refl).
    reflexivity.
Qed.

Lemma match_fenced_round_trip c0 o before group after :
  c0 = "`"%char ->
  no_backtick before = true ->
  index 0 closing group = None ->
  EmailAnalyze.match_fenced (String c0 o) (before ++ String c0 o ++ group ++ closing ++ after)
  = Some group.
Proof.
  intros Hc Hb Hg. unfold EmailAnalyze.match_fenced. fold closing.
  rewrite (index_skips c0 o before _ Hb Hc).
  rewrite <- length_app, <- (append_assoc' before (String c0 o) (group ++ closing ++ after)).
  rewrite index_shift, (first_closing _ _ Hg).
  cbn [option_map].
  replace (String.length (before ++ String c0 o) + String.length group
           - String.length (before ++ String c0 o)) with (String.length group) by lia.
  rewrite substring_middle. reflexivity.
Qed.

(** A block fenced as json is extracted exactly, whatever follows it, when
    the text before it has no backtick and the block holds no closing
    fence. *)
Theorem fenced_json_is_extracted before group after :
  no_backtick before = true ->
  index 0 closing group = None ->
  EmailAnalyze.extract_json_string (before ++ json_opening ++ group ++ closing ++ after) = group.
Proof.
  intros Hb Hg. unfold EmailAnalyze.extract_json_string.
  change (EmailAnalyze.fence ++ "json" ++ newline) with json_opening.
  change json_opening with (String "`" ("``json" ++ newline)).
  rewrite (match_fenced_round_trip _ _ before group after eq_refl Hb Hg). reflexivity.
Qed.

Lemma fenced_json_is_extracted_witness :
  EmailAnalyze.extract_json_string
    ("Here is the analysis:" ++ newline ++ json_opening ++ "{}" ++ closing ++ newline ++ "Done.")
  = "{}".
Proof.
  apply (fenced_json_is_extracted ("Here is the analysis:" ++ newline) "{}" (newline ++ "Done."));
    vm_compute; reflexivity.
Defined.

Lemma substring_0_prefix s : forall n,
  exists rest, s = substring 0 n s ++ rest
               /\ String.length (substring 0 n s) = Nat.min n (String.length s).
Proof.
  induction s as [|c s IH]; intros n.
  - exists "". destruct n; split; reflexivity.
  - destruct n; cbn [substring].
    + exists (String c s). split; reflexivity.
    + destruct (IH n) as (rest & Hr & Hl). exists rest. cbn [append String.length].
      rewrite <- Hr, Hl. split; reflexivity.
Qed.

Section FallbackSummary.
Variables (SYSTEM_PROMPT userPrompt preset : string).
Variable JSON_parse : string -> Outcome json.

(** The summary of the fallback is the beginning of the agent's text, cut
    at 500 characters. *)
Theorem fallback_summary_is_a_prefix request w e :
  let q := analysis_query SYSTEM_PROMPT userPrompt preset w in
  let fullResponse := text_of (yielded (events (agent w q))) in
  ending (agent w q) = Completes ->
  JSON_parse (EmailAnalyze.extract_json_string fullResponse) = Threw e ->
  exists summary rest doc,
    fst (exec (EmailAnalyze.POST SYSTEM_PROMPT userPrompt preset JSON_parse request) w)
      = Returned (NextResponse_json doc 200)
    /\ get_opt (Some doc) "summary" = Some (JStr summary)
    /\ fullResponse = summary ++ rest
    /\ String.length summary = Nat.min 500 (String.length fullResponse).
Proof.
  intros q fullResponse Hend Hparse.
  destruct (analysis_POST_spec SYSTEM_PROMPT userPrompt preset JSON_parse request w)
    as (w' & _ & ->).
  fold q. unfold analysis_reply. rewrite Hend. cbn zeta. fold fullResponse. rewrite Hparse.
  destruct (substring_0_prefix fullResponse 500) as (rest & Hr & Hl).
  exists (substring 0 500 fullResponse), rest, (EmailAnalyze.fallback fullResponse).
  repeat split; assumption.
Qed.

End FallbackSummary.

Lemma fallback_summary_is_a_prefix_witness :
  exists summary rest doc,
    fst (exec (EmailAnalyze.POST "system" "user" "full" JsonText.JSON_parse hello)
           (world_of (says "I could not reach the inbox.")))
      = Returned (NextResponse_json doc 200)
    /\ get_opt (Some doc) "summary" = Some (JStr summary)
    /\ text_of (yielded (events (says "I could not reach the inbox."))) = summary ++ rest
    /\ String.length summary
       = Nat.min 500 (String.length (text_of (yielded (events (says "I could not reach the inbox."))))).
Proof.
  apply (fallback_summary_is_a_prefix "system" "user" "full" JsonText.JSON_parse hello
           (world_of (says "I could not reach the inbox."))
           (SyntaxError "Unexpected token in JSON")); vm_compute; reflexivity.
Defined.


(* ================================================================== *)
(** * The page and its endpoints                                        *)
(* ================================================================== *)

Import Browser PageRuns.

Lemma exec_done {S A} (a : A) (tab : Tab S) w : exec (done a tab) w = (Returned (Returned a, tab), w).
Proof. reflexivity. Qed.

Lemma exec_raise {S A} e (tab : Tab S) w :
  exec (@raise S A e tab) w = (Returned (Threw e, tab), w).
Proof. reflexivity. Qed.

Lemma exec_then {S A B} (c : Handler S A) (k : A -> Handler S B) tab w :
  exec (then_ c k tab) w = and_next (exec (c tab) w) k.
Proof.
  unfold then_. rewrite exec_bind. unfold and_next, and_then.
  destruct (exec (c tab) w) as [[[[a|e] tab']|e] w']; reflexivity.
Qed.

Lemma exec_await {S A} (c : M A) (tab : Tab S) w :
  exec (await c tab) w = awaited tab (exec c w).
Proof.
  unfold await. rewrite exec_try_catch, exec_bind. unfold awaited.
  destruct (exec c w) as [[a|e] w']; reflexivity.
Qed.

Lemma exec_try_catch_finally {S A} (c : Handler S A) handler finalizer tab w :
  exec (try_catch_finally c handler finalizer tab) w
  = finished (caught (exec (c tab) w) handler) finalizer.
Proof.
  unfold try_catch_finally. rewrite exec_bind. unfold finished, caught, and_then.
  destruct (exec (c tab) w) as [[[[a|e] tab']|e] w']; [| |reflexivity].
  - rewrite exec_bind, exec_ret. cbn [and_then snd fst]. rewrite exec_bind.
    unfold and_then. destruct (exec (finalizer tab') w') as [[[[[]|e] t]|e] w'']; reflexivity.
  - rewrite exec_bind. unfold and_then.
    destruct (exec (handler e tab') w') as [[[o t]|e'] w'']; [|reflexivity].
    cbn [snd fst]. rewrite exec_bind. unfold and_then.
    destruct (exec (finalizer t) w'') as [[[[[]|e1] t1]|e1] w1]; reflexivity.
Qed.

Lemma exec_state {S A} (f : S -> A) tab w :
  exec (state f tab) w = (Returned (Returned (f (component tab)), tab), w).
Proof. reflexivity. Qed.

Lemma exec_set {S} (f : S -> S) tab w :
  exec (set f tab) w
  = (Returned (Returned tt, mkTab (f (component tab)) (uuids tab) (drawn tab)), w).
Proof. reflexivity. Qed.

Lemma exec_page_randomUUID {S} (tab : Tab S) w :
  exec (randomUUID tab) w
  = (Returned (Returned (uuids tab (drawn tab)),
               mkTab (component tab) (uuids tab) (Datatypes.S (drawn tab))), w).
Proof. reflexivity. Qed.

Lemma exec_page_startSpan {S A} context (callback : string -> Handler S A) tab w :
  exec (startSpan context callback tab) w = exec (callback (Sdk.span_name context) tab) w.
Proof. unfold startSpan. apply exec_Sentry_startSpan. Qed.

#[global] Hint Rewrite @exec_done @exec_raise @exec_then @exec_await @exec_try_catch_finally
  @exec_state @exec_set @exec_page_randomUUID @exec_page_startSpan : exec.

Ltac page_run :=
  repeat (progress (try (rewrite_strat topdown (hints exec));
                    cbn [and_then or_else fst snd and_next awaited caught finished
                         component uuids drawn])).

Lemma emitted_then_state {S A B} (f : S -> A) (k : A -> Handler S B) tab w :
  emitted (then_ (state f) k tab w) = emitted (k (f (component tab)) tab w).
Proof. reflexivity. Qed.

(** Submitting a blank input, or submitting while a reply is awaited,
    does nothing at all: no request, no telemetry, no change of state,
    whatever serves the endpoint. *)
Theorem blank_or_busy_submit_is_ignored fetch (tab : Tab EmailAgentPage.State) w :
  trim (EmailAgentPage.input (component tab)) = ""
  \/ EmailAgentPage.chatLoading (component tab) = true ->
  exec (EmailAgentPage.handleChatSubmit fetch tab) w = (Returned (Returned tt, tab), w)
  /\ emitted (EmailAgentPage.handleChatSubmit fetch tab w) = [].
Proof.
  intros H.
  assert (Hc : (negb (truthy (Some (JStr (trim (EmailAgentPage.input (component tab))))))
                || EmailAgentPage.chatLoading (component tab))%bool = true).
  { destruct H as [-> | ->]; [reflexivity|apply orb_true_r]. }
  unfold EmailAgentPage.handleChatSubmit. split.
  - rewrite !exec_then, !exec_state. cbn [and_next]. 
    rewrite !exec_then, !exec_state. cbn [and_next].
    rewrite !exec_then, !exec_state. cbn [and_next].
    rewrite Hc. reflexivity.
  - rewrite !emitted_then_state, Hc. reflexivity.
Qed.

Lemma blank_or_busy_submit_is_ignored_witness :
  exec (EmailAgentPage.handleChatSubmit (fun _ => EmailChat.POST)
          (mkTab (EmailAgentPage.setInput "  " (EmailAgentPage.initial 0)) (fun _ => "id") 0))
    (world_of hi_then_success)
  = (Returned (Returned tt,
               mkTab (EmailAgentPage.setInput "  " (EmailAgentPage.initial 0)) (fun _ => "id") 0),
     world_of hi_then_success)
  /\ emitted (EmailAgentPage.handleChatSubmit (fun _ => EmailChat.POST)
                (mkTab (EmailAgentPage.setInput "  " (EmailAgentPage.initial 0)) (fun _ => "id") 0)
                (world_of hi_then_success)) = [].
Proof.
  apply (blank_or_busy_submit_is_ignored (fun _ => EmailChat.POST)
           (mkTab (EmailAgentPage.setInput "  " (EmailAgentPage.initial 0)) (fun _ => "id") 0)
           (world_of hi_then_success)).
  left. reflexivity.
Defined.

Import EmailAgentPage.

Tactic Notation "fields" :=
  cbn [component uuids drawn loading todos insights analysis messages input chatLoading
       setLoading setTodos setInsights setAnalysis setMessages setInput setChatLoading
       id role content timestamp].
Tactic Notation "fields" "in" "*" :=
  cbn [component uuids drawn loading todos insights analysis messages input chatLoading
       setLoading setTodos setInsights setAnalysis setMessages setInput setChatLoading
       id role content timestamp] in *.

Lemma exchange_outcomes fetch span sent tab w :
  exists o tab' w',
    exec (exchange fetch span sent tab) w = (Returned (o, tab'), w')
    /\ uuids tab' = uuids tab
    /\ same_panel (component tab) (component tab')
    /\ ((exists e, o = Threw e)
        /\ messages (component tab') = messages (component tab)
        \/ exists reply,
             messages (component tab') = (messages (component tab) ++ [reply])%list
             /\ role reply = "assistant").
Proof.
  unfold exchange, same_panel. page_run.
  destruct (exec (fetch _ _) w) as [[response|e] w1]; page_run.
  2:{ eexists _, _, _. split; [reflexivity|]. fields. repeat split. left. eauto. }
  destruct (ok response); cbn [negb]; page_run.
  2:{ eexists _, _, _. split; [reflexivity|]. fields. repeat split. left. eauto. }
  unfold response_json. destruct (body response) as [data|started]; page_run.
  2:{ eexists _, _, _. split; [reflexivity|]. fields. repeat split. left. eauto. }
  destruct (get (Some data) "message") as [message|e]; page_run.
  2:{ eexists _, _, _. split; [reflexivity|]. fields. repeat split. left. eauto. }
  destruct (get (Some data) "todos") as [newTodos|e]; page_run.
  2:{ eexists _, _, _. split; [reflexivity|]. fields. repeat split. right. eauto. }
  assert (Htodos : forall (tab0 : Tab State) w0,
            exists s0, exec (match newTodos with
                             | Some v => if truthy newTodos then set (setTodos v) else done tt
                             | None => done tt
                             end tab0) w0
                       = (Returned (Returned tt, mkTab s0 (uuids tab0) (drawn tab0)), w0)
                       /\ same_panel (component tab0) s0 /\ messages s0 = messages (component tab0)).
  { intros [s0 u0 d0] w0. destruct newTodos as [v|]; [destruct (truthy (Some v))|];
      eexists; (split; [reflexivity|]); fields; repeat split. }
  destruct (Htodos (mkTab (setMessages (fun prev => (prev ++ [mkMessage (uuids tab (drawn tab)) "assistant" message (now w1)])%list) (component tab)) (uuids tab) (S (drawn tab))) w1)
    as (s1 & -> & (L1 & A1 & I1 & C1) & M1). clear Htodos. page_run.
  destruct (get (Some data) "insights") as [newInsights|e]; page_run.
  2:{ eexists _, _, _. split; [reflexivity|]. fields. rewrite L1, A1, I1, C1, M1. fields.
      repeat split. right. eauto. }
  assert (Hinsights : forall (tab0 : Tab State) w0,
            exists s0, exec (match newInsights with
                             | Some v => if truthy newInsights then set (setInsights v) else done tt
                             | None => done tt
                             end tab0) w0
                       = (Returned (Returned tt, mkTab s0 (uuids tab0) (drawn tab0)), w0)
                       /\ same_panel (component tab0) s0 /\ messages s0 = messages (component tab0)).
  { intros [s0 u0 d0] w0. destruct newInsights as [v|]; [destruct (truthy (Some v))|];
      eexists; (split; [reflexivity|]); fields; repeat split. }
  destruct (Hinsights (mkTab s1 (uuids tab) (S (drawn tab))) w1)
    as (s2 & -> & (L2 & A2 & I2 & C2) & M2). clear Hinsights. page_run. fields in *.
  assert (Hs2 : same_panel (component tab) s2
                /\ messages s2 = (messages (component tab) ++ [mkMessage (uuids tab (drawn tab)) "assistant" message (now w1)])%list).
  { unfold same_panel. rewrite L2, A2, I2, C2, M2, L1, A1, I1, C1, M1. fields. repeat split. }
  destruct Hs2 as [Hpanel Hmessages].
  destruct (get_length message) as [responseLength|e]; page_run.
  2:{ eexists _, _, _. split; [reflexivity|]. fields. repeat split; try apply Hpanel.
      right. eauto. }
  destruct (get (Some data) "toolsUsed") as [toolsUsed|e]; page_run;
    (eexists _, _, _; split; [reflexivity|]; fields; repeat split; try apply Hpanel;
     right; eauto).
Qed.

Lemma exec_apologise error (tab : Tab State) w :
  exec (apologise error tab) w
  = (Returned (Returned tt,
               mkTab (setMessages
                        (fun prev => (prev ++ [mkMessage (uuids tab (drawn tab)) "assistant"
                                                 (Some (JStr apology)) (now w)])%list)
                        (component tab))
                 (uuids tab) (S (drawn tab))), w).
Proof. unfold apologise. page_run. reflexivity. Qed.

Lemma not_blank text : text <> "" -> truthy (Some (JStr text)) = true.
Proof. intros H. cbn. destruct (String.eqb_spec text ""); [contradiction|reflexivity]. Qed.

(** Whatever serves the endpoint (also when the fetch fails, the answer
    is not OK or is not the expected document), a submit that is let
    through ends normally with the trimmed input appended as the user's
    turn, followed by at least one turn of the assistant (the reply, the
    apology, or both); the input is cleared, and the page is no longer
    waiting. *)
Theorem every_submit_is_answered fetch (tab : Tab State) w :
  trim (input (component tab)) <> "" ->
  chatLoading (component tab) = false ->
  exists tab' w' user answers,
    exec (handleChatSubmit fetch tab) w = (Returned (Returned tt, tab'), w')
    /\ messages (component tab') = (messages (component tab) ++ user :: answers)%list
    /\ role user = "user"
    /\ content user = Some (JStr (trim (input (component tab))))
    /\ answers <> []
    /\ Forall (fun m => role m = "assistant") answers
    /\ input (component tab') = ""
    /\ chatLoading (component tab') = false
    /\ loading (component tab') = loading (component tab)
    /\ analysis (component tab') = analysis (component tab).
Proof.
  intros Hinput Hbusy. unfold handleChatSubmit. page_run.
  rewrite (not_blank _ Hinput), Hbusy. cbn [negb orb]. page_run.
  match goal with
  | |- context [exec (exchange ?f ?sp ?se ?t) ?w0] =>
      destruct (exchange_outcomes f sp se t w0)
        as (o & tab1 & w1 & -> & Hu & (L & A & I & C) & Hm)
  end.
  fields in *.
  destruct Hm as [[[e ->] Hm] | [reply [Hm Hr]]].
  - cbn [caught]. rewrite exec_apologise. page_run.
    eexists _, _, _, _. split; [reflexivity|]. fields. rewrite Hm, L, A, ?I, ?C. fields.
    rewrite <- app_assoc. cbn [app].
    split; [reflexivity|]. repeat split; try discriminate.
    constructor; [reflexivity|constructor].
  - destruct o as [[]|e]; cbn [caught]; rewrite ?exec_apologise; page_run.
    + eexists _, _, _, _. split; [reflexivity|]. fields. rewrite Hm, L, A, ?I, ?C. fields.
      rewrite <- app_assoc. cbn [app].
      split; [reflexivity|]. repeat split; try discriminate.
      constructor; [exact Hr|constructor].
    + eexists _, _, _, _. split; [reflexivity|]. fields. rewrite Hm, L, A, ?I, ?C. fields.
      rewrite <- !app_assoc. cbn [app].
      split; [reflexivity|]. repeat split; try discriminate.
      constructor; [exact Hr|]. constructor; [reflexivity|constructor].
Qed.

Lemma wire_not_null ms : existsb is_null (map wire ms) = false.
Proof. induction ms as [|m ms IH]; [reflexivity|exact IH]. Qed.

Lemma page_request_is_accepted ms user text :
  role user = "user" -> content user = Some (JStr text) ->
  validate (json_body (chat_request (ms ++ [user]))) = Accepted (wire user).
Proof.
  intros Hr Hc. unfold validate, chat_request, messages_missing, messages_of.
  cbn [json_body is_null get_opt lookup String.eqb Ascii.eqb Bool.eqb isArray negb elements].
  rewrite wire_not_null, map_app, filter_app. cbn [map filter].
  assert (Hu : user_turn (wire user) = true).
  { unfold wire. rewrite Hr. reflexivity. }
  rewrite Hu, last_of_snoc.
  unfold wire. rewrite Hc. reflexivity.
Qed.

(** A transcript of texts makes a prompt. *)
Lemma text_transcript_builds sys ms text :
  Forall (fun m => exists t, content m = Some (JStr t)) ms ->
  exists prompt, full_prompt sys (map wire ms) (Some (JStr text)) = Returned prompt.
Proof.
  intros H. unfold full_prompt.
  assert (Hall : forall xs, Forall (fun m => exists t, content m = Some (JStr t)) xs ->
                 forall js, incl js (map wire xs) ->
                 exists lines, all_of transcript js = Returned lines).
  { intros xs Hxs. induction js as [|j js IH]; intros Hincl; [eexists; reflexivity|].
    rewrite all_of_cons.
    assert (Hj : In j (map wire xs)) by (apply Hincl; left; reflexivity).
    apply in_map_iff in Hj as (m & <- & Hm).
    rewrite Forall_forall in Hxs. destruct (Hxs m Hm) as [t Ht].
    unfold transcript at 1, wire at 1. rewrite Ht. cbn [property get_opt lookup String.eqb
      Ascii.eqb Bool.eqb ToString ToString_json].
    replace (lookup "content" [("role", JStr (role m)); ("content", JStr t)])
      with (Some (JStr t)) by reflexivity.
    cbn [ToString ToString_json].
    destruct IH as [lines ->]; [intros x Hx; apply Hincl; right; exact Hx|].
    eexists. reflexivity. }
  destruct (Hall ms H (removelast (map wire ms))) as [lines ->].
  { intros x Hx. clear -Hx. induction (map wire ms) as [|a [|b l] IH]; [destruct Hx|destruct Hx|].
    change (removelast (a :: b :: l)) with (a :: removelast (b :: l)) in Hx.
    destruct Hx as [<-|Hx]; [left; reflexivity|right; exact (IH Hx)]. }
  cbn [ToString ToString_json]. eexists. reflexivity.
Qed.

(** The page served by the non-streaming chat endpoint: every submit that
    is let through passes the endpoint's validation.  When the prompt can
    be built from the page's transcript (as it can from a transcript of
    texts), exactly one upstream query is opened with that prompt, and the
    page ends with the user's turn and one turn of the assistant: the text
    of the upstream run or, when it raised, the apology.  When the prompt
    cannot be built, no query is opened and the turn of the assistant is the
    apology.  The to-dos, the insights and the analysis stay as they were,
    and the contents added to the transcript are texts. *)
Theorem page_chat_round_trip (tab : Tab State) w :
  let s := component tab in
  let text := trim (input s) in
  let userMessage := mkMessage (uuids tab (drawn tab)) "user" (Some (JStr text)) (now w) in
  let built := full_prompt EmailChat.SYSTEM_PROMPT (map wire (messages s ++ [userMessage]))
                 (Some (JStr text)) in
  let answer :=
    match built with
    | Returned prompt =>
        match ending (agent w (email_query prompt w)) with
        | Completes => text_of (yielded (events (agent w (email_query prompt w))))
        | Raises _ => apology
        end
    | Threw _ => apology
    end in
  text <> "" ->
  chatLoading s = false ->
  exists w',
    match built with
    | Returned prompt => evolves (set_queries (queries w ++ [email_query prompt w]) w) w'
    | Threw _ => w' = w
    end
    /\ exec (handleChatSubmit (fun _ => EmailChat.POST) tab) w
       = (Returned
            (Returned tt,
             mkTab (mkState (loading s) (todos s) (insights s) (analysis s)
                      (messages s
                         ++ [userMessage;
                             mkMessage (uuids tab (S (drawn tab))) "assistant"
                               (Some (JStr answer)) (now w')])
                      "" false)
               (uuids tab) (S (S (drawn tab)))),
          w').
Proof.
  intros s text userMessage built answer Hinput Hbusy. subst answer.
  unfold handleChatSubmit. page_run. fold s. fold text.
  rewrite (not_blank _ Hinput), Hbusy. cbn [negb orb]. page_run.
  unfold exchange. page_run. fold userMessage.
  pose proof (email_POST_spec (chat_request (messages s ++ [userMessage])) w) as Hs.
  rewrite (page_request_is_accepted (messages s) userMessage text eq_refl eq_refl) in Hs.
  cbn [answers] in Hs. unfold email_accepts, prompted in Hs.
  change (conversation_of (chat_request (messages s ++ [userMessage])))
    with (map wire (messages s ++ [userMessage])) in Hs.
  change (get_opt (Some (wire userMessage)) "content") with (Some (JStr text)) in Hs.
  fold built in Hs. destruct built as [prompt|e].
  - destruct Hs as (w' & Hev & E). cbn zeta in Hev, E. rewrite E. exists w'.
    split; [exact Hev|].
    unfold email_reply. destruct (ending (agent w (email_query prompt w))).
    + page_run. cbn [ok NextResponse_json status Nat.leb andb negb]. page_run.
      cbn [response_json NextResponse_json body]. page_run.
      cbn [get lookup String.eqb Ascii.eqb Bool.eqb lift]. page_run.
      cbn [get get_length lookup String.eqb Ascii.eqb Bool.eqb lift truthy]. page_run.
      unfold setChatLoading, setMessages, setInput. fields. rewrite <- app_assoc. reflexivity.
    + page_run. cbn [ok email_failure NextResponse_json status Nat.leb andb negb]. page_run.
      unfold apologise. page_run.
      unfold setChatLoading, setMessages, setInput. fields. rewrite <- app_assoc. reflexivity.
  - rewrite Hs. exists w. split; [reflexivity|].
    page_run. cbn [ok email_failure NextResponse_json status Nat.leb andb negb]. page_run.
    unfold apologise. page_run.
    unfold setChatLoading, setMessages, setInput. fields. rewrite <- app_assoc. reflexivity.
Qed.

Lemma get_not_null doc k : is_null doc = false -> get (Some doc) k = Returned (get_opt (Some doc) k).
Proof. destruct doc; intros H; try discriminate; reflexivity. Qed.


Section PageAndAnalysis.
Variables (SYSTEM_PROMPT userPrompt preset : string).
Variable JSON_parse : string -> Outcome json.


End PageAndAnalysis.

Lemma every_submit_is_answered_witness :
  exists tab' w' user answers,
    exec (handleChatSubmit (fun _ => EmailChat.POST) (typed " hello ")) (world_of hi_then_raises)
      = (Returned (Returned tt, tab'), w')
    /\ messages (component tab')
       = (messages (component (typed " hello ")) ++ user :: answers)%list
    /\ role user = "user"
    /\ content user = Some (JStr (trim (input (component (typed " hello ")))))
    /\ answers <> []
    /\ Forall (fun m => role m = "assistant") answers
    /\ input (component tab') = ""
    /\ chatLoading (component tab') = false
    /\ loading (component tab') = loading (component (typed " hello "))
    /\ analysis (component tab') = analysis (component (typed " hello ")).
Proof.
  apply (every_submit_is_answered (fun _ => EmailChat.POST) (typed " hello ")
           (world_of hi_then_raises)); [vm_compute; discriminate | reflexivity].
Defined.

Lemma page_chat_round_trip_witness :
  let w := world_of hi_then_success in
  let asked := EmailChat.SYSTEM_PROMPT ++ newline ++ newline
                 ++ "Previous conversation:" ++ newline
                 ++ "Assistant: " ++ greeting ++ newline ++ newline ++ "User: hello" in
  exists w',
    evolves (set_queries (queries w ++ [email_query asked w]) w) w'
    /\ exec (handleChatSubmit (fun _ => EmailChat.POST) (typed " hello ")) w
       = (Returned
            (Returned tt,
             mkTab (mkState false (JArr []) (JArr []) (JStr "")
                      (messages (initial 0)
                         ++ [mkMessage "id-0" "user" (Some (JStr "hello")) 0;
                             mkMessage "id-1" "assistant" (Some (JStr "hi")) (now w')])
                      "" false)
               (fun n => "id-" ++ decimal n) 2),
          w').
Proof.
  apply (page_chat_round_trip (typed " hello ") (world_of hi_then_success));
    [vm_compute; discriminate | reflexivity].
Defined.
